(** * Churn-rate predictor: the enrichment / scoring / persistence pipeline

    A shallow embedding of [pkg/appcore/appcore.go] (the shared core) and of
    the Vercel entry point [PredictHandler] of package [handler], together
    with the two tables of [schema.sql].

    Modelling conventions.
    - Go strings are byte strings: Rocq's [string].  The case mappings and
      [TrimSpace] of package [strings] are written out for ASCII text; what
      they do on text with a byte >= 0x80 depends on Go's Unicode tables and
      is taken as a parameter ([Unicode]).
    - [int] is [Z]; the code only compares ratings.
    - A finite [float64] is modelled by the rational it denotes; a literal
      such as 0.8 denotes the double nearest to it ([float64]).  Scores read
      from JSON are always finite.
    - The inference endpoint, the storage service, the clock and the process
      environment are inputs ([Env]); the handler threads the state of the
      tables, of the process and the list of calls performed so far
      ([World]) through a small state monad. *)

From Stdlib Require Import ZArith QArith List String Ascii Bool Lia.
Import ListNotations.

Local Open Scope string_scope.
Local Open Scope Z_scope.

(* ------------------------------------------------------------------ *)
(** ** float64 literals *)

(** Nearest integer to [n/d] ([d > 0]), ties to even. *)
Definition roundHalfEven (n d : Z) : Z :=
  let q := n / d in
  let r := n mod d in
  match 2 * r ?= d with
  | Lt => q
  | Gt => q + 1
  | Eq => if Z.even q then q else q + 1
  end.

(** The exponent [e] with [2^e <= n/d < 2^(e+1)], for [n, d > 0]. *)
Definition binade (n d : Z) : Z :=
  let e0 := Z.log2 n - Z.log2 d in
  let above := if 0 <=? e0 then d * 2 ^ e0 <=? n else d <=? n * 2 ^ (- e0) in
  if above then e0 else e0 - 1.

(** [float64 x]: the value of the binary64 number nearest to the positive
    literal [x] (53 significant bits, round to nearest even; normal range). *)
Definition float64 (x : Q) : Q :=
  let n := Qnum x in
  let d := Z.pos (Qden x) in
  if n <=? 0 then 0%Q
  else
    let s := 52 - binade n d in
    let m := if 0 <=? s then roundHalfEven (n * 2 ^ s) d
             else roundHalfEven n (d * 2 ^ (- s)) in
    if 0 <=? s then Qmake m (Z.to_pos (2 ^ s)) else inject_Z (m * 2 ^ (- s)).

(** Go's [a > b] on finite doubles. *)
Definition fgt (a b : Q) : bool := if Qlt_le_dec b a then true else false.

(* ------------------------------------------------------------------ *)
(** ** Package strings, on byte strings *)

Definition byte_in (lo hi : N) (c : ascii) : bool :=
  ((lo <=? N_of_ascii c) && (N_of_ascii c <=? hi))%N.

(** [c < utf8.RuneSelf] *)
Definition isASCIIbyte (c : ascii) : bool := (N_of_ascii c <? 128)%N.

Fixpoint isASCII (s : string) : bool :=
  match s with
  | EmptyString => true
  | String c s' => isASCIIbyte c && isASCII s'
  end.

Definition lowerByte (c : ascii) : ascii :=
  if byte_in 65 90 c then ascii_of_N (N_of_ascii c + 32) else c.

Definition upperByte (c : ascii) : ascii :=
  if byte_in 97 122 c then ascii_of_N (N_of_ascii c - 32) else c.

Fixpoint mapBytes (f : ascii -> ascii) (s : string) : string :=
  match s with
  | EmptyString => EmptyString
  | String c s' => String (f c) (mapBytes f s')
  end.

(** [asciiSpace]: tab, newline, vertical tab, form feed, carriage return,
    space. *)
Definition asciiSpace (c : ascii) : bool :=
  byte_in 9 13 c || (N_of_ascii c =? 32)%N.

Fixpoint trimLeft (s : string) : string :=
  match s with
  | EmptyString => EmptyString
  | String c s' => if asciiSpace c then trimLeft s' else s
  end.

Fixpoint trimRight (s : string) : string :=
  match s with
  | EmptyString => EmptyString
  | String c s' =>
      match trimRight s' with
      | EmptyString => if asciiSpace c then EmptyString else String c EmptyString
      | t => String c t
      end
  end.

Fixpoint HasPrefix (s prefix : string) : bool :=
  match prefix, s with
  | EmptyString, _ => true
  | String _ _, EmptyString => false
  | String p prefix', String c s' => Ascii.eqb c p && HasPrefix s' prefix'
  end.

(** [strings.Contains(s, substr)]: [substr] occurs at some offset of [s]. *)
Fixpoint Contains (s substr : string) : bool :=
  HasPrefix s substr ||
  match s with
  | EmptyString => false
  | String _ s' => Contains s' substr
  end.

(** What package [strings] does on text that is not pure ASCII, where it
    decodes runes and consults the Unicode tables. *)
Record Unicode := {
  MapToLower : string -> string;      (* strings.Map(unicode.ToLower, s) *)
  MapToUpper : string -> string;      (* strings.Map(unicode.ToUpper, s) *)
  TrimFuncIsSpace : string -> string  (* strings.TrimFunc(s, unicode.IsSpace) *)
}.

Definition ToLower (U : Unicode) (s : string) : string :=
  if isASCII s then mapBytes lowerByte s else MapToLower U s.

Definition ToUpper (U : Unicode) (s : string) : string :=
  if isASCII s then mapBytes upperByte s else MapToUpper U s.

Definition TrimSpace (U : Unicode) (s : string) : string :=
  if isASCII s then trimRight (trimLeft s) else TrimFuncIsSpace U s.

(** Bytes that [url.Parse] takes as they are, in a host and in a path:
    letters, digits, [-], [.] and [/]. *)
Definition plainByte (c : ascii) : bool :=
  byte_in 97 122 c || byte_in 65 90 c || byte_in 48 57 c
  || (N_of_ascii c =? 45)%N || (N_of_ascii c =? 46)%N || (N_of_ascii c =? 47)%N.

Fixpoint allPlain (s : string) : bool :=
  match s with
  | EmptyString => true
  | String c s' => plainByte c && allPlain s'
  end.

Fixpoint stripPrefix (prefix s : string) : option string :=
  match prefix, s with
  | EmptyString, _ => Some s
  | String _ _, EmptyString => None
  | String p prefix', String c s' =>
      if Ascii.eqb c p then stripPrefix prefix' s' else None
  end.

(** [https://] followed by plain bytes only: a URL on which
    [http.NewRequest("POST", url, body)] cannot fail. *)
Definition plainURL (url : string) : bool :=
  match stripPrefix "https://" url with
  | Some rest => allPlain rest
  | None => false
  end.

(* ------------------------------------------------------------------ *)
(** ** Data model (appcore.go, struct definitions) *)

(** [time.Time]: the zero value, or an instant read from the clock. *)
Inductive Time := ZeroTime | Instant (t : N).

Definition IsZero (t : Time) : bool :=
  match t with ZeroTime => true | Instant _ => false end.

(** [NLSScore *int]: [None] is the nil pointer, a body without the field. *)
Record ApiPredictRequest := {
  reqNLSScore : option Z;
  FeedbackText : string }.

Record ApiResponse := {
  respCustomerID : string;
  respChurnProbability : Q;
  respReason : string;
  respCommentSentiment : string;
  respCommentTopics : list string }.

Record CustomerData := {
  ID : string;
  NLSScore : Z;
  Feedback : string;
  CreatedAt : Time;
  CommentSentiment : string;
  CommentTopics : list string }.

Record ChurnPrediction := {
  PredictionID : string;
  CustomerID : string;
  ChurnProbability : Q;
  Reason : string;
  PredictedAt : Time }.

(** One (label, score) pair of [HFSentimentResponse]. *)
Record LabelScore := { Label : string; Score : Q }.

Definition HFSentimentResponse := list (list LabelScore).

Record HFZeroShotResponse := {
  Sequence : string;
  Labels : list string;
  Scores : list Q }.

Definition HfApiBaseURL := "https://api-inference.huggingface.co/models/".
Definition SentimentModelID := "distilbert-base-uncased-finetuned-sst-2-english".
Definition ZeroShotModelID := "facebook/bart-large-mnli".
Definition TopicScoreThreshold : Q := float64 0.8.

(* ------------------------------------------------------------------ *)
(** ** Business logic: PredictChurn *)

Definition negativeKeywords : list string := ["bad"; "poor"; "terrible"; "unhappy"].

Definition reasonHighChurn := "Low NLS score and/or negative feedback/sentiment.".
Definition reasonLowChurn := "High NLS score.".
Definition reasonModerateChurn := "Moderate NLS score or neutral feedback/sentiment.".

(** The [for _, keyword := range negativeKeywords] loop with its [break]. *)
Fixpoint scanKeywords (U : Unicode) (feedback : string) (keywords : list string) : bool :=
  match keywords with
  | [] => false
  | keyword :: rest =>
      if Contains (ToLower U feedback) keyword then true
      else scanKeywords U feedback rest
  end.

Definition hasNegativeFeedback (U : Unicode) (feedback : string) : bool :=
  if (feedback =? "")%string then false
  else scanKeywords U feedback negativeKeywords.

Definition isNegativeSentiment (U : Unicode) (sentiment : string) : bool :=
  (ToUpper U sentiment =? "NEGATIVE")%string.

(** [now] is the reading of [time.Now()] taken at the end of the body.
    [PredictionID] and [CustomerID] keep the zero value of the struct
    literal. *)
Definition PredictChurn (U : Unicode) (data : CustomerData) (now : N) : ChurnPrediction :=
  let hasNeg := hasNegativeFeedback U (Feedback data) in
  let isNeg := isNegativeSentiment U (CommentSentiment data) in
  if ((NLSScore data <? 5) && hasNeg) || ((NLSScore data <? 3) && isNeg) then
    {| PredictionID := ""; CustomerID := ""; ChurnProbability := float64 0.8;
       Reason := reasonHighChurn; PredictedAt := Instant now |}
  else if NLSScore data >=? 8 then
    {| PredictionID := ""; CustomerID := ""; ChurnProbability := float64 0.1;
       Reason := reasonLowChurn; PredictedAt := Instant now |}
  else
    {| PredictionID := ""; CustomerID := ""; ChurnProbability := float64 0.4;
       Reason := reasonModerateChurn; PredictedAt := Instant now |}.

(* ------------------------------------------------------------------ *)
(** ** The world around one request *)

(** Go [error] values are tested against nil and logged; they are modelled
    by the fixed text of their message. *)
Definition error := string.

Inductive result (A : Type) :=
| Ok (a : A)
| Err (e : error).
Arguments Ok {A} a.
Arguments Err {A} e.

(** Request bodies sent to the inference endpoint. *)
Inductive HFPayload :=
| HFSentimentRequest (Inputs : string)
| HFZeroShotRequest (Inputs : string) (CandidateLabels : list string) (MultiLabel : bool).

(** A response body, by what [json.Unmarshal] makes of it. *)
Inductive HFBody :=
| BodySentiment (r : HFSentimentResponse)
| BodyZeroShot (r : HFZeroShotResponse)
| BodyOther.

Inductive HTTPResult :=
| TransportError                            (* client.Do or io.ReadAll failed *)
| HTTPResponse (StatusCode : Z) (body : HFBody).

(** How an insert into the storage service can go wrong from outside:
    the write is refused; or the row is written and the reply is unreadable
    or holds no row. *)
Inductive InsertFault := NoFault | WriteFails | ReplyGarbled | ReplyEmpty.

Record Env := {
  Getenv : string -> string;                    (* os.Getenv *)
  NewClient : option error;                     (* supabase.NewClient's error, if any *)
  NewRequestError : string -> option error;     (* http.NewRequest's error, if any, on a
                                                   URL that is not plain *)
  Post : string -> HFPayload -> HTTPResult;     (* one POST to the inference endpoint *)
  feedbackFault : InsertFault;
  predictionFault : InsertFault;
  feedbackUUID : string;                        (* uuid_generate_v4() for the feedback row *)
  predictionUUID : string;                      (* uuid_generate_v4() for the prediction row *)
  Clock : nat -> N                              (* the k-th reading of time.Now() *)
}.

(** The two tables of schema.sql. *)
Record DB := {
  customer_feedback : list CustomerData;
  churn_predictions : list ChurnPrediction }.

(** Package-level variables: [initOnce], [initErr], [appcore.SupabaseClient]
    ([true]: a non-nil client). *)
Record Proc := {
  initOnce : bool;
  initErr : option error;
  SupabaseClient : bool }.

Inductive ResponsePayload :=
| ErrorJSON (message : string)           (* {"error": message} *)
| ResultJSON (response : ApiResponse).

Inductive Row :=
| FeedbackRow (data : CustomerData)
| PredictionRow (prediction : ChurnPrediction).

(** What the handler does, in order: calls into appcore, requests leaving
    the process, and the response written. *)
Inductive Event :=
| EvGetSentimentFromHF (feedbackText : string)
| EvGetTopicsFromHF (feedbackText : string) (candidateTopics : list string)
| EvHTTPPost (url : string) (payload : HFPayload)
| EvStoreCustomerData (data : CustomerData)
| EvPredictChurn (data : CustomerData)
| EvStoreChurnPrediction (prediction : ChurnPrediction)
| EvInsert (table : string) (row : Row)
| EvRespond (code : Z) (payload : ResponsePayload).

Record World := {
  db : DB;
  proc : Proc;
  reads : nat;              (* readings of the clock so far *)
  trace : list Event }.

Definition M (A : Type) : Type := World -> A * World.

Definition ret {A} (a : A) : M A := fun w => (a, w).

Definition bind {A B} (m : M A) (f : A -> M B) : M B :=
  fun w => let (a, w') := m w in f a w'.

Notation "x <- c1 ;; c2" := (bind c1 (fun x => c2))
  (at level 61, c1 at next level, right associativity).
Notation "c1 ;; c2" := (bind c1 (fun _ => c2))
  (at level 61, right associativity).

Definition emit (e : Event) : M unit :=
  fun w => (tt, {| db := db w; proc := proc w; reads := reads w;
                   trace := trace w ++ [e] |}).

Definition getDB : M DB := fun w => (db w, w).

Definition putDB (d : DB) : M unit :=
  fun w => (tt, {| db := d; proc := proc w; reads := reads w; trace := trace w |}).

Definition getProc : M Proc := fun w => (proc w, w).

Definition putProc (p : Proc) : M unit :=
  fun w => (tt, {| db := db w; proc := p; reads := reads w; trace := trace w |}).

(** [time.Now()] *)
Definition Now (env : Env) : M N :=
  fun w => (Clock env (reads w),
            {| db := db w; proc := proc w; reads := S (reads w); trace := trace w |}).

(* ------------------------------------------------------------------ *)
(** ** The storage service, from schema.sql *)

Definition inb (x : string) (l : list string) : bool := existsb (String.eqb x) l.

Definition feedbackIDs (d : DB) : list string := map ID (customer_feedback d).

Definition predictionIDs (d : DB) : list string := map PredictionID (churn_predictions d).

(** INSERT INTO customer_feedback.  An [id] left out of the JSON row (the
    field is [omitempty]) takes DEFAULT uuid_generate_v4(); [id] is the
    PRIMARY KEY. *)
Definition insert_customer_feedback (uuid : string) (row : CustomerData) (d : DB)
  : option (CustomerData * DB) :=
  let id := if (ID row =? "")%string then uuid else ID row in
  if inb id (feedbackIDs d) then None
  else
    let stored := {| ID := id; NLSScore := NLSScore row; Feedback := Feedback row;
                     CreatedAt := CreatedAt row;
                     CommentSentiment := CommentSentiment row;
                     CommentTopics := CommentTopics row |} in
    Some (stored, {| customer_feedback := customer_feedback d ++ [stored];
                     churn_predictions := churn_predictions d |}).

(** INSERT INTO churn_predictions.  [customer_feedback_id] REFERENCES
    customer_feedback(id); the client always sends it as a string. *)
Definition insert_churn_prediction (uuid : string) (row : ChurnPrediction) (d : DB)
  : option (ChurnPrediction * DB) :=
  let id := if (PredictionID row =? "")%string then uuid else PredictionID row in
  if inb id (predictionIDs d) then None
  else if negb (inb (CustomerID row) (feedbackIDs d)) then None
  else
    let stored := {| PredictionID := id; CustomerID := CustomerID row;
                     ChurnProbability := ChurnProbability row;
                     Reason := Reason row; PredictedAt := PredictedAt row |} in
    Some (stored, {| customer_feedback := customer_feedback d;
                     churn_predictions := churn_predictions d ++ [stored] |}).

(** DELETE FROM customer_feedback WHERE id = ..., with ON DELETE CASCADE on
    churn_predictions.customer_feedback_id. *)
Definition delete_customer_feedback (id : string) (d : DB) : DB :=
  {| customer_feedback :=
       filter (fun f => negb (ID f =? id)%string) (customer_feedback d);
     churn_predictions :=
       filter (fun p => negb (CustomerID p =? id)%string) (churn_predictions d) |}.

(** What [Insert(...).Execute()] hands back: an error, or the raw reply. *)
Inductive RawData (R : Type) :=
| RawGarbage                      (* bytes that do not unmarshal into []R *)
| RawRows (rows : list R).
Arguments RawGarbage {R}.
Arguments RawRows {R} rows.

Inductive ExecResult (R : Type) :=
| ExecError
| ExecOK (rawData : RawData R).
Arguments ExecError {R}.
Arguments ExecOK {R} rawData.

Definition reply {R} (fault : InsertFault) (stored : R) : RawData R :=
  match fault with
  | ReplyGarbled => RawGarbage
  | ReplyEmpty => RawRows []
  | _ => RawRows [stored]
  end.

Definition ExecuteInsertFeedback (env : Env) (data : CustomerData)
  : M (ExecResult CustomerData) :=
  emit (EvInsert "customer_feedback" (FeedbackRow data)) ;;
  d <- getDB ;;
  match feedbackFault env with
  | WriteFails => ret ExecError
  | fault =>
      match insert_customer_feedback (feedbackUUID env) data d with
      | None => ret ExecError
      | Some (stored, d') => putDB d' ;; ret (ExecOK (reply fault stored))
      end
  end.

Definition ExecuteInsertPrediction (env : Env) (prediction : ChurnPrediction)
  : M (ExecResult ChurnPrediction) :=
  emit (EvInsert "churn_predictions" (PredictionRow prediction)) ;;
  d <- getDB ;;
  match predictionFault env with
  | WriteFails => ret ExecError
  | fault =>
      match insert_churn_prediction (predictionUUID env) prediction d with
      | None => ret ExecError
      | Some (stored, d') => putDB d' ;; ret (ExecOK (reply fault stored))
      end
  end.

(* ------------------------------------------------------------------ *)
(** ** appcore: responses, inference calls, stores, initialisation *)

(** [json.Marshal] cannot fail on the two payload shapes used. *)
Definition RespondWithJSON (code : Z) (payload : ResponsePayload) : M unit :=
  emit (EvRespond code payload).

Definition RespondWithError (code : Z) (message : string) : M unit :=
  RespondWithJSON code (ErrorJSON message).

(** [http.NewRequest("POST", reqURL, ...)]: the method is valid and the
    context is not nil, so it fails only when [url.Parse] refuses the URL. *)
Definition NewRequest (env : Env) (reqURL : string) : option error :=
  if plainURL reqURL then None else NewRequestError env reqURL.

(** [json.Marshal] cannot fail on the two request shapes (strings, a slice
    of strings, a bool).  A failure of [io.ReadAll] is [TransportError]. *)
Definition CallHuggingFaceAPI (env : Env) (modelID : string) (requestBody : HFPayload)
  : M (result HFBody) :=
  if (Getenv env "HF_TOKEN" =? "")%string then
    ret (Err "HF_TOKEN environment variable not set")
  else
    let reqURL := HfApiBaseURL ++ modelID in
    match NewRequest env reqURL with
    | Some _ => ret (Err "error creating new HTTP request for HF API")
    | None =>
        emit (EvHTTPPost reqURL requestBody) ;;
        match Post env reqURL requestBody with
        | TransportError => ret (Err "error sending request to Hugging Face API")
        | HTTPResponse StatusCode bodyBytes =>
            if negb (StatusCode =? 200) then ret (Err "Hugging Face API request failed")
            else ret (Ok bodyBytes)
        end
    end.

(** The [for _, labelScorePair := range sentimentResponse[0]] loop. *)
Fixpoint bestLabelLoop (pairs : list LabelScore) (highestScore : Q) (bestLabel : string)
  : string :=
  match pairs with
  | [] => bestLabel
  | labelScorePair :: rest =>
      if fgt (Score labelScorePair) highestScore
      then bestLabelLoop rest (Score labelScorePair) (Label labelScorePair)
      else bestLabelLoop rest highestScore bestLabel
  end.

Definition GetSentimentFromHF (U : Unicode) (env : Env) (feedbackText : string)
  : M (string * option error) :=
  emit (EvGetSentimentFromHF feedbackText) ;;
  if (TrimSpace U feedbackText =? "")%string then ret ("NEUTRAL", None)
  else
    r <- CallHuggingFaceAPI env SentimentModelID (HFSentimentRequest feedbackText) ;;
    match r with
    | Err err => ret ("UNKNOWN", Some ("sentiment API call failed: " ++ err))
    | Ok (BodySentiment sentimentResponse) =>
        match sentimentResponse with
        | [] => ret ("UNKNOWN", Some "sentiment response format unexpected or empty")
        | [] :: _ => ret ("UNKNOWN", Some "sentiment response format unexpected or empty")
        | first :: _ => ret (bestLabelLoop first 0%Q "NEUTRAL", None)
        end
    | Ok _ => ret ("UNKNOWN", Some "error unmarshalling sentiment response")
    end.

(** The [for i, label := range zeroShotResponse.Labels] loop. *)
Fixpoint extractLoop (scores : list Q) (i : nat) (labels : list string)
  (extractedTopics : list string) : list string :=
  match labels with
  | [] => extractedTopics
  | label :: rest =>
      extractLoop scores (S i) rest
        (if fgt (nth i scores 0%Q) TopicScoreThreshold
         then extractedTopics ++ [label] else extractedTopics)
  end.

(** A nil slice and an empty slice are both []. *)
Definition GetTopicsFromHF (U : Unicode) (env : Env) (feedbackText : string)
  (candidateTopics : list string) : M (list string * option error) :=
  emit (EvGetTopicsFromHF feedbackText candidateTopics) ;;
  if (TrimSpace U feedbackText =? "")%string || (List.length candidateTopics =? 0)%nat
  then ret ([], None)
  else
    r <- CallHuggingFaceAPI env ZeroShotModelID
           (HFZeroShotRequest feedbackText candidateTopics true) ;;
    match r with
    | Err err => ret ([], Some ("topic extraction API call failed: " ++ err))
    | Ok (BodyZeroShot zeroShotResponse) =>
        if (0 <? List.length (Labels zeroShotResponse))%nat
           && (List.length (Scores zeroShotResponse) =? List.length (Labels zeroShotResponse))%nat
        then ret (extractLoop (Scores zeroShotResponse) 0 (Labels zeroShotResponse) [], None)
        else ret ([], None)
    | Ok _ => ret ([], Some "error unmarshalling zero-shot response")
    end.

Definition StoreCustomerData (env : Env) (data : CustomerData) : M (result string) :=
  emit (EvStoreCustomerData data) ;;
  p <- getProc ;;
  if negb (SupabaseClient p) then ret (Err "SupabaseClient not initialized in appcore")
  else
    data <- (if IsZero (CreatedAt data)
             then now <- Now env ;;
                  ret {| ID := ID data; NLSScore := NLSScore data;
                         Feedback := Feedback data; CreatedAt := Instant now;
                         CommentSentiment := CommentSentiment data;
                         CommentTopics := CommentTopics data |}
             else ret data) ;;
    r <- ExecuteInsertFeedback env data ;;
    match r with
    | ExecError => ret (Err "error storing customer data")
    | ExecOK RawGarbage => ret (Err "error unmarshalling customer data")
    | ExecOK (RawRows []) => ret (Err "no data returned after insert")
    | ExecOK (RawRows (first :: _)) => ret (Ok (ID first))
    end.

Definition StoreChurnPrediction (env : Env) (prediction : ChurnPrediction)
  : M (option error) :=
  emit (EvStoreChurnPrediction prediction) ;;
  p <- getProc ;;
  if negb (SupabaseClient p) then ret (Some "SupabaseClient not initialized in appcore")
  else
    prediction <- (if IsZero (PredictedAt prediction)
                   then now <- Now env ;;
                        ret {| PredictionID := PredictionID prediction;
                               CustomerID := CustomerID prediction;
                               ChurnProbability := ChurnProbability prediction;
                               Reason := Reason prediction;
                               PredictedAt := Instant now |}
                   else ret prediction) ;;
    r <- ExecuteInsertPrediction env prediction ;;
    match r with
    | ExecError => ret (Some "error storing churn prediction")
    | ExecOK _ => ret None
    end.

Definition InitClients (env : Env) : M (option error) :=
  if (Getenv env "SUPABASE_URL" =? "")%string || (Getenv env "SUPABASE_KEY" =? "")%string
  then ret (Some "SUPABASE_URL and SUPABASE_KEY environment variables must be set")
  else
    p <- getProc ;;
    match NewClient env with
    | Some err =>
        putProc {| initOnce := initOnce p; initErr := initErr p; SupabaseClient := false |} ;;
        ret (Some ("error initializing Supabase client: " ++ err))
    | None =>
        putProc {| initOnce := initOnce p; initErr := initErr p; SupabaseClient := true |} ;;
        ret None
    end.

(* ------------------------------------------------------------------ *)
(** ** Package handler: PredictHandler *)

Record Request := {
  Method : string;
  RemoteAddr : string;
  JSONBody : option ApiPredictRequest   (* [None]: the body does not decode *)
}.

(** [initOnce.Do(...)]; [return initErr]. *)
Definition initialize (env : Env) : M (option error) :=
  p <- getProc ;;
  if initOnce p then ret (initErr p)
  else
    err <- InitClients env ;;
    p' <- getProc ;;
    putProc {| initOnce := true; initErr := err; SupabaseClient := SupabaseClient p' |} ;;
    ret err.

Definition candidateTopics : list string :=
  ["service"; "product quality"; "pricing"; "customer support"; "speed"; "ease of use"].

(** Lines 73-94 of the handler: the two enrichment calls with their
    degraded values, then the [CustomerData] literal. *)
Definition enrich (U : Unicode) (env : Env) (score : Z) (feedbackText : string)
  : M CustomerData :=
  se <- GetSentimentFromHF U env feedbackText ;;
  let sentiment := match snd se with Some _ => "UNKNOWN" | None => fst se end in
  te <- GetTopicsFromHF U env feedbackText candidateTopics ;;
  let topics := fst te in
  ret {| ID := ""; NLSScore := score; Feedback := feedbackText;
         CreatedAt := ZeroTime; CommentSentiment := sentiment;
         CommentTopics := topics |}.

(** [customerData.ID = customerID] *)
Definition setID (customerData : CustomerData) (customerID : string) : CustomerData :=
  {| ID := customerID; NLSScore := NLSScore customerData;
     Feedback := Feedback customerData; CreatedAt := CreatedAt customerData;
     CommentSentiment := CommentSentiment customerData;
     CommentTopics := CommentTopics customerData |}.

(** [churnPrediction := appcore.PredictChurn(customerData)] followed by
    [churnPrediction.CustomerID = customerID]. *)
Definition scored (U : Unicode) (customerData : CustomerData) (customerID : string)
  (now : N) : ChurnPrediction :=
  let churnPrediction := PredictChurn U customerData now in
  {| PredictionID := PredictionID churnPrediction; CustomerID := customerID;
     ChurnProbability := ChurnProbability churnPrediction;
     Reason := Reason churnPrediction;
     PredictedAt := PredictedAt churnPrediction |}.

(** Lines 96-126 of the handler: store the feedback, score, store the
    prediction, answer. *)
Definition storeAndRespond (U : Unicode) (env : Env) (customerData : CustomerData)
  : M unit :=
  stored <- StoreCustomerData env customerData ;;
  match stored with
  | Err _ => RespondWithError 500 "Failed to store customer data."
  | Ok customerID =>
      let customerData := setID customerData customerID in
      emit (EvPredictChurn customerData) ;;
      now <- Now env ;;
      let churnPrediction := scored U customerData customerID now in
      err <- StoreChurnPrediction env churnPrediction ;;
      match err with
      | Some _ => RespondWithError 500 "Failed to store churn prediction."
      | None =>
          RespondWithJSON 200
            (ResultJSON
               {| respCustomerID := customerID;
                  respChurnProbability := ChurnProbability churnPrediction;
                  respReason := Reason churnPrediction;
                  respCommentSentiment := CommentSentiment customerData;
                  respCommentTopics := CommentTopics customerData |})
      end
  end.

Definition PredictHandler (U : Unicode) (env : Env) (r : Request) : M unit :=
  err <- initialize env ;;
  match err with
  | Some err => RespondWithError 500 ("Server initialization failed: " ++ err)
  | None =>
  p <- getProc ;;
  if negb (SupabaseClient p) && (match initErr p with Some _ => true | None => false end)
  then RespondWithError 500 "Supabase client not available due to initialization error."
  else if negb (Method r =? "POST")%string then
    RespondWithError 405 "Only POST method is allowed."
  else
  match JSONBody r with
  | None => RespondWithError 400 "Invalid JSON request body."
  | Some req =>
  match reqNLSScore req with
  | None => RespondWithError 400 "NLS score is required."
  | Some score =>
  if (score <? 0) || (score >? 10) then
    RespondWithError 400 "NLS score must be between 0 and 10."
  else
    customerData <- enrich U env score (FeedbackText req) ;;
    storeAndRespond U env customerData
  end
  end
  end.

(* ------------------------------------------------------------------ *)
(** ** Vocabulary of the specification *)

(** "The feedback text, case-insensitively, contains the keyword". *)
Definition containsFold (U : Unicode) (text keyword : string) : Prop :=
  exists pre post, ToLower U text = pre ++ keyword ++ post.

Definition negativeKeywordMatch (U : Unicode) (text : string) : Prop :=
  exists keyword, In keyword negativeKeywords /\ containsFold U text keyword.

(** Rule 1 with the sentiment label compared as written: [== NEGATIVE]. *)
Definition rule1_exactLabel (U : Unicode) (rating : Z) (text sentiment : string) : Prop :=
  (rating < 5 /\ negativeKeywordMatch U text) \/ (rating < 3 /\ sentiment = "NEGATIVE").

(** Rule 1 with the sentiment label compared after upper-casing. *)
Definition rule1 (U : Unicode) (rating : Z) (text sentiment : string) : Prop :=
  (rating < 5 /\ negativeKeywordMatch U text) \/
  (rating < 3 /\ ToUpper U sentiment = "NEGATIVE").

(** The ordered rule table, first match wins, for a given reading of
    rule 1. *)
Definition ruleTable (r1 : Prop) (rating : Z) (p : ChurnPrediction) : Prop :=
  (r1 -> ChurnProbability p = float64 0.8 /\ Reason p = reasonHighChurn) /\
  (~ r1 -> rating >= 8 ->
     ChurnProbability p = float64 0.1 /\ Reason p = reasonLowChurn) /\
  (~ r1 -> rating < 8 ->
     ChurnProbability p = float64 0.4 /\ Reason p = reasonModerateChurn) /\
  (ChurnProbability p = float64 0.1 \/ ChurnProbability p = float64 0.4 \/
   ChurnProbability p = float64 0.8).

(** [label] is the label of the first pair whose score is the highest. *)
Definition strictlyHighestFirst (pairs : list LabelScore) (label : string) : Prop :=
  exists i p,
    nth_error pairs i = Some p /\ Label p = label /\
    (forall q, In q pairs -> (Score q <= Score p)%Q) /\
    (forall j q, (j < i)%nat -> nth_error pairs j = Some q -> (Score q < Score p)%Q).

(** The answers of the inference endpoint to the two requests of a text. *)
Definition sentimentPost (env : Env) (text : string) : HTTPResult :=
  Post env (HfApiBaseURL ++ SentimentModelID) (HFSentimentRequest text).

Definition zeroShotPost (env : Env) (text : string) (candidates : list string)
  : HTTPResult :=
  Post env (HfApiBaseURL ++ ZeroShotModelID) (HFZeroShotRequest text candidates true).

(** The orchestrator's steps, read off the calls of a trace. *)
Inductive Step :=
| StepSentiment | StepTopics | StepScoring
| StepInsertFeedback | StepInsertPrediction | StepResponse.

Definition stepOf (e : Event) : option Step :=
  match e with
  | EvGetSentimentFromHF _ => Some StepSentiment
  | EvGetTopicsFromHF _ _ => Some StepTopics
  | EvPredictChurn _ => Some StepScoring
  | EvStoreCustomerData _ => Some StepInsertFeedback
  | EvStoreChurnPrediction _ => Some StepInsertPrediction
  | EvRespond _ _ => Some StepResponse
  | EvHTTPPost _ _ => None
  | EvInsert _ _ => None
  end.

Fixpoint steps (evs : list Event) : list Step :=
  match evs with
  | [] => []
  | e :: rest =>
      match stepOf e with
      | Some s => s :: steps rest
      | None => steps rest
      end
  end.

(** The order as the specification has it: scoring before the feedback
    insert. *)
Definition specifiedOrder : list Step :=
  [StepSentiment; StepTopics; StepScoring; StepInsertFeedback;
   StepInsertPrediction; StepResponse].

(** The order of the handler's body: scoring after the feedback insert. *)
Definition handlerOrder : list Step :=
  [StepSentiment; StepTopics; StepInsertFeedback; StepScoring;
   StepInsertPrediction; StepResponse].

(** The foreign key of churn_predictions: every prediction has its parent. *)
Definition fk_ok (d : DB) : Prop :=
  forall p, In p (churn_predictions d) -> In (CustomerID p) (feedbackIDs d).

(** Once [initOnce] has fired without error the client is in place. *)
Definition procOK (p : Proc) : Prop :=
  initOnce p = true -> initErr p = None -> SupabaseClient p = true.

(** The request reaches the validator: initialisation went through, the
    method is POST and the body decodes to [req]. *)
Definition reachesValidator (env : Env) (r : Request) (w : World)
  (req : ApiPredictRequest) : Prop :=
  fst (initialize env w) = None /\ Method r = "POST" /\ JSONBody r = Some req.

(** ... and passes it with the rating [score]. *)
Definition accepted (env : Env) (r : Request) (w : World)
  (req : ApiPredictRequest) (score : Z) : Prop :=
  reachesValidator env r w req /\ reqNLSScore req = Some score /\ 0 <= score <= 10.

Definition feedbackInsertSucceeds (env : Env) (d : DB) : Prop :=
  feedbackFault env = NoFault /\ inb (feedbackUUID env) (feedbackIDs d) = false.

Definition predictionInsertFails (env : Env) (d : DB) : Prop :=
  predictionFault env = WriteFails \/
  inb (predictionUUID env) (predictionIDs d) = true.

Definition predictionInsertSucceeds (env : Env) (d : DB) : Prop :=
  predictionFault env <> WriteFails /\
  inb (predictionUUID env) (predictionIDs d) = false.

Definition sentimentFails (U : Unicode) (env : Env) (text : string) (w : World) : Prop :=
  snd (fst (GetSentimentFromHF U env text w)) <> None.

Definition topicsFail (U : Unicode) (env : Env) (text : string) (w : World) : Prop :=
  snd (fst (GetTopicsFromHF U env text candidateTopics w)) <> None.

(** The responses the handler writes once a request has passed validation;
    none of them reports an enrichment failure. *)
Definition storageOrSuccess (code : Z) (payload : ResponsePayload) : Prop :=
  (code = 500 /\ payload = ErrorJSON "Failed to store customer data.") \/
  (code = 500 /\ payload = ErrorJSON "Failed to store churn prediction.") \/
  (code = 200 /\ exists response, payload = ResultJSON response).

(** The three ways an enrichment call degrades.  A transport error: no
    token, no answer, or an answer other than 200. *)
Definition transportError (env : Env) (answer : HTTPResult) : Prop :=
  Getenv env "HF_TOKEN" = "" \/ answer = TransportError \/
  exists StatusCode body, answer = HTTPResponse StatusCode body /\ StatusCode <> 200.

(** A 200 answer whose body does not unmarshal into [HFSentimentResponse]. *)
Definition malformedSentiment (answer : HTTPResult) : Prop :=
  exists body, answer = HTTPResponse 200 body /\ forall r, body <> BodySentiment r.

(** A 200 answer with no pair in it. *)
Definition emptySentiment (answer : HTTPResult) : Prop :=
  answer = HTTPResponse 200 (BodySentiment []) \/
  exists rest, answer = HTTPResponse 200 (BodySentiment ([] :: rest)).

(** A 200 answer whose body does not unmarshal into [HFZeroShotResponse]. *)
Definition malformedZeroShot (answer : HTTPResult) : Prop :=
  exists body, answer = HTTPResponse 200 body /\ forall r, body <> BodyZeroShot r.



(** A step that leaves tables, process and clock alone and adds [evs]. *)
Definition adds (w w' : World) (evs : list Event) : Prop :=
  db w' = db w /\ proc w' = proc w /\ reads w' = reads w /\
  trace w' = (trace w ++ evs)%list.

(** The three ways the storing block of the handler ends, as relations
    between the world [w0] it starts in and the world [w'] it leaves.
    First: the feedback store fails. *)
Definition feedbackFailed (data : CustomerData) (w0 w' : World) : Prop :=
  exists ins,
    trace w' = (trace w0 ++ EvStoreCustomerData data :: ins
                  ++ [EvRespond 500 (ErrorJSON "Failed to store customer data.")])%list /\
    steps ins = [] /\
    churn_predictions (db w') = churn_predictions (db w0) /\
    (customer_feedback (db w') = customer_feedback (db w0) \/
     exists f, customer_feedback (db w') = (customer_feedback (db w0) ++ [f])%list /\
               inb (ID f) (feedbackIDs (db w0)) = false).

(** Second: the feedback row [f] is stored, the prediction store fails. *)
Definition predictionFailed (U : Unicode) (data : CustomerData) (w0 w' : World)
  (f : CustomerData) : Prop :=
  exists row p ins,
    customer_feedback (db w') = (customer_feedback (db w0) ++ [f])%list /\
    churn_predictions (db w') = churn_predictions (db w0) /\
    inb (ID f) (feedbackIDs (db w0)) = false /\
    CustomerID p = ID f /\
    trace w' = (trace w0 ++ [EvStoreCustomerData data;
                             EvInsert "customer_feedback" (FeedbackRow row);
                             EvPredictChurn (setID data (ID f));
                             EvStoreChurnPrediction p] ++ ins
                  ++ [EvRespond 500 (ErrorJSON "Failed to store churn prediction.")])%list /\
    steps ins = [].

(** Third: both rows are stored and the response is [response]. *)
Definition completed (U : Unicode) (env : Env) (data : CustomerData) (w0 w' : World)
  (f : CustomerData) (stored : ChurnPrediction) (response : ApiResponse) : Prop :=
  exists row p prow w1,
    StoreCustomerData env data w0 = (Ok (ID f), w1) /\
    customer_feedback (db w') = (customer_feedback (db w0) ++ [f])%list /\
    churn_predictions (db w') = (churn_predictions (db w0) ++ [stored])%list /\
    inb (ID f) (feedbackIDs (db w0)) = false /\
    NLSScore f = NLSScore data /\ Feedback f = Feedback data /\
    CommentSentiment f = CommentSentiment data /\
    CommentTopics f = CommentTopics data /\
    p = scored U (setID data (ID f)) (ID f) (Clock env (reads w1)) /\
    CustomerID prow = ID f /\ CustomerID stored = ID f /\
    ChurnProbability stored = ChurnProbability p /\ Reason stored = Reason p /\
    response = {| respCustomerID := ID f;
                  respChurnProbability := ChurnProbability p;
                  respReason := Reason p;
                  respCommentSentiment := CommentSentiment data;
                  respCommentTopics := CommentTopics data |} /\
    trace w' = (trace w0 ++ [EvStoreCustomerData data;
                             EvInsert "customer_feedback" (FeedbackRow row);
                             EvPredictChurn (setID data (ID f));
                             EvStoreChurnPrediction p;
                             EvInsert "churn_predictions" (PredictionRow prow);
                             EvRespond 200 (ResultJSON response)])%list.

(** The world in which the prediction store runs, and the prediction it is
    handed, once the feedback store has returned [id]. *)
Definition afterFeedback (env : Env) (data : CustomerData) (w0 : World) (id : string)
  : World :=
  let w1 := snd (StoreCustomerData env data w0) in
  {| db := db w1; proc := proc w1; reads := S (reads w1);
     trace := trace w1 ++ [EvPredictChurn (setID data id)] |}.

Definition predictionOf (U : Unicode) (env : Env) (data : CustomerData) (w0 : World)
  (id : string) : ChurnPrediction :=
  scored U (setID data id) id (Clock env (reads (snd (StoreCustomerData env data w0)))).

(** For a request that passed the validator: the record handed to the
    feedback store and the world in which the storing block starts. *)
Definition enriched (U : Unicode) (env : Env) (w : World) (req : ApiPredictRequest)
  (score : Z) : CustomerData :=
  fst (enrich U env score (FeedbackText req) (snd (initialize env w))).

Definition beforeStore (U : Unicode) (env : Env) (w : World) (req : ApiPredictRequest)
  (score : Z) : World :=
  snd (enrich U env score (FeedbackText req) (snd (initialize env w))).

(** The last event of a trace is the 200 response [response]. *)
Definition answered200 (w' : World) (response : ApiResponse) : Prop :=
  exists pre, trace w' = (pre ++ [EvRespond 200 (ResultJSON response)])%list.

(* ------------------------------------------------------------------ *)
(** ** Concrete inputs for the examples *)

(** The examples use ASCII text, on which the Unicode paths are not taken. *)
Definition asciiOnly : Unicode :=
  {| MapToLower := fun s => s; MapToUpper := fun s => s; TrimFuncIsSpace := fun s => s |}.

Definition emptyDB : DB := {| customer_feedback := []; churn_predictions := [] |}.

(** A fresh process with empty tables. *)
Definition world0 : World :=
  {| db := emptyDB;
     proc := {| initOnce := false; initErr := None; SupabaseClient := false |};
     reads := 0; trace := [] |}.

(** An endpoint that answers every sentiment request with [pairs] and every
    zero-shot request with [scores] for the labels it was sent. *)
Definition endpoint (pairs : list LabelScore) (scores : list Q)
  (url : string) (payload : HFPayload) : HTTPResult :=
  match payload with
  | HFSentimentRequest _ => HTTPResponse 200 (BodySentiment [pairs])
  | HFZeroShotRequest sequence labels _ =>
      HTTPResponse 200
        (BodyZeroShot {| Sequence := sequence; Labels := labels; Scores := scores |})
  end.

(** [url.Parse] refuses a [%] that starts no escape. *)
Definition parseErrors (url : string) : option error :=
  if (url =? HfApiBaseURL ++ "%")%string then Some "invalid URL escape" else None.

Definition envWith (post : string -> HFPayload -> HTTPResult)
  (ffault pfault : InsertFault) : Env :=
  {| Getenv := fun _ => "set"; NewClient := None;
     NewRequestError := parseErrors; Post := post;
     feedbackFault := ffault; predictionFault := pfault;
     feedbackUUID := "feedback-1"; predictionUUID := "prediction-1";
     Clock := fun k => N.of_nat (1000 + k) |}.

Definition demoPairs : list LabelScore :=
  [ {| Label := "NEGATIVE"; Score := 0.9 |}; {| Label := "POSITIVE"; Score := 0.1 |} ].

Definition demoScores : list Q := [0.95; 0.3; 0.81; 0.8; 0.1; 0.9]%Q.

Definition envOK : Env := envWith (endpoint demoPairs demoScores) NoFault NoFault.

(** The inference endpoint is unreachable. *)
Definition envHFDown : Env := envWith (fun _ _ => TransportError) NoFault NoFault.

(** The prediction insert is refused. *)
Definition envPredictionFails : Env :=
  envWith (endpoint demoPairs demoScores) NoFault WriteFails.

(** The classifier answers with one pair of score zero. *)
Definition envZeroScore : Env :=
  envWith (endpoint [ {| Label := "NEGATIVE"; Score := 0 |} ] demoScores) NoFault NoFault.

Definition post (score : option Z) (text : string) : Request :=
  {| Method := "POST"; RemoteAddr := "192.0.2.1:4000";
     JSONBody := Some {| reqNLSScore := score; FeedbackText := text |} |}.

Definition happyRequest : ApiPredictRequest :=
  {| reqNLSScore := Some 9; FeedbackText := "Excellent product, very happy!" |}.

Definition unhappyRequest : ApiPredictRequest :=
  {| reqNLSScore := Some 2; FeedbackText := "terrible unhappy service" |}.

Definition okayRequest : ApiPredictRequest :=
  {| reqNLSScore := Some 6; FeedbackText := "The service was okay." |}.

(** What [envOK] answers to [happyRequest]. *)
Definition happyResponse : ApiResponse :=
  {| respCustomerID := "feedback-1";
     respChurnProbability := float64 0.1;
     respReason := reasonLowChurn;
     respCommentSentiment := "NEGATIVE";
     respCommentTopics := ["service"; "pricing"; "ease of use"] |}.

(** What [envHFDown] answers to [okayRequest]. *)
Definition degradedResponse : ApiResponse :=
  {| respCustomerID := "feedback-1";
     respChurnProbability := float64 0.4;
     respReason := reasonModerateChurn;
     respCommentSentiment := "UNKNOWN";
     respCommentTopics := [] |}.

Definition lowercaseNegative : CustomerData :=
  {| ID := ""; NLSScore := 2; Feedback := ""; CreatedAt := ZeroTime;
     CommentSentiment := "negative"; CommentTopics := [] |}.

Definition keywordCase : CustomerData :=
  {| ID := "test001"; NLSScore := 4;
     Feedback := "I am very unhappy with the terrible service.";
     CreatedAt := ZeroTime; CommentSentiment := "NEUTRAL"; CommentTopics := [] |}.

(* ------------------------------------------------------------------ *)
(** ** The first server: main.go before the enrichment

    Package main of the first server has its own [CustomerData] (no
    sentiment, no topics), its own [ChurnPrediction] and its own
    [PredictChurn], with the keyword rule only. *)

Module Main.

Record CustomerData := {
  ID : string;
  NLSScore : Z;
  Feedback : string;
  CreatedAt : Time }.

Record ChurnPrediction := {
  PredictionID : string;
  CustomerID : string;
  ChurnProbability : Q;
  Reason : string;
  PredictedAt : Time }.

(** The keyword loop, here without the test for an empty text. *)
Definition hasNegativeFeedback (U : Unicode) (feedback : string) : bool :=
  scanKeywords U feedback negativeKeywords.

Definition PredictChurn (U : Unicode) (data : CustomerData) (now : N) : ChurnPrediction :=
  if (NLSScore data <? 5) && hasNegativeFeedback U (Feedback data) then
    {| PredictionID := ""; CustomerID := ""; ChurnProbability := float64 0.8;
       Reason := "Low NLS score and negative feedback."; PredictedAt := Instant now |}
  else if NLSScore data >=? 8 then
    {| PredictionID := ""; CustomerID := ""; ChurnProbability := float64 0.1;
       Reason := "High NLS score."; PredictedAt := Instant now |}
  else
    {| PredictionID := ""; CustomerID := ""; ChurnProbability := float64 0.4;
       Reason := "Moderate NLS score or neutral feedback."; PredictedAt := Instant now |}.

End Main.

(** The record of the first server that a record of the later one extends. *)
Definition withoutInsights (data : CustomerData) : Main.CustomerData :=
  {| Main.ID := ID data; Main.NLSScore := NLSScore data;
     Main.Feedback := Feedback data; Main.CreatedAt := CreatedAt data |}.

(* ------------------------------------------------------------------ *)
(** ** Counting what leaves the process *)

Definition isHTTPPost (e : Event) : bool :=
  match e with EvHTTPPost _ _ => true | _ => false end.

Definition isPostTo (modelID : string) (e : Event) : bool :=
  match e with
  | EvHTTPPost url _ => (url =? HfApiBaseURL ++ modelID)%string
  | _ => false
  end.

Definition isInsert (e : Event) : bool :=
  match e with EvInsert _ _ => true | _ => false end.

Definition isInsertInto (table : string) (e : Event) : bool :=
  match e with
  | EvInsert t _ => (t =? table)%string
  | _ => false
  end.

Definition tally (p : Event -> bool) (evs : list Event) : nat :=
  List.length (filter p evs).

(** Every byte is one of the six ASCII white-space bytes. *)
Fixpoint allSpace (s : string) : bool :=
  match s with
  | EmptyString => true
  | String c s' => asciiSpace c && allSpace s'
  end.

(** The feedback insert executes but its reply is of no use. *)
Definition feedbackReplyUnreadable (env : Env) (d : DB) : Prop :=
  (feedbackFault env = ReplyGarbled \/ feedbackFault env = ReplyEmpty) /\
  inb (feedbackUUID env) (feedbackIDs d) = false.

(** An environment whose configuration is missing, and one whose storage
    replies cannot be read. *)
Definition envNoConfig : Env :=
  {| Getenv := fun _ => ""; NewClient := None;
     NewRequestError := parseErrors;
     Post := endpoint demoPairs demoScores;
     feedbackFault := NoFault; predictionFault := NoFault;
     feedbackUUID := "feedback-1"; predictionUUID := "prediction-1";
     Clock := fun k => N.of_nat (1000 + k) |}.

Definition envReplyGarbled : Env :=
  envWith (endpoint demoPairs demoScores) ReplyGarbled NoFault.

Definition envNoToken : Env :=
  {| Getenv := fun k => if (k =? "HF_TOKEN")%string then "" else "set";
     NewClient := None;
     NewRequestError := parseErrors;
     Post := endpoint demoPairs demoScores;
     feedbackFault := NoFault; predictionFault := NoFault;
     feedbackUUID := "feedback-1"; predictionUUID := "prediction-1";
     Clock := fun k => N.of_nat (1000 + k) |}.


(** [lowercaseNegative] with the rating 7. *)
Definition ratedSeven : CustomerData :=
  {| ID := ""; NLSScore := 7; Feedback := ""; CreatedAt := ZeroTime;
     CommentSentiment := "negative"; CommentTopics := [] |}.


(* ------------------------------------------------------------------ *)
(** ** The topic set as the specification words it *)





(* ------------------------------------------------------------------ *)
(** * Properties *)

(** ** Strings *)

Lemma HasPrefix_spec (s prefix : string) :
  HasPrefix s prefix = true <-> exists post, s = prefix ++ post.
Proof.
  revert s. induction prefix as [|p prefix IH]; intros s.
  - split; [intros _; now exists s | intros _; now destruct s].
  - destruct s as [|c s]; simpl.
    + split; [discriminate | intros [post H]; discriminate].
    + rewrite andb_true_iff, IH. split.
      * intros [Hc [post ->]]. apply Ascii.eqb_eq in Hc. subst. now exists post.
      * intros [post H]. injection H as -> ->. split; [apply Ascii.eqb_refl | now exists post].
Qed.

Lemma Contains_spec (s substr : string) :
  Contains s substr = true <-> exists pre post, s = pre ++ substr ++ post.
Proof.
  induction s as [|c s IH].
  - cbn [Contains]. rewrite orb_false_r, HasPrefix_spec. split.
    + intros [post H]. now exists "", post.
    + intros [pre [post H]]. destruct pre; [now exists post | discriminate].
  - cbn [Contains]. rewrite orb_true_iff, HasPrefix_spec, IH. split.
    + intros [[post H] | [pre [post H]]].
      * now exists "", post.
      * exists (String c pre), post. simpl. now rewrite H.
    + intros [pre [post H]]. destruct pre as [|c' pre].
      * left. now exists post.
      * right. simpl in H. injection H as _ H. now exists pre, post.
Qed.

Lemma mapBytes_app (f : ascii -> ascii) (s t : string) :
  mapBytes f (s ++ t) = mapBytes f s ++ mapBytes f t.
Proof. induction s as [|c s IH]; simpl; [reflexivity | now rewrite IH]. Qed.

Lemma mapBytes_app_inv (f : ascii -> ascii) (a b text : string) :
  mapBytes f text = a ++ b ->
  exists a' b', text = a' ++ b' /\ mapBytes f a' = a /\ mapBytes f b' = b.
Proof.
  revert text. induction a as [|x a IH]; intros text H.
  - now exists "", text.
  - destruct text as [|c text]; [discriminate|].
    simpl in H. injection H as Hx H.
    destruct (IH text H) as [a' [b' [-> [Ha Hb]]]].
    exists (String c a'), b'. simpl. now rewrite Hx, Ha.
Qed.

(** On ASCII text the keyword test is: some substring of the text becomes
    the keyword when its capitals are lowered. *)
Lemma containsFold_ascii (U : Unicode) (text keyword : string) :
  isASCII text = true ->
  (containsFold U text keyword <->
   exists pre mid post,
     text = pre ++ mid ++ post /\ mapBytes lowerByte mid = keyword).
Proof.
  intros Hascii. unfold containsFold, ToLower. rewrite Hascii. split.
  - intros [pre [post H]].
    destruct (mapBytes_app_inv _ _ _ _ H) as [pre' [rest [-> [_ Hrest]]]].
    destruct (mapBytes_app_inv _ _ _ _ Hrest) as [mid [post' [-> [Hmid _]]]].
    now exists pre', mid, post'.
  - intros [pre [mid [post [-> <-]]]].
    exists (mapBytes lowerByte pre), (mapBytes lowerByte post).
    now rewrite !mapBytes_app.
Qed.

(** ** The scoring engine *)

Lemma scanKeywords_spec (U : Unicode) (feedback : string) (keywords : list string) :
  scanKeywords U feedback keywords = true <->
  exists keyword, In keyword keywords /\ containsFold U feedback keyword.
Proof.
  unfold containsFold. induction keywords as [|k keywords IH]; simpl.
  - split; [discriminate | intros [keyword [[] _]]].
  - destruct (Contains (ToLower U feedback) k) eqn:E.
    + split; [intros _ | reflexivity].
      exists k. split; [now left | now apply Contains_spec].
    + rewrite IH. split.
      * intros [keyword [Hin H]]. exists keyword. split; [now right | exact H].
      * intros [keyword [[<- | Hin] H]].
        -- apply Contains_spec in H. congruence.
        -- now exists keyword.
Qed.

Lemma hasNegativeFeedback_spec (U : Unicode) (feedback : string) :
  hasNegativeFeedback U feedback = true <-> negativeKeywordMatch U feedback.
Proof.
  unfold hasNegativeFeedback, negativeKeywordMatch.
  destruct (String.eqb_spec feedback "") as [-> | Hne].
  - split; [discriminate|].
    intros [keyword [Hin [pre [post H]]]]. exfalso.
    cbn in H. destruct pre; [|discriminate].
    simpl in Hin.
    destruct Hin as [<- | [<- | [<- | [<- | []]]]]; discriminate.
  - apply scanKeywords_spec.
Qed.

Lemma isNegativeSentiment_spec (U : Unicode) (sentiment : string) :
  isNegativeSentiment U sentiment = true <-> ToUpper U sentiment = "NEGATIVE".
Proof. unfold isNegativeSentiment. apply String.eqb_eq. Qed.

Lemma rule1_spec (U : Unicode) (rating : Z) (text sentiment : string) :
  ((rating <? 5) && hasNegativeFeedback U text)
  || ((rating <? 3) && isNegativeSentiment U sentiment) = true
  <-> rule1 U rating text sentiment.
Proof.
  unfold rule1.
  rewrite orb_true_iff, !andb_true_iff, !Z.ltb_lt,
    hasNegativeFeedback_spec, isNegativeSentiment_spec.
  reflexivity.
Qed.

(** The rule table holds for every rating, inside [0,10] or not. *)
Lemma PredictChurn_table (U : Unicode) (data : CustomerData) (now : N) :
  ruleTable (rule1 U (NLSScore data) (Feedback data) (CommentSentiment data))
    (NLSScore data) (PredictChurn U data now).
Proof.
  unfold ruleTable, PredictChurn.
  pose proof (rule1_spec U (NLSScore data) (Feedback data) (CommentSentiment data)) as R.
  destruct (((NLSScore data <? 5) && hasNegativeFeedback U (Feedback data))
            || ((NLSScore data <? 3) && isNegativeSentiment U (CommentSentiment data))).
  - cbn [ChurnProbability Reason].
    assert (H1 : rule1 U (NLSScore data) (Feedback data) (CommentSentiment data))
      by (apply R; reflexivity).
    split; [intros _; now split|].
    split; [intros N; contradiction|].
    split; [intros N; contradiction|].
    right; right; reflexivity.
  - assert (NR : ~ rule1 U (NLSScore data) (Feedback data) (CommentSentiment data)).
    { intros H. apply R in H. discriminate. }
    split; [intros H; contradiction|].
    destruct (NLSScore data >=? 8) eqn:E; cbn [ChurnProbability Reason].
    + apply Z.geb_le in E.
      split; [intros _ _; now split|].
      split; [intros _ L; lia|].
      left; reflexivity.
    + assert (NLSScore data < 8) by (rewrite Z.geb_leb in E; apply Z.leb_gt in E; lia).
      split; [intros _ G; lia|].
      split; [intros _ _; now split|].
      right; left; reflexivity.
Qed.

(** On the four labels of the glossary the two readings of rule 1 agree. *)
Lemma rule1_exactLabel_canonical (U : Unicode) (rating : Z) (text sentiment : string) :
  In sentiment ["POSITIVE"; "NEGATIVE"; "NEUTRAL"; "UNKNOWN"] ->
  (rule1 U rating text sentiment <-> rule1_exactLabel U rating text sentiment).
Proof.
  intros H. unfold rule1, rule1_exactLabel.
  assert (E : ToUpper U sentiment = sentiment).
  { destruct H as [<- | [<- | [<- | [<- | []]]]]; reflexivity. }
  now rewrite E.
Qed.

(** C1, as amended: for every rating in [0,10] and every feedback text and
    sentiment label, PredictChurn answers by the ordered rule table, first
    match wins: (rating < 5 and the text case-insensitively contains one of
    bad, poor, terrible, unhappy) or (rating < 3 and the sentiment label
    upper-cased equals NEGATIVE) gives 0.8 with the low-score reason;
    otherwise rating >= 8 gives 0.1 with the high-score reason; otherwise 0.4
    with the moderate reason.  No other probability is produced. *)
Theorem PredictChurn_rule_table (U : Unicode) (data : CustomerData) (now : N) :
  0 <= NLSScore data <= 10 ->
  ruleTable (rule1 U (NLSScore data) (Feedback data) (CommentSentiment data))
    (NLSScore data) (PredictChurn U data now).
Proof. intros _. apply PredictChurn_table. Qed.

(** C10: the negative-sentiment test ignores case.  Whenever the label
    upper-cases to NEGATIVE and the rating is below 3, rule 1 fires. *)
Theorem PredictChurn_sentiment_any_casing (U : Unicode) (data : CustomerData) (now : N) :
  NLSScore data < 3 ->
  ToUpper U (CommentSentiment data) = "NEGATIVE" ->
  ChurnProbability (PredictChurn U data now) = float64 0.8 /\
  Reason (PredictChurn U data now) = reasonHighChurn.
Proof.
  intros Hlow Hneg.
  apply (PredictChurn_table U data now). right. now split.
Qed.

(** ** The sentiment analyzer *)

Lemma fgt_spec (a b : Q) : fgt a b = true <-> (b < a)%Q.
Proof.
  unfold fgt. destruct (Qlt_le_dec b a) as [H | H].
  - now split.
  - split; [discriminate | intros L; exfalso; exact (Qle_not_lt _ _ H L)].
Qed.

Lemma fgt_false (a b : Q) : fgt a b = false <-> (a <= b)%Q.
Proof.
  unfold fgt. destruct (Qlt_le_dec b a) as [H | H].
  - split; [discriminate | intros L; exfalso; exact (Qle_not_lt _ _ L H)].
  - now split.
Qed.

(** Nothing above the running maximum: the running label is kept. *)
Lemma bestLabelLoop_keep (pairs : list LabelScore) (highestScore : Q) (bestLabel : string) :
  (forall q, In q pairs -> (Score q <= highestScore)%Q) ->
  bestLabelLoop pairs highestScore bestLabel = bestLabel.
Proof.
  induction pairs as [|p pairs IH]; intros H; simpl; [reflexivity|].
  assert (E : fgt (Score p) highestScore = false)
    by (apply fgt_false, H; now left).
  rewrite E. apply IH. intros q Hq. apply H. now right.
Qed.

Lemma scores_above_dec (pairs : list LabelScore) (bound : Q) :
  (forall q, In q pairs -> (Score q <= bound)%Q) \/
  (exists q, In q pairs /\ (bound < Score q)%Q).
Proof.
  induction pairs as [|p pairs [IH | [q [Hq L]]]].
  - left. intros q [].
  - destruct (Qlt_le_dec bound (Score p)) as [L | L].
    + right. exists p. split; [now left | exact L].
    + left. intros q [<- | Hq]; [exact L | now apply IH].
  - right. exists q. split; [now right | exact L].
Qed.

(** Something above the running maximum: the loop ends on the first pair
    that carries the highest score. *)
Lemma bestLabelLoop_max (pairs : list LabelScore) (highestScore : Q) (bestLabel : string) :
  (exists q, In q pairs /\ (highestScore < Score q)%Q) ->
  exists i p,
    nth_error pairs i = Some p /\
    bestLabelLoop pairs highestScore bestLabel = Label p /\
    (highestScore < Score p)%Q /\
    (forall q, In q pairs -> (Score q <= Score p)%Q) /\
    (forall j q, (j < i)%nat -> nth_error pairs j = Some q -> (Score q < Score p)%Q).
Proof.
  revert highestScore bestLabel.
  induction pairs as [|h pairs IH]; intros highestScore bestLabel [q [Hq L]].
  - destruct Hq.
  - simpl. destruct (fgt (Score h) highestScore) eqn:E.
    + apply fgt_spec in E.
      destruct (scores_above_dec pairs (Score h)) as [Hall | Hex].
      * exists 0%nat, h. rewrite (bestLabelLoop_keep _ _ _ Hall).
        repeat split; auto.
        -- intros q' [<- | Hq']; [apply Qle_refl | now apply Hall].
        -- intros j q' Hj. inversion Hj.
      * destruct (IH (Score h) (Label h) Hex) as [i [p [Hn [Hb [Hlt [Hmax Hfirst]]]]]].
        exists (S i), p. repeat split; auto.
        -- eapply Qlt_trans; eassumption.
        -- intros q' [<- | Hq']; [now apply Qlt_le_weak | now apply Hmax].
        -- intros [|j] q' Hj Hnth; simpl in Hnth.
           ++ injection Hnth as <-. exact Hlt.
           ++ apply (Hfirst j q'); [lia | exact Hnth].
    + apply fgt_false in E.
      assert (Hex : exists q, In q pairs /\ (highestScore < Score q)%Q).
      { destruct Hq as [<- | Hq]; [|now exists q].
        exfalso. exact (Qle_not_lt _ _ E L). }
      destruct (IH highestScore bestLabel Hex) as [i [p [Hn [Hb [Hlt [Hmax Hfirst]]]]]].
      exists (S i), p. repeat split; auto.
      * intros q' [<- | Hq'].
        -- apply Qlt_le_weak. eapply Qle_lt_trans; eassumption.
        -- now apply Hmax.
      * intros [|j] q' Hj Hnth; simpl in Hnth.
        -- injection Hnth as <-. eapply Qle_lt_trans; eassumption.
        -- apply (Hfirst j q'); [lia | exact Hnth].
Qed.

(** What one call to the endpoint yields, and the one event it may add. *)
Lemma NewRequest_models (env : Env) :
  NewRequest env (HfApiBaseURL ++ SentimentModelID) = None /\
  NewRequest env (HfApiBaseURL ++ ZeroShotModelID) = None.
Proof. split; reflexivity. Qed.

(** A call that gets as far as sending its request. *)
Lemma CallHuggingFaceAPI_run (env : Env) (modelID : string) (requestBody : HFPayload)
  (w : World) :
  NewRequest env (HfApiBaseURL ++ modelID) = None ->
  CallHuggingFaceAPI env modelID requestBody w =
  if (Getenv env "HF_TOKEN" =? "")%string
  then (Err "HF_TOKEN environment variable not set", w)
  else
    let w' := snd (emit (EvHTTPPost (HfApiBaseURL ++ modelID) requestBody) w) in
    match Post env (HfApiBaseURL ++ modelID) requestBody with
    | TransportError => (Err "error sending request to Hugging Face API", w')
    | HTTPResponse StatusCode body =>
        if negb (StatusCode =? 200) then (Err "Hugging Face API request failed", w')
        else (Ok body, w')
    end.
Proof.
  intros N. unfold CallHuggingFaceAPI, bind, ret.
  destruct (Getenv env "HF_TOKEN" =? "")%string; [reflexivity|].
  cbv zeta. rewrite N. cbn [emit snd].
  destruct (Post env (HfApiBaseURL ++ modelID) requestBody) as [|st body]; [reflexivity|].
  destruct (negb (st =? 200)); reflexivity.
Qed.

(** A call whose request cannot be built sends nothing. *)
Lemma CallHuggingFaceAPI_unbuilt (env : Env) (modelID : string) (requestBody : HFPayload)
  (w : World) (err : error) :
  NewRequest env (HfApiBaseURL ++ modelID) = Some err ->
  exists e, CallHuggingFaceAPI env modelID requestBody w = (Err e, w).
Proof.
  intros N. unfold CallHuggingFaceAPI, bind, ret.
  destruct (Getenv env "HF_TOKEN" =? "")%string; [now eexists|].
  cbv zeta. rewrite N. now eexists.
Qed.

Lemma GetSentimentFromHF_blank (U : Unicode) (env : Env) (text : string) (w : World) :
  TrimSpace U text = "" ->
  GetSentimentFromHF U env text w =
  (("NEUTRAL", None), snd (emit (EvGetSentimentFromHF text) w)).
Proof.
  intros H. unfold GetSentimentFromHF, bind, ret. cbn [emit snd].
  now rewrite H.
Qed.

(** The analyzer past the blank test, by what the endpoint answered. *)
Lemma GetSentimentFromHF_nonblank (U : Unicode) (env : Env) (text : string) (w : World) :
  TrimSpace U text <> "" ->
  fst (GetSentimentFromHF U env text w) =
  if (Getenv env "HF_TOKEN" =? "")%string
  then ("UNKNOWN", Some ("sentiment API call failed: " ++ "HF_TOKEN environment variable not set"))
  else
    match sentimentPost env text with
    | TransportError =>
        ("UNKNOWN", Some ("sentiment API call failed: " ++ "error sending request to Hugging Face API"))
    | HTTPResponse StatusCode body =>
        if negb (StatusCode =? 200)
        then ("UNKNOWN", Some ("sentiment API call failed: " ++ "Hugging Face API request failed"))
        else
          match body with
          | BodySentiment [] => ("UNKNOWN", Some "sentiment response format unexpected or empty")
          | BodySentiment ([] :: _) => ("UNKNOWN", Some "sentiment response format unexpected or empty")
          | BodySentiment (first :: _) => (bestLabelLoop first 0%Q "NEUTRAL", None)
          | _ => ("UNKNOWN", Some "error unmarshalling sentiment response")
          end
    end.
Proof.
  intros H. apply String.eqb_neq in H.
  unfold GetSentimentFromHF, bind, ret, sentimentPost. cbn [emit]. rewrite H.
  rewrite (CallHuggingFaceAPI_run env SentimentModelID _ _ (proj1 (NewRequest_models env))).
  destruct (Getenv env "HF_TOKEN" =? "")%string; [reflexivity|].
  cbv zeta.
  destruct (Post env (HfApiBaseURL ++ SentimentModelID) (HFSentimentRequest text))
    as [|st body]; [reflexivity|].
  destruct (negb (st =? 200)); [reflexivity|].
  destruct body as [[|[|p first] rest]| |]; reflexivity.
Qed.

(** C6, as amended.  Blank text: NEUTRAL, and the only event is the call
    itself, no request leaves the process.  Otherwise: on a transport error,
    a malformed response or an empty result set the label is UNKNOWN, with an
    error; and when the classifier returned pairs of which at least one has a
    strictly positive score, the label is that of the highest score, the first
    seen on ties. *)
Theorem GetSentimentFromHF_spec (U : Unicode) (env : Env) (text : string) (w : World) :
  (TrimSpace U text = "" ->
     fst (GetSentimentFromHF U env text w) = ("NEUTRAL", None) /\
     trace (snd (GetSentimentFromHF U env text w)) =
       (trace w ++ [EvGetSentimentFromHF text])%list) /\
  (TrimSpace U text <> "" ->
     transportError env (sentimentPost env text) \/
     malformedSentiment (sentimentPost env text) \/
     emptySentiment (sentimentPost env text) ->
     fst (fst (GetSentimentFromHF U env text w)) = "UNKNOWN" /\
     snd (fst (GetSentimentFromHF U env text w)) <> None) /\
  (TrimSpace U text <> "" ->
     Getenv env "HF_TOKEN" <> "" ->
     forall pairs rest,
       sentimentPost env text = HTTPResponse 200 (BodySentiment (pairs :: rest)) ->
       (exists q, In q pairs /\ (0 < Score q)%Q) ->
       snd (fst (GetSentimentFromHF U env text w)) = None /\
       strictlyHighestFirst pairs (fst (fst (GetSentimentFromHF U env text w)))).
Proof.
  split; [|split].
  - intros H. rewrite (GetSentimentFromHF_blank U env text w H). now split.
  - intros H D. rewrite (GetSentimentFromHF_nonblank U env text w H).
    destruct (Getenv env "HF_TOKEN" =? "")%string eqn:T; [now split|].
    apply String.eqb_neq in T.
    destruct D as [[D | [D | [st [body [D Hst]]]]] | [[body [D Hb]] | [D | [rest D]]]];
      try contradiction; rewrite D; try (now split).
    + apply Z.eqb_neq in Hst. rewrite Hst. now split.
    + cbn. destruct body as [r| |]; try (now split). exfalso. now apply (Hb r).
  - intros H T pairs rest P [q [Hq L]].
    rewrite (GetSentimentFromHF_nonblank U env text w H).
    apply String.eqb_neq in T. rewrite T, P. cbn [Z.eqb Pos.eqb negb].
    destruct pairs as [|p pairs]; [destruct Hq|].
    cbn [fst snd]. split; [reflexivity|].
    destruct (bestLabelLoop_max (p :: pairs) 0%Q "NEUTRAL"
                (ex_intro _ q (conj Hq L))) as [i [b [Hn [Hb [_ [Hmax Hfirst]]]]]].
    exists i, b. rewrite Hb. repeat split; auto.
Qed.

(** C9: the classifier answered with pairs, none of a positive score: the
    default label NEUTRAL is returned, not one of the returned labels. *)
Theorem GetSentimentFromHF_no_positive_score (U : Unicode) (env : Env) (text : string)
  (w : World) (pairs : list LabelScore) (rest : list (list LabelScore)) :
  TrimSpace U text <> "" ->
  Getenv env "HF_TOKEN" <> "" ->
  sentimentPost env text = HTTPResponse 200 (BodySentiment (pairs :: rest)) ->
  pairs <> [] ->
  (forall q, In q pairs -> (Score q <= 0)%Q) ->
  fst (GetSentimentFromHF U env text w) = ("NEUTRAL", None).
Proof.
  intros H T P Hne Hall.
  rewrite (GetSentimentFromHF_nonblank U env text w H).
  apply String.eqb_neq in T. rewrite T, P. cbn [Z.eqb Pos.eqb negb].
  destruct pairs as [|p pairs]; [contradiction|].
  now rewrite (bestLabelLoop_keep _ _ _ Hall).
Qed.

(** ** The topic extractor *)





Lemma GetTopicsFromHF_skip (U : Unicode) (env : Env) (text : string)
  (candidates : list string) (w : World) :
  TrimSpace U text = "" \/ candidates = [] ->
  GetTopicsFromHF U env text candidates w =
  (([], None), snd (emit (EvGetTopicsFromHF text candidates) w)).
Proof.
  intros H. unfold GetTopicsFromHF, bind, ret. cbn [emit snd].
  destruct H as [-> | ->]; [reflexivity|].
  now rewrite orb_true_r.
Qed.

(** The extractor past its first test, by what the endpoint answered. *)
Lemma GetTopicsFromHF_call (U : Unicode) (env : Env) (text : string)
  (candidates : list string) (w : World) :
  TrimSpace U text <> "" -> candidates <> [] ->
  fst (GetTopicsFromHF U env text candidates w) =
  if (Getenv env "HF_TOKEN" =? "")%string
  then ([], Some ("topic extraction API call failed: " ++ "HF_TOKEN environment variable not set"))
  else
    match zeroShotPost env text candidates with
    | TransportError =>
        ([], Some ("topic extraction API call failed: " ++ "error sending request to Hugging Face API"))
    | HTTPResponse StatusCode body =>
        if negb (StatusCode =? 200)
        then ([], Some ("topic extraction API call failed: " ++ "Hugging Face API request failed"))
        else
          match body with
          | BodyZeroShot z =>
              if (0 <? List.length (Labels z))%nat
                 && (List.length (Scores z) =? List.length (Labels z))%nat
              then (extractLoop (Scores z) 0 (Labels z) [], None)
              else ([], None)
          | _ => ([], Some "error unmarshalling zero-shot response")
          end
    end.
Proof.
  intros H C. apply String.eqb_neq in H.
  unfold GetTopicsFromHF, bind, ret, zeroShotPost. cbn [emit]. rewrite H.
  destruct candidates as [|c candidates]; [contradiction|]. cbn [List.length Nat.eqb orb].
  rewrite (CallHuggingFaceAPI_run env ZeroShotModelID _ _ (proj2 (NewRequest_models env))).
  destruct (Getenv env "HF_TOKEN" =? "")%string; [reflexivity|].
  cbv zeta.
  destruct (Post env (HfApiBaseURL ++ ZeroShotModelID)
              (HFZeroShotRequest text (c :: candidates) true)) as [|st body]; [reflexivity|].
  destruct (negb (st =? 200)); [reflexivity|].
  destruct body as [r|z|]; try reflexivity.
  destruct ((0 <? List.length (Labels z))%nat
            && (List.length (Scores z) =? List.length (Labels z))%nat); reflexivity.
Qed.

(** ** Effects of the steps on the world *)

Ltac unfold_m :=
  unfold bind, ret, emit, getDB, putDB, getProc, putProc, Now,
    RespondWithError, RespondWithJSON in *.

Lemma steps_app (a b : list Event) : steps (a ++ b) = (steps a ++ steps b)%list.
Proof.
  induction a as [|e a IH]; simpl; [reflexivity|].
  destruct (stepOf e); simpl; now rewrite IH.
Qed.

Lemma In_steps (e : Event) (s : Step) (evs : list Event) :
  In e evs -> stepOf e = Some s -> In s (steps evs).
Proof.
  intros Hin He. induction evs as [|x evs IH]; [destruct Hin|].
  destruct Hin as [-> | Hin].
  - cbn [steps]. rewrite He. now left.
  - cbn [steps]. destruct (stepOf x); [right|]; now apply IH.
Qed.

Lemma initialize_frame (env : Env) (w : World) :
  db (snd (initialize env w)) = db w /\
  trace (snd (initialize env w)) = trace w /\
  reads (snd (initialize env w)) = reads w.
Proof.
  unfold initialize, InitClients. unfold_m.
  destruct (initOnce (proc w)); [now repeat split|].
  destruct ((Getenv env "SUPABASE_URL" =? "")%string
            || (Getenv env "SUPABASE_KEY" =? "")%string); [now repeat split|].
  destruct (NewClient env); now repeat split.
Qed.

Lemma initialize_ok (env : Env) (w : World) :
  fst (initialize env w) = None ->
  initErr (proc (snd (initialize env w))) = None /\
  (procOK (proc w) -> SupabaseClient (proc (snd (initialize env w))) = true).
Proof.
  unfold initialize, InitClients, procOK. unfold_m.
  destruct (initOnce (proc w)) eqn:O; cbn [fst snd proc].
  - intros E. split; [exact E | intros H; now apply H].
  - destruct ((Getenv env "SUPABASE_URL" =? "")%string
              || (Getenv env "SUPABASE_KEY" =? "")%string); cbn; [discriminate|].
    destruct (NewClient env); cbn; [discriminate|]. now split.
Qed.

Lemma initialize_procOK (env : Env) (w : World) :
  procOK (proc w) -> procOK (proc (snd (initialize env w))).
Proof.
  unfold initialize, InitClients, procOK. unfold_m.
  destruct (initOnce (proc w)) eqn:O; cbn [fst snd proc]; [auto|].
  destruct ((Getenv env "SUPABASE_URL" =? "")%string
            || (Getenv env "SUPABASE_KEY" =? "")%string); cbn; [intros; discriminate|].
  destruct (NewClient env); cbn; [intros; discriminate | auto].
Qed.

Lemma adds_trans (w1 w2 w3 : World) (a b : list Event) :
  adds w1 w2 a -> adds w2 w3 b -> adds w1 w3 (a ++ b).
Proof.
  intros [D1 [P1 [R1 T1]]] [D2 [P2 [R2 T2]]]. unfold adds.
  rewrite D2, P2, R2, T2, D1, P1, R1, T1, app_assoc. now repeat split.
Qed.

Lemma emit_adds (e : Event) (w : World) : adds w (snd (emit e w)) [e].
Proof. unfold adds. cbn. now repeat split. Qed.

Lemma CallHuggingFaceAPI_frame (env : Env) (modelID : string) (body : HFPayload)
  (w w' : World) (r : result HFBody) :
  CallHuggingFaceAPI env modelID body w = (r, w') ->
  exists posts, adds w w' posts /\ steps posts = [].
Proof.
  destruct (NewRequest env (HfApiBaseURL ++ modelID)) as [err|] eqn:N.
  { destruct (CallHuggingFaceAPI_unbuilt env modelID body w err N) as [e ->].
    intros E. injection E as _ <-. exists []. unfold adds. rewrite app_nil_r.
    now repeat split. }
  rewrite (CallHuggingFaceAPI_run env modelID body w N).
  destruct (Getenv env "HF_TOKEN" =? "")%string.
  - intros E. injection E as _ <-. exists []. unfold adds. rewrite app_nil_r. now repeat split.
  - cbv zeta. intros E.
    exists [EvHTTPPost (HfApiBaseURL ++ modelID) body]. split; [|reflexivity].
    assert (W : w' = snd (emit (EvHTTPPost (HfApiBaseURL ++ modelID) body) w)).
    { destruct (Post env (HfApiBaseURL ++ modelID) body) as [|st b].
      - now injection E as _ <-.
      - destruct (negb (st =? 200)); now injection E as _ <-. }
    rewrite W. apply emit_adds.
Qed.

Lemma GetSentimentFromHF_frame (U : Unicode) (env : Env) (text : string)
  (w w' : World) (r : string * option error) :
  GetSentimentFromHF U env text w = (r, w') ->
  exists posts, adds w w' (EvGetSentimentFromHF text :: posts) /\ steps posts = [].
Proof.
  unfold GetSentimentFromHF. unfold bind at 1.
  pose proof (emit_adds (EvGetSentimentFromHF text) w) as A0.
  destruct (emit (EvGetSentimentFromHF text) w) as [[] w0]. cbn [snd] in A0.
  destruct (TrimSpace U text =? "")%string.
  - intros E. injection E as _ <-. now exists [].
  - unfold bind.
    destruct (CallHuggingFaceAPI env SentimentModelID (HFSentimentRequest text) w0)
      as [c w1] eqn:C.
    apply CallHuggingFaceAPI_frame in C. destruct C as [posts [A1 S1]].
    intros E. exists posts. split; [|exact S1].
    assert (W : w' = w1).
    { destruct c as [[[|[|p first] rest]| |]|e]; now injection E as _ <-. }
    rewrite W. apply (adds_trans _ _ _ _ _ A0 A1).
Qed.

Lemma GetTopicsFromHF_frame (U : Unicode) (env : Env) (text : string)
  (candidates : list string) (w w' : World) (r : list string * option error) :
  GetTopicsFromHF U env text candidates w = (r, w') ->
  exists posts, adds w w' (EvGetTopicsFromHF text candidates :: posts) /\ steps posts = [].
Proof.
  unfold GetTopicsFromHF. unfold bind at 1.
  pose proof (emit_adds (EvGetTopicsFromHF text candidates) w) as A0.
  destruct (emit (EvGetTopicsFromHF text candidates) w) as [[] w0]. cbn [snd] in A0.
  destruct ((TrimSpace U text =? "")%string || (List.length candidates =? 0)%nat).
  - intros E. injection E as _ <-. now exists [].
  - unfold bind.
    destruct (CallHuggingFaceAPI env ZeroShotModelID
                (HFZeroShotRequest text candidates true) w0) as [c w1] eqn:C.
    apply CallHuggingFaceAPI_frame in C. destruct C as [posts [A1 S1]].
    intros E. exists posts. split; [|exact S1].
    assert (W : w' = w1).
    { destruct c as [[r0|z|]|e]; try (now injection E as _ <-).
      destruct ((0 <? List.length (Labels z))%nat
                && (List.length (Scores z) =? List.length (Labels z))%nat);
        now injection E as _ <-. }
    rewrite W. apply (adds_trans _ _ _ _ _ A0 A1).
Qed.

(** The feedback store: what a call leaves behind, by its result. *)

Ltac store_cases w env data :=
  unfold StoreCustomerData, ExecuteInsertFeedback, insert_customer_feedback,
    StoreChurnPrediction, ExecuteInsertPrediction, insert_churn_prediction, reply;
  unfold_m; cbn [proc db trace reads];
  destruct (SupabaseClient (proc w)) eqn:SC; cbn [negb];
  [ destruct (IsZero _); cbn [proc db trace reads];
    [ destruct (feedbackFault env) eqn:FF, (predictionFault env) eqn:PF
    | destruct (feedbackFault env) eqn:FF, (predictionFault env) eqn:PF ];
    cbn [ID NLSScore Feedback CommentSentiment CommentTopics CreatedAt
         PredictionID CustomerID ChurnProbability Reason PredictedAt];
    repeat match goal with
           | |- context [inb ?i ?l] => destruct (inb i l) eqn:?; cbn [negb]
           end;
    cbn [proc db trace reads]
  | ];
  let E := fresh "E" in
  intros E; injection E as <- <-;
  cbn [proc db trace reads customer_feedback churn_predictions
       ID NLSScore Feedback CommentSentiment CommentTopics CreatedAt
       PredictionID CustomerID ChurnProbability Reason PredictedAt];
  rewrite <- ?app_assoc; cbn [app];
  try (exfalso; congruence).

Lemma StoreCustomerData_frame (env : Env) (data : CustomerData) (w w' : World)
  (res : result string) :
  StoreCustomerData env data w = (res, w') ->
  proc w' = proc w /\
  churn_predictions (db w') = churn_predictions (db w) /\
  exists evs, trace w' = (trace w ++ EvStoreCustomerData data :: evs)%list /\
              steps evs = [].
Proof.
  store_cases w env data; (split; [reflexivity|]; split; [reflexivity|]);
    eexists; (split; [reflexivity | reflexivity]).
Qed.

Lemma StoreCustomerData_ok (env : Env) (data : CustomerData) (w w' : World)
  (id : string) :
  StoreCustomerData env data w = (Ok id, w') ->
  SupabaseClient (proc w) = true /\ feedbackFault env = NoFault /\
  inb id (feedbackIDs (db w)) = false /\
  (ID data = "" -> id = feedbackUUID env) /\
  (exists row,
     trace w' = (trace w ++ [EvStoreCustomerData data;
                             EvInsert "customer_feedback" (FeedbackRow row)])%list) /\
  exists f,
    customer_feedback (db w') = (customer_feedback (db w) ++ [f])%list /\
    ID f = id /\ NLSScore f = NLSScore data /\ Feedback f = Feedback data /\
    CommentSentiment f = CommentSentiment data /\
    CommentTopics f = CommentTopics data.
Proof.
  intros S. remember (Ok id) as res eqn:R in S. revert S.
  store_cases w env data; try discriminate R; injection R as <-.
  all: (split; [reflexivity|]; split; [reflexivity|];
        split; [first [reflexivity | assumption]|]).
  all: (split; [intros I; rewrite I; reflexivity|]).
  all: (split; [eexists; reflexivity|]).
  all: eexists; repeat split; reflexivity.
Qed.

Lemma StoreCustomerData_err (env : Env) (data : CustomerData) (w w' : World)
  (e : error) :
  StoreCustomerData env data w = (Err e, w') ->
  customer_feedback (db w') = customer_feedback (db w) \/
  exists f, customer_feedback (db w') = (customer_feedback (db w) ++ [f])%list /\
            inb (ID f) (feedbackIDs (db w)) = false.
Proof.
  intros S. remember (Err e) as res eqn:R in S. revert S.
  store_cases w env data; try discriminate R.
  all: first [ left; reflexivity
             | right; eexists; split;
               [reflexivity | first [reflexivity | assumption | cbn; assumption]] ].
Qed.

(** With a client in place and a fresh identifier drawn, the insert goes
    through and returns that identifier. *)
Lemma StoreCustomerData_succeeds (env : Env) (data : CustomerData) (w : World) :
  SupabaseClient (proc w) = true -> ID data = "" ->
  feedbackInsertSucceeds env (db w) ->
  fst (StoreCustomerData env data w) = Ok (feedbackUUID env).
Proof.
  intros SC0 I [FF0 IN0].
  destruct (StoreCustomerData env data w) as [res w'] eqn:S. revert S.
  store_cases w env data; try congruence.
  all: try (rewrite I in *; cbn in *; congruence).
Qed.

(** The prediction store. *)
Lemma StoreChurnPrediction_frame (env : Env) (p : ChurnPrediction) (w w' : World)
  (err : option error) :
  StoreChurnPrediction env p w = (err, w') ->
  proc w' = proc w /\
  customer_feedback (db w') = customer_feedback (db w) /\
  exists evs, trace w' = (trace w ++ EvStoreChurnPrediction p :: evs)%list /\
              steps evs = [].
Proof.
  store_cases w env p; (split; [reflexivity|]; split; [reflexivity|]);
    eexists; (split; [reflexivity | reflexivity]).
Qed.

Lemma StoreChurnPrediction_ok (env : Env) (p : ChurnPrediction) (w w' : World) :
  StoreChurnPrediction env p w = (None, w') ->
  inb (CustomerID p) (feedbackIDs (db w)) = true /\
  (exists row,
     trace w' = (trace w ++ [EvStoreChurnPrediction p;
                             EvInsert "churn_predictions" (PredictionRow row)])%list /\
     CustomerID row = CustomerID p) /\
  exists stored,
    churn_predictions (db w') = (churn_predictions (db w) ++ [stored])%list /\
    CustomerID stored = CustomerID p /\
    ChurnProbability stored = ChurnProbability p /\ Reason stored = Reason p.
Proof.
  intros S. remember None as err eqn:R in S. revert S.
  store_cases w env p; try discriminate R.
  all: (split; [first [reflexivity | assumption]|]).
  all: (split; [eexists; split; reflexivity|]).
  all: eexists; repeat split; reflexivity.
Qed.

(** A failed prediction insert leaves both tables as they were. *)
Lemma StoreChurnPrediction_err (env : Env) (p : ChurnPrediction) (w w' : World)
  (e : error) :
  StoreChurnPrediction env p w = (Some e, w') -> db w' = db w.
Proof.
  intros S. remember (Some e) as err eqn:R in S. revert S.
  store_cases w env p; try discriminate R; reflexivity.
Qed.

Lemma StoreChurnPrediction_fails (env : Env) (p : ChurnPrediction) (w : World) :
  PredictionID p = "" ->
  predictionInsertFails env (db w) ->
  fst (StoreChurnPrediction env p w) <> None.
Proof.
  intros I F.
  destruct (StoreChurnPrediction env p w) as [err w'] eqn:S. revert S.
  store_cases w env p; cbn [fst]; try discriminate.
  all: rewrite I in *; cbn in *.
  all: destruct F as [F | F]; congruence.
Qed.

(** With a client in place, the parent row present and a fresh identifier
    drawn, the prediction insert goes through. *)
Lemma StoreChurnPrediction_succeeds (env : Env) (p : ChurnPrediction) (w : World) :
  SupabaseClient (proc w) = true -> PredictionID p = "" ->
  inb (CustomerID p) (feedbackIDs (db w)) = true ->
  predictionInsertSucceeds env (db w) ->
  fst (StoreChurnPrediction env p w) = None.
Proof.
  intros SC0 I FK [PF0 IN0].
  destruct (StoreChurnPrediction env p w) as [err w'] eqn:S. revert S.
  store_cases w env p; cbn [fst]; try reflexivity; try congruence.
  all: rewrite I in *; cbn in *; congruence.
Qed.

(** ** The handler, path by path *)

Lemma GetSentimentFromHF_unknown (U : Unicode) (env : Env) (text : string) (w : World) :
  TrimSpace U text <> "" ->
  transportError env (sentimentPost env text) \/
  malformedSentiment (sentimentPost env text) \/
  emptySentiment (sentimentPost env text) ->
  fst (fst (GetSentimentFromHF U env text w)) = "UNKNOWN" /\
  snd (fst (GetSentimentFromHF U env text w)) <> None.
Proof.
  intros H D. rewrite (GetSentimentFromHF_nonblank U env text w H).
  destruct (Getenv env "HF_TOKEN" =? "")%string eqn:T; [now split|].
  apply String.eqb_neq in T.
  destruct D as [[D | [D | [st [body [D Hst]]]]] | [[body [D Hb]] | [D | [rest D]]]];
    try contradiction; rewrite D; try (now split).
  - apply Z.eqb_neq in Hst. rewrite Hst. now split.
  - cbn. destruct body as [r| |]; try (now split). exfalso. now apply (Hb r).
Qed.

Lemma GetTopicsFromHF_degrades (U : Unicode) (env : Env) (text : string)
  (candidates : list string) (w : World) :
  TrimSpace U text <> "" -> candidates <> [] ->
  transportError env (zeroShotPost env text candidates) \/
  malformedZeroShot (zeroShotPost env text candidates) ->
  fst (fst (GetTopicsFromHF U env text candidates w)) = [] /\
  snd (fst (GetTopicsFromHF U env text candidates w)) <> None.
Proof.
  intros H C D. rewrite (GetTopicsFromHF_call U env text candidates w H C).
  destruct (Getenv env "HF_TOKEN" =? "")%string eqn:T; [now split|].
  apply String.eqb_neq in T.
  destruct D as [[D | [D | [st [body [D Hst]]]]] | [body [D Hb]]];
    try contradiction; rewrite D; try (now split).
  - apply Z.eqb_neq in Hst. rewrite Hst. now split.
  - cbn. destruct body as [r|z|]; try (now split). exfalso. now apply (Hb z).
Qed.

(** An error from the extractor always comes with no topic. *)
Lemma GetTopicsFromHF_error_empty (U : Unicode) (env : Env) (text : string)
  (candidates : list string) (w : World) :
  snd (fst (GetTopicsFromHF U env text candidates w)) <> None ->
  fst (fst (GetTopicsFromHF U env text candidates w)) = [].
Proof.
  destruct (String.eqb_spec (TrimSpace U text) "") as [B | B].
  - rewrite GetTopicsFromHF_skip by now left. cbn. congruence.
  - destruct candidates as [|c candidates].
    + rewrite GetTopicsFromHF_skip by now right. cbn. congruence.
    + rewrite GetTopicsFromHF_call by (auto; discriminate).
      destruct (Getenv env "HF_TOKEN" =? "")%string; [reflexivity|].
      destruct (zeroShotPost env text (c :: candidates)) as [|st body]; [reflexivity|].
      destruct (negb (st =? 200)); [reflexivity|].
      destruct body as [r|z|]; try reflexivity.
      destruct ((0 <? List.length (Labels z))%nat
                && (List.length (Scores z) =? List.length (Labels z))%nat);
        cbn; congruence.
Qed.

Lemma enrich_spec (U : Unicode) (env : Env) (score : Z) (text : string)
  (w w' : World) (data : CustomerData) :
  enrich U env score text w = (data, w') ->
  data = {| ID := ""; NLSScore := score; Feedback := text; CreatedAt := ZeroTime;
            CommentSentiment :=
              match snd (fst (GetSentimentFromHF U env text w)) with
              | Some _ => "UNKNOWN"
              | None => fst (fst (GetSentimentFromHF U env text w))
              end;
            CommentTopics :=
              fst (fst (GetTopicsFromHF U env text candidateTopics
                          (snd (GetSentimentFromHF U env text w)))) |} /\
  exists posts1 posts2,
    adds w w' (EvGetSentimentFromHF text :: posts1
                 ++ EvGetTopicsFromHF text candidateTopics :: posts2) /\
    steps posts1 = [] /\ steps posts2 = [].
Proof.
  unfold enrich, bind, ret.
  destruct (GetSentimentFromHF U env text w) as [se w1] eqn:S.
  destruct (GetTopicsFromHF U env text candidateTopics w1) as [te w2] eqn:T.
  intros E. injection E as <- <-. cbn [fst snd]. rewrite T. cbn [fst snd].
  split; [reflexivity|].
  apply GetSentimentFromHF_frame in S. destruct S as [posts1 [A1 S1]].
  apply GetTopicsFromHF_frame in T. destruct T as [posts2 [A2 S2]].
  exists posts1, posts2. split; [|now split].
  apply (adds_trans _ _ _ _ _ A1 A2).
Qed.

(** A request that passes the validator goes through both enrichment calls
    and then through the storing block, whatever the enrichment returned. *)
Lemma PredictHandler_accepted (U : Unicode) (env : Env) (r : Request) (w : World)
  (req : ApiPredictRequest) (score : Z) :
  accepted env r w req score ->
  PredictHandler U env r w =
  storeAndRespond U env
    (fst (enrich U env score (FeedbackText req) (snd (initialize env w))))
    (snd (enrich U env score (FeedbackText req) (snd (initialize env w)))).
Proof.
  intros [[I [Hm Hb]] [Hs Hr]].
  unfold PredictHandler. unfold bind at 1.
  pose proof (initialize_ok env w I) as [IE _].
  destruct (initialize env w) as [e w1]. cbn [fst snd] in *. subst e.
  unfold bind at 1. unfold getProc at 1. rewrite IE, andb_false_r.
  rewrite Hm, Hb, Hs. cbn [String.eqb Ascii.eqb Bool.eqb negb andb].
  assert (R : (score <? 0) || (score >? 10) = false).
  { apply orb_false_iff. split; [apply Z.ltb_ge; lia | rewrite Z.gtb_ltb; apply Z.ltb_ge; lia]. }
  rewrite R. unfold bind at 1.
  now destruct (enrich U env score (FeedbackText req) w1).
Qed.

(** Every other request is answered at once with an error and touches
    neither table. *)
Lemma PredictHandler_rejected (U : Unicode) (env : Env) (r : Request) (w : World) :
  (exists req score, accepted env r w req score) \/
  exists code message,
    code <> 200 /\
    PredictHandler U env r w =
    (tt, snd (emit (EvRespond code (ErrorJSON message)) (snd (initialize env w)))).
Proof.
  unfold PredictHandler, accepted, reachesValidator. unfold bind at 1.
  destruct (initialize env w) as [e w1]. cbn [fst snd].
  destruct e as [e|].
  { right. exists 500, ("Server initialization failed: " ++ e). now split. }
  unfold bind at 1. unfold getProc at 1.
  destruct (negb (SupabaseClient (proc w1))
            && match initErr (proc w1) with Some _ => true | None => false end).
  { right. eexists 500, _. now split. }
  destruct (String.eqb_spec (Method r) "POST") as [Hm | Hm]; cbn [negb].
  2:{ right. eexists 405, _. now split. }
  destruct (JSONBody r) as [req|].
  2:{ right. eexists 400, _. now split. }
  destruct (reqNLSScore req) as [score|] eqn:Hs.
  2:{ right. eexists 400, _. now split. }
  destruct ((score <? 0) || (score >? 10)) eqn:R.
  { right. eexists 400, _. now split. }
  left. exists req, score. repeat split; auto.
  - apply orb_false_iff in R. destruct R as [R _]. apply Z.ltb_ge in R. lia.
  - apply orb_false_iff in R. destruct R as [_ R].
    rewrite Z.gtb_ltb in R. apply Z.ltb_ge in R. lia.
Qed.

(** The storing block, by the results of its two stores.  [w1] is the world
    after the feedback store, [w2] the world after the prediction store. *)
Lemma storeAndRespond_feedback_err (U : Unicode) (env : Env) (data : CustomerData)
  (w w1 : World) (e : error) :
  StoreCustomerData env data w = (Err e, w1) ->
  storeAndRespond U env data w =
  (tt, snd (emit (EvRespond 500 (ErrorJSON "Failed to store customer data.")) w1)).
Proof.
  intros S. unfold storeAndRespond. unfold bind at 1. rewrite S. reflexivity.
Qed.

Lemma storeAndRespond_feedback_ok (U : Unicode) (env : Env) (data : CustomerData)
  (w w1 w2 : World) (id : string) (err : option error) :
  StoreCustomerData env data w = (Ok id, w1) ->
  StoreChurnPrediction env (scored U (setID data id) id (Clock env (reads w1)))
    {| db := db w1; proc := proc w1; reads := S (reads w1);
       trace := trace w1 ++ [EvPredictChurn (setID data id)] |} = (err, w2) ->
  storeAndRespond U env data w =
  (tt, snd (emit
              match err with
              | Some _ => EvRespond 500 (ErrorJSON "Failed to store churn prediction.")
              | None =>
                  EvRespond 200
                    (ResultJSON
                       {| respCustomerID := id;
                          respChurnProbability :=
                            ChurnProbability
                              (scored U (setID data id) id (Clock env (reads w1)));
                          respReason :=
                            Reason (scored U (setID data id) id (Clock env (reads w1)));
                          respCommentSentiment := CommentSentiment data;
                          respCommentTopics := CommentTopics data |})
              end w2)).
Proof.
  intros S P. unfold storeAndRespond. unfold bind at 1. rewrite S.
  unfold bind at 1. cbn [emit]. unfold bind at 1. cbn [Now reads db proc trace].
  unfold bind at 1. rewrite P.
  destruct err; reflexivity.
Qed.

Lemma PredictionID_scored (U : Unicode) (data : CustomerData) (id : string) (now : N) :
  PredictionID (scored U data id now) = "".
Proof.
  unfold scored, PredictChurn. cbn [PredictionID].
  destruct (((NLSScore data <? 5) && hasNegativeFeedback U (Feedback data))
            || ((NLSScore data <? 3) && isNegativeSentiment U (CommentSentiment data)));
    [reflexivity|].
  destruct (NLSScore data >=? 8); reflexivity.
Qed.

Lemma storeAndRespond_outcome (U : Unicode) (env : Env) (data : CustomerData)
  (w0 : World) :
  (exists e, fst (StoreCustomerData env data w0) = Err e /\
             feedbackFailed data w0 (snd (storeAndRespond U env data w0))) \/
  (exists f e,
     fst (StoreCustomerData env data w0) = Ok (ID f) /\
     fst (StoreChurnPrediction env (predictionOf U env data w0 (ID f))
            (afterFeedback env data w0 (ID f))) = Some e /\
     predictionFailed U data w0 (snd (storeAndRespond U env data w0)) f) \/
  (exists f stored response,
     fst (StoreCustomerData env data w0) = Ok (ID f) /\
     fst (StoreChurnPrediction env (predictionOf U env data w0 (ID f))
            (afterFeedback env data w0 (ID f))) = None /\
     completed U env data w0 (snd (storeAndRespond U env data w0)) f stored response).
Proof.
  unfold predictionOf, afterFeedback.
  destruct (StoreCustomerData env data w0) as [[id | e] w1] eqn:HS; cbn [fst snd].
  - pose proof (StoreCustomerData_frame _ _ _ _ _ HS) as [_ [CP _]].
    pose proof (StoreCustomerData_ok _ _ _ _ _ HS)
      as [_ [_ [IN [_ [[row T1] [f [CF [If [F1 [F2 [F3 F4]]]]]]]]]]].
    destruct (StoreChurnPrediction env
                (scored U (setID data id) id (Clock env (reads w1)))
                {| db := db w1; proc := proc w1; reads := S (reads w1);
                   trace := trace w1 ++ [EvPredictChurn (setID data id)] |})
      as [err w2] eqn:P.
    rewrite (storeAndRespond_feedback_ok U env data w0 w1 w2 id err HS P).
    right. subst id. destruct err as [e|]; cbn [snd emit db trace].
    + left. exists f, e. split; [reflexivity|]. rewrite P. split; [reflexivity|].
      pose proof (StoreChurnPrediction_err _ _ _ _ _ P) as D.
      pose proof (StoreChurnPrediction_frame _ _ _ _ _ P) as [_ [_ [ins [T2 S2]]]].
      cbn [db trace] in D, T2.
      exists row, (scored U (setID data (ID f)) (ID f) (Clock env (reads w1))), ins.
      cbn [db trace]. rewrite D, CF, CP, T2, T1, <- !app_assoc. cbn [app].
      repeat split; auto.
    + right.
      pose proof (StoreChurnPrediction_ok _ _ _ _ P)
        as [_ [[prow [T2 Cp]] [stored [CPs [Cs [Ps Rs]]]]]].
      pose proof (StoreChurnPrediction_frame _ _ _ _ _ P) as [_ [CF2 _]].
      cbn [db trace CustomerID scored] in *.
      eexists f, stored, _. split; [reflexivity|]. rewrite P. split; [reflexivity|].
      exists row, (scored U (setID data (ID f)) (ID f) (Clock env (reads w1))), prow, w1.
      cbn [db trace]. rewrite CF2, CF, CPs, CP, T2, T1, <- !app_assoc. cbn [app].
      repeat split; auto.
  - rewrite (storeAndRespond_feedback_err U env data w0 w1 e HS).
    left. exists e. split; [reflexivity|]. cbn [snd emit db trace].
    pose proof (StoreCustomerData_frame _ _ _ _ _ HS) as [_ [CP [ins [T1 S1]]]].
    pose proof (StoreCustomerData_err _ _ _ _ _ HS) as D.
    exists ins. cbn [db trace]. rewrite T1, <- app_assoc. cbn [app]. repeat split; auto.
Qed.

(** The feedback row is written and the prediction insert fails: the row
    stays, nothing is added to the predictions, the answer is the 500 of the
    prediction store. *)
Lemma storeAndRespond_orphan (U : Unicode) (env : Env) (data : CustomerData)
  (w0 : World) :
  SupabaseClient (proc w0) = true -> ID data = "" ->
  feedbackInsertSucceeds env (db w0) ->
  predictionInsertFails env (db w0) ->
  exists f, ID f = feedbackUUID env /\
            predictionFailed U data w0 (snd (storeAndRespond U env data w0)) f.
Proof.
  intros SC I FS PF.
  pose proof (StoreCustomerData_succeeds env data w0 SC I FS) as OK.
  assert (PF' : forall id, predictionInsertFails env (db (afterFeedback env data w0 id))).
  { intros id. unfold afterFeedback, predictionInsertFails, predictionIDs in *. cbn [db].
    destruct (StoreCustomerData env data w0) as [res w1] eqn:HS.
    pose proof (StoreCustomerData_frame _ _ _ _ _ HS) as [_ [CP _]].
    cbn [snd]. now rewrite CP. }
  destruct (storeAndRespond_outcome U env data w0)
    as [[e [E _]] | [[f [e [E [_ O]]]] | [f [stored [response [E [P _]]]]]]].
  - congruence.
  - exists f. split; [congruence | exact O].
  - exfalso. revert P.
    apply StoreChurnPrediction_fails; [apply PredictionID_scored | apply PF'].
Qed.

(** Both inserts go through: both rows are written and the answer is 200. *)
Lemma storeAndRespond_completes (U : Unicode) (env : Env) (data : CustomerData)
  (w0 : World) :
  SupabaseClient (proc w0) = true -> ID data = "" ->
  feedbackInsertSucceeds env (db w0) ->
  predictionInsertSucceeds env (db w0) ->
  exists f stored response,
    ID f = feedbackUUID env /\
    completed U env data w0 (snd (storeAndRespond U env data w0)) f stored response.
Proof.
  intros SC I FS PS.
  pose proof (StoreCustomerData_succeeds env data w0 SC I FS) as OK.
  destruct (storeAndRespond_outcome U env data w0)
    as [[e [E _]] | [[f [e [E [P _]]]] | [f [stored [response [E [_ O]]]]]]].
  - congruence.
  - exfalso.
    assert (N : fst (StoreChurnPrediction env (predictionOf U env data w0 (ID f))
                       (afterFeedback env data w0 (ID f))) = None).
    { unfold afterFeedback.
      destruct (StoreCustomerData env data w0) as [res w1] eqn:HS. cbn [fst snd] in *.
      subst res.
      pose proof (StoreCustomerData_frame _ _ _ _ _ HS) as [PR [CP _]].
      pose proof (StoreCustomerData_ok _ _ _ _ _ HS)
        as [_ [_ [_ [_ [_ [f' [CF [If _]]]]]]]].
      apply StoreChurnPrediction_succeeds; cbn [db proc].
      - now rewrite PR.
      - apply PredictionID_scored.
      - unfold predictionOf, scored, feedbackIDs. cbn [CustomerID].
        rewrite CF, map_app. unfold inb. rewrite existsb_app.
        apply orb_true_iff. right. cbn [map existsb].
        injection E as E. rewrite If, <- E, String.eqb_refl. reflexivity.
      - destruct PS as [P1 P2]. split; [exact P1|].
        unfold predictionIDs in *. now rewrite CP. }
    congruence.
  - exists f, stored, response. split; [congruence | exact O].
Qed.

Lemma accepted_run (U : Unicode) (env : Env) (r : Request) (w : World)
  (req : ApiPredictRequest) (score : Z) :
  accepted env r w req score ->
  PredictHandler U env r w =
    storeAndRespond U env (enriched U env w req score) (beforeStore U env w req score) /\
  ID (enriched U env w req score) = "" /\
  NLSScore (enriched U env w req score) = score /\
  Feedback (enriched U env w req score) = FeedbackText req /\
  db (beforeStore U env w req score) = db w /\
  (procOK (proc w) -> SupabaseClient (proc (beforeStore U env w req score)) = true) /\
  exists posts1 posts2,
    trace (beforeStore U env w req score) =
      (trace w ++ EvGetSentimentFromHF (FeedbackText req) :: posts1
         ++ EvGetTopicsFromHF (FeedbackText req) candidateTopics :: posts2)%list /\
    steps posts1 = [] /\ steps posts2 = [].
Proof.
  intros A. split; [now apply PredictHandler_accepted|].
  unfold enriched, beforeStore.
  destruct A as [[I _] _].
  pose proof (initialize_frame env w) as [D0 [T0 _]].
  pose proof (initialize_ok env w I) as [_ SC].
  destruct (enrich U env score (FeedbackText req) (snd (initialize env w)))
    as [data w2] eqn:E.
  apply enrich_spec in E. destruct E as [-> [posts1 [posts2 [[D [P [_ T]]] [S1 S2]]]]].
  cbn [fst snd ID NLSScore Feedback]. repeat split.
  - now rewrite D.
  - intros OK. rewrite P. now apply SC.
  - exists posts1, posts2. rewrite T, T0. now repeat split.
Qed.

(** ** The tables *)

Lemma inb_In (x : string) (l : list string) : inb x l = true <-> In x l.
Proof.
  unfold inb. rewrite existsb_exists. split.
  - intros [y [Hy E]]. apply String.eqb_eq in E. now subst.
  - intros H. exists x. split; [exact H | apply String.eqb_refl].
Qed.

(** Adding feedback rows keeps every prediction's parent in place. *)
Lemma fk_ok_more_feedback (d d' : DB) (added : list CustomerData) :
  fk_ok d ->
  churn_predictions d' = churn_predictions d ->
  customer_feedback d' = (customer_feedback d ++ added)%list ->
  fk_ok d'.
Proof.
  unfold fk_ok, feedbackIDs. intros OK CP CF p Hp.
  rewrite CF, map_app. apply in_or_app. left. apply OK. now rewrite <- CP.
Qed.

(** Adding a prediction whose parent is present keeps the foreign key. *)
Lemma fk_ok_more_predictions (d d' : DB) (stored : ChurnPrediction) :
  fk_ok d ->
  customer_feedback d' = customer_feedback d ->
  churn_predictions d' = (churn_predictions d ++ [stored])%list ->
  In (CustomerID stored) (feedbackIDs d) ->
  fk_ok d'.
Proof.
  unfold fk_ok, feedbackIDs. intros OK CF CP Hin p Hp.
  rewrite CF. rewrite CP in Hp. apply in_app_or in Hp.
  destruct Hp as [Hp | [<- | []]]; [now apply OK | exact Hin].
Qed.

(** The service refuses a prediction without a parent. *)
Lemma insert_churn_prediction_fk (uuid : string) (row stored : ChurnPrediction)
  (d d' : DB) :
  insert_churn_prediction uuid row d = Some (stored, d') ->
  In (CustomerID stored) (feedbackIDs d) /\ (fk_ok d -> fk_ok d').
Proof.
  unfold insert_churn_prediction.
  destruct (inb _ (predictionIDs d)); [discriminate|].
  destruct (inb (CustomerID row) (feedbackIDs d)) eqn:FK; cbn [negb]; [|discriminate].
  intros E. injection E as <- <-. cbn [CustomerID].
  apply inb_In in FK. split; [exact FK|].
  intros OK.
  eapply (fk_ok_more_predictions d _ _ OK); [reflexivity | reflexivity | exact FK].
Qed.

(** ON DELETE CASCADE: deleting a feedback row takes its predictions along,
    so that no prediction is left without its parent. *)
Lemma delete_customer_feedback_fk (id : string) (d : DB) :
  fk_ok d -> fk_ok (delete_customer_feedback id d).
Proof.
  unfold fk_ok, delete_customer_feedback, feedbackIDs. cbn [customer_feedback churn_predictions].
  intros OK p Hp. apply filter_In in Hp. destruct Hp as [Hp Hne].
  specialize (OK p Hp). apply in_map_iff in OK. destruct OK as [f [Hf Hin]].
  apply in_map_iff. exists f. split; [exact Hf|].
  apply filter_In. split; [exact Hin|]. now rewrite Hf.
Qed.

Lemma fk_ok_storeAndRespond (U : Unicode) (env : Env) (data : CustomerData) (w0 : World) :
  fk_ok (db w0) -> fk_ok (db (snd (storeAndRespond U env data w0))).
Proof.
  intros OK.
  destruct (storeAndRespond_outcome U env data w0)
    as [[e [_ O]] | [[f [e [_ [_ O]]]] | [f [stored [response [_ [_ O]]]]]]].
  - destruct O as [ins [_ [_ [CP [CF | [f [CF _]]]]]]].
    + eapply (fk_ok_more_feedback _ _ []); eauto. now rewrite app_nil_r.
    + eapply fk_ok_more_feedback; eauto.
  - destruct O as [row [p [ins [CF [CP _]]]]].
    eapply fk_ok_more_feedback; eauto.
  - destruct O as [row [p [prow [w1 [_ [CF [CP [_ [_ [_ [_ [_ [_ [_ [Cs _]]]]]]]]]]]]]]].
    set (mid := {| customer_feedback := customer_feedback (db w0) ++ [f];
                   churn_predictions := churn_predictions (db w0) |}).
    assert (M : fk_ok mid)
      by (apply (fk_ok_more_feedback (db w0) mid [f] OK); reflexivity).
    apply (fk_ok_more_predictions mid _ stored M); [exact CF | exact CP |].
    unfold mid, feedbackIDs. cbn [customer_feedback]. rewrite map_app.
    apply in_or_app. right. rewrite Cs. now left.
Qed.

Lemma fk_ok_PredictHandler (U : Unicode) (env : Env) (r : Request) (w : World) :
  fk_ok (db w) -> fk_ok (db (snd (PredictHandler U env r w))).
Proof.
  intros OK.
  destruct (PredictHandler_rejected U env r w)
    as [[req [score A]] | [code [message [_ E]]]].
  - destruct (accepted_run U env r w req score A) as [E [_ [_ [_ [D _]]]]].
    rewrite E. apply fk_ok_storeAndRespond. now rewrite D.
  - rewrite E. cbn [snd emit db].
    pose proof (initialize_frame env w) as [D _]. now rewrite D.
Qed.

(** ** The orchestrator *)

Lemma PredictHandler_at_validator (U : Unicode) (env : Env) (r : Request) (w : World)
  (req : ApiPredictRequest) :
  reachesValidator env r w req ->
  PredictHandler U env r w =
  match reqNLSScore req with
  | None => RespondWithError 400 "NLS score is required."
  | Some score =>
      if (score <? 0) || (score >? 10)
      then RespondWithError 400 "NLS score must be between 0 and 10."
      else customerData <- enrich U env score (FeedbackText req) ;;
           storeAndRespond U env customerData
  end (snd (initialize env w)).
Proof.
  intros [I [Hm Hb]].
  unfold PredictHandler. unfold bind at 1.
  pose proof (initialize_ok env w I) as [IE _].
  destruct (initialize env w) as [e w1]. cbn [fst snd] in *. subst e.
  unfold bind at 1. unfold getProc at 1. rewrite IE, andb_false_r.
  rewrite Hm, Hb. reflexivity.
Qed.

Lemma PredictHandler_validator (U : Unicode) (env : Env) (r : Request) (w : World)
  (req : ApiPredictRequest) :
  reachesValidator env r w req ->
  (reqNLSScore req = None ->
   PredictHandler U env r w =
   (tt, snd (emit (EvRespond 400 (ErrorJSON "NLS score is required."))
               (snd (initialize env w))))) /\
  (forall score, reqNLSScore req = Some score -> score < 0 \/ 10 < score ->
   PredictHandler U env r w =
   (tt, snd (emit (EvRespond 400 (ErrorJSON "NLS score must be between 0 and 10."))
               (snd (initialize env w))))).
Proof.
  intros V. rewrite (PredictHandler_at_validator U env r w req V).
  split.
  - intros Hs. rewrite Hs. reflexivity.
  - intros score Hs Hr. rewrite Hs.
    assert (R : (score <? 0) || (score >? 10) = true).
    { apply orb_true_iff. rewrite Z.gtb_ltb, !Z.ltb_lt. exact Hr. }
    rewrite R. reflexivity.
Qed.

(** C5: a request that reaches the validator without a rating is answered
    400 "NLS score is required."; with a rating outside [0,10] it is answered
    400 "NLS score must be between 0 and 10.".  In both cases the response is
    the only event of the request: no enrichment call, no storage call, the
    tables and the clock untouched. *)
Theorem validator_rejects_before_any_call (U : Unicode) (env : Env) (r : Request)
  (w : World) (req : ApiPredictRequest) :
  reachesValidator env r w req ->
  (reqNLSScore req = None ->
   trace (snd (PredictHandler U env r w)) =
     (trace w ++ [EvRespond 400 (ErrorJSON "NLS score is required.")])%list /\
   db (snd (PredictHandler U env r w)) = db w /\
   reads (snd (PredictHandler U env r w)) = reads w) /\
  (forall score, reqNLSScore req = Some score -> score < 0 \/ 10 < score ->
   trace (snd (PredictHandler U env r w)) =
     (trace w ++ [EvRespond 400 (ErrorJSON "NLS score must be between 0 and 10.")])%list /\
   db (snd (PredictHandler U env r w)) = db w /\
   reads (snd (PredictHandler U env r w)) = reads w).
Proof.
  intros V.
  destruct (PredictHandler_validator U env r w req V) as [Hnone Hrange].
  pose proof (initialize_frame env w) as [D [T R]].
  split.
  - intros Hs. rewrite (Hnone Hs). cbn [snd emit trace db reads].
    now rewrite D, T, R.
  - intros score Hs Hr. rewrite (Hrange score Hs Hr). cbn [snd emit trace db reads].
    now rewrite D, T, R.
Qed.

Lemma app_last_inv (A : Type) (a b : list A) (x y : A) :
  (a ++ [x])%list = (b ++ [y])%list -> x = y.
Proof. intros H. now apply app_inj_tail in H. Qed.

(** The steps of an accepted request, by the way its storing block ends. *)
Lemma accepted_steps (U : Unicode) (env : Env) (r : Request) (w : World)
  (req : ApiPredictRequest) (score : Z) :
  accepted env r w req score ->
  exists evs last,
    trace (snd (PredictHandler U env r w)) = (trace w ++ evs ++ [last])%list /\
    ((steps evs = [StepSentiment; StepTopics; StepInsertFeedback] /\
      last = EvRespond 500 (ErrorJSON "Failed to store customer data."))
     \/
     (steps evs = [StepSentiment; StepTopics; StepInsertFeedback; StepScoring;
                   StepInsertPrediction] /\
      (last = EvRespond 500 (ErrorJSON "Failed to store churn prediction.") \/
       exists response, last = EvRespond 200 (ResultJSON response)))).
Proof.
  intros A.
  destruct (accepted_run U env r w req score A)
    as [E [_ [_ [_ [_ [_ [posts1 [posts2 [T [S1 S2]]]]]]]]]].
  rewrite E.
  set (text := FeedbackText req) in *.
  set (pre := (EvGetSentimentFromHF text :: posts1
                 ++ EvGetTopicsFromHF text candidateTopics :: posts2)%list).
  assert (SP : steps pre = [StepSentiment; StepTopics]).
  { unfold pre. cbn [steps stepOf]. rewrite steps_app. cbn [steps stepOf].
    now rewrite S1, S2. }
  destruct (storeAndRespond_outcome U env (enriched U env w req score)
              (beforeStore U env w req score))
    as [[e [_ O]] | [[f [e [_ [_ O]]]] | [f [stored [response [_ [_ O]]]]]]].
  - destruct O as [ins [T' [Si _]]].
    exists (pre ++ EvStoreCustomerData (enriched U env w req score) :: ins)%list,
      (EvRespond 500 (ErrorJSON "Failed to store customer data.")).
    split.
    + rewrite T', T. fold pre. rewrite <- !app_assoc. reflexivity.
    + left. split; [|reflexivity].
      rewrite steps_app, SP. cbn [steps stepOf]. now rewrite Si.
  - destruct O as [row [p [ins [_ [_ [_ [_ [T' Si]]]]]]]].
    eexists (pre ++ [_; _; _; _] ++ ins)%list, _.
    split.
    + rewrite T', T. fold pre. rewrite <- !app_assoc. reflexivity.
    + right. split; [|now left].
      rewrite steps_app, SP, steps_app. cbn [steps stepOf]. now rewrite Si.
  - destruct O as [row [p [prow [w1 O]]]].
    destruct O as [_ [_ [_ [_ [_ [_ [_ [_ [_ [_ [_ [_ [_ [_ T']]]]]]]]]]]]]].
    eexists (pre ++ [_; _; _; _; _])%list, _.
    split.
    + rewrite T', T. fold pre. rewrite <- !app_assoc. reflexivity.
    + right. split; [|right; now exists response].
      rewrite steps_app, SP. reflexivity.
Qed.

(** C2, as amended: for a request that passed validation the handler goes
    through: sentiment, topics (both finished, possibly degraded, before
    anything else), then the feedback store on the enriched record.  When
    that store fails, only its insert and the response 500 "Failed to store
    customer data." follow: the scoring engine is not reached and no
    prediction store is called.  When it returns an identifier, the scoring
    engine runs next, on the record carrying that identifier, then the
    prediction store with the prediction carrying that identifier, then the
    response: 500 "Failed to store churn prediction." or 200 with that
    identifier and the scored values.  Scoring comes after the feedback
    insert; every request answered 200 went through all six steps, in this
    order. *)
Theorem handler_step_order (U : Unicode) (env : Env) (r : Request) (w : World)
  (req : ApiPredictRequest) (score : Z) :
  accepted env r w req score ->
  let text := FeedbackText req in
  let data := enriched U env w req score in
  let w0 := beforeStore U env w req score in
  let w' := snd (PredictHandler U env r w) in
  exists posts1 posts2 rest,
    steps posts1 = [] /\ steps posts2 = [] /\
    trace w0 = (trace w ++ EvGetSentimentFromHF text :: posts1
                  ++ EvGetTopicsFromHF text candidateTopics :: posts2)%list /\
    trace w' = (trace w0 ++ EvStoreCustomerData data :: rest)%list /\
    (forall e,
       fst (StoreCustomerData env data w0) = Err e ->
       exists ins,
         rest = (ins ++ [EvRespond 500 (ErrorJSON "Failed to store customer data.")])%list /\
         steps ins = [] /\
         (forall d, ~ In (EvPredictChurn d) rest) /\
         (forall p, ~ In (EvStoreChurnPrediction p) rest) /\
         churn_predictions (db w') = churn_predictions (db w)) /\
    (forall id,
       fst (StoreCustomerData env data w0) = Ok id ->
       exists row ins last now,
         rest = ([EvInsert "customer_feedback" (FeedbackRow row);
                  EvPredictChurn (setID data id);
                  EvStoreChurnPrediction (scored U (setID data id) id now)]
                 ++ ins ++ [last])%list /\
         steps ins = [] /\
         ID (setID data id) = id /\
         CustomerID (scored U (setID data id) id now) = id /\
         ChurnProbability (scored U (setID data id) id now) =
           ChurnProbability (PredictChurn U (setID data id) now) /\
         Reason (scored U (setID data id) id now) =
           Reason (PredictChurn U (setID data id) now) /\
         (last = EvRespond 500 (ErrorJSON "Failed to store churn prediction.") \/
          last = EvRespond 200
                   (ResultJSON
                      {| respCustomerID := id;
                         respChurnProbability :=
                           ChurnProbability (scored U (setID data id) id now);
                         respReason := Reason (scored U (setID data id) id now);
                         respCommentSentiment := CommentSentiment data;
                         respCommentTopics := CommentTopics data |}))) /\
    (forall e,
       fst (StoreCustomerData env data w0) = Err e ->
       steps (EvGetSentimentFromHF text :: posts1
                ++ EvGetTopicsFromHF text candidateTopics :: posts2
                ++ EvStoreCustomerData data :: rest)
       = [StepSentiment; StepTopics; StepInsertFeedback; StepResponse]) /\
    (forall id,
       fst (StoreCustomerData env data w0) = Ok id ->
       steps (EvGetSentimentFromHF text :: posts1
                ++ EvGetTopicsFromHF text candidateTopics :: posts2
                ++ EvStoreCustomerData data :: rest)
       = handlerOrder) /\
    (forall response,
       answered200 w' response ->
       steps (EvGetSentimentFromHF text :: posts1
                ++ EvGetTopicsFromHF text candidateTopics :: posts2
                ++ EvStoreCustomerData data :: rest)
       = handlerOrder).
Proof.
  intros A. cbv zeta.
  destruct (accepted_run U env r w req score A)
    as [E [_ [_ [_ [D [_ [posts1 [posts2 [T [S1 S2]]]]]]]]]].
  rewrite E.
  set (text := FeedbackText req) in *.
  set (data := enriched U env w req score) in *.
  set (w0 := beforeStore U env w req score) in *.
  assert (SP : forall rest,
             steps (EvGetSentimentFromHF text :: posts1
                      ++ EvGetTopicsFromHF text candidateTopics :: posts2
                      ++ EvStoreCustomerData data :: rest)
             = (StepSentiment :: StepTopics :: StepInsertFeedback :: steps rest)).
  { intros rest. cbn [steps stepOf]. rewrite steps_app. cbn [steps stepOf].
    rewrite steps_app. cbn [steps stepOf]. now rewrite S1, S2. }
  destruct (StoreCustomerData env data w0) as [[id | e] w1] eqn:HS.
  - pose proof (StoreCustomerData_ok _ _ _ _ _ HS) as [_ [_ [_ [_ [[row T1] _]]]]].
    destruct (StoreChurnPrediction env
                (scored U (setID data id) id (Clock env (reads w1)))
                {| db := db w1; proc := proc w1; reads := S (reads w1);
                   trace := trace w1 ++ [EvPredictChurn (setID data id)] |})
      as [err w2] eqn:P.
    rewrite (storeAndRespond_feedback_ok U env data w0 w1 w2 id err HS P).
    pose proof (StoreChurnPrediction_frame _ _ _ _ _ P) as [_ [_ [ins [T2 Si]]]].
    cbn [snd emit trace fst] in *.
    set (p := scored U (setID data id) id (Clock env (reads w1))) in *.
    set (last := match err with
                 | Some _ => EvRespond 500 (ErrorJSON "Failed to store churn prediction.")
                 | None => _
                 end).
    assert (SL : steps [last] = [StepResponse]) by (unfold last; now destruct err).
    assert (SR : steps ([EvInsert "customer_feedback" (FeedbackRow row);
                         EvPredictChurn (setID data id); EvStoreChurnPrediction p]
                        ++ ins ++ [last])
                 = [StepScoring; StepInsertPrediction; StepResponse]).
    { cbn [app steps stepOf]. now rewrite steps_app, Si, SL. }
    exists posts1, posts2,
      ([EvInsert "customer_feedback" (FeedbackRow row);
        EvPredictChurn (setID data id); EvStoreChurnPrediction p]
       ++ ins ++ [last])%list.
    split; [exact S1|]. split; [exact S2|]. split; [exact T|].
    split; [rewrite T2, T1, <- !app_assoc; reflexivity|].
    split; [intros e H; discriminate H|].
    split.
    { intros id' H. injection H as <-.
      exists row, ins, last, (Clock env (reads w1)). fold p.
      split; [reflexivity|]. split; [exact Si|].
      split; [reflexivity|]. split; [reflexivity|].
      split; [reflexivity|]. split; [reflexivity|].
      unfold last. destruct err; [now left | now right]. }
    split; [intros e H; discriminate H|].
    split; [intros id' _; now rewrite SP, SR|].
    intros response _. now rewrite SP, SR.
  - rewrite (storeAndRespond_feedback_err U env data w0 w1 e HS).
    pose proof (StoreCustomerData_frame _ _ _ _ _ HS) as [_ [CP [ins [T1 Si]]]].
    cbn [snd emit trace db fst] in *.
    assert (SR : steps (ins ++ [EvRespond 500 (ErrorJSON "Failed to store customer data.")])
                 = [StepResponse]).
    { now rewrite steps_app, Si. }
    exists posts1, posts2,
      (ins ++ [EvRespond 500 (ErrorJSON "Failed to store customer data.")])%list.
    split; [exact S1|]. split; [exact S2|]. split; [exact T|].
    split; [rewrite T1, <- app_assoc; reflexivity|].
    split.
    { intros e' _. exists ins.
      split; [reflexivity|]. split; [exact Si|].
      split; [|split].
      - intros d Hin. apply (In_steps _ StepScoring) in Hin; [|reflexivity].
        rewrite SR in Hin. destruct Hin as [Hin | []]. discriminate Hin.
      - intros p Hin. apply (In_steps _ StepInsertPrediction) in Hin; [|reflexivity].
        rewrite SR in Hin. destruct Hin as [Hin | []]. discriminate Hin.
      - now rewrite CP, D. }
    split; [intros id H; discriminate H|].
    split; [intros e' _; now rewrite SP, SR|].
    split; [intros id H; discriminate H|].
    intros response [pre R]. exfalso.
    rewrite T1 in R.
    change (?a :: ins)%list with ([a] ++ ins)%list in R.
    rewrite !app_assoc in R. apply app_last_inv in R. discriminate R.
Qed.

(** C8: the two writes are not one transaction.  When the feedback insert
    succeeds and the prediction insert fails, the feedback row stays in its
    table (nothing removes it), no prediction is added, nothing follows the
    failed insert but the response, and that response is 500 "Failed to store
    churn prediction.". *)
Theorem prediction_failure_leaves_feedback_row (U : Unicode) (env : Env) (r : Request)
  (w : World) (req : ApiPredictRequest) (score : Z) :
  accepted env r w req score ->
  procOK (proc w) ->
  feedbackInsertSucceeds env (db w) ->
  predictionInsertFails env (db w) ->
  exists f evs,
    ID f = feedbackUUID env /\
    customer_feedback (db (snd (PredictHandler U env r w))) =
      (customer_feedback (db w) ++ [f])%list /\
    churn_predictions (db (snd (PredictHandler U env r w))) = churn_predictions (db w) /\
    trace (snd (PredictHandler U env r w)) =
      (trace w ++ evs
         ++ [EvRespond 500 (ErrorJSON "Failed to store churn prediction.")])%list /\
    steps evs = [StepSentiment; StepTopics; StepInsertFeedback; StepScoring;
                 StepInsertPrediction].
Proof.
  intros A OK FS PF.
  destruct (accepted_run U env r w req score A)
    as [E [I [_ [_ [D [SC [posts1 [posts2 [T [S1 S2]]]]]]]]]].
  rewrite E.
  destruct (storeAndRespond_orphan U env (enriched U env w req score)
              (beforeStore U env w req score)) as [f [If O]]; auto.
  { now rewrite D. }
  { now rewrite D. }
  destruct O as [row [p [ins [CF [CP [_ [_ [T' Si]]]]]]]].
  exists f.
  eexists ((EvGetSentimentFromHF (FeedbackText req) :: posts1
              ++ EvGetTopicsFromHF (FeedbackText req) candidateTopics :: posts2)
             ++ [_; _; _; _] ++ ins)%list.
  rewrite CF, CP, T', T, D. repeat split; auto.
  - rewrite <- !app_assoc. reflexivity.
  - rewrite steps_app. cbn [steps stepOf]. rewrite !steps_app. cbn [steps stepOf].
    now rewrite S1, S2, Si.
Qed.

(** C4: for a request with a valid rating, a failing enrichment call never
    ends the request.  A failed sentiment call leaves the label UNKNOWN, a
    failed topic call leaves no topic; a transport error, a malformed or (for
    the sentiment) an empty answer are such failures.  Whatever the two calls
    returned, the handler goes on with the same storing block on the record
    so obtained: the feedback store is called with it, the one response
    written is 200 or one of the two storage errors, never an enrichment
    error, and when both inserts go through both rows are written and the
    answer is 200 with the degraded values. *)
Theorem enrichment_failure_never_aborts (U : Unicode) (env : Env) (r : Request)
  (w : World) (req : ApiPredictRequest) (score : Z) :
  accepted env r w req score ->
  let text := FeedbackText req in
  let w1 := snd (initialize env w) in
  let data := enriched U env w req score in
  let w' := snd (PredictHandler U env r w) in
  (sentimentFails U env text w1 -> CommentSentiment data = "UNKNOWN") /\
  (topicsFail U env text (snd (GetSentimentFromHF U env text w1)) ->
   CommentTopics data = []) /\
  (TrimSpace U text <> "" ->
   transportError env (sentimentPost env text) \/
   malformedSentiment (sentimentPost env text) \/
   emptySentiment (sentimentPost env text) ->
   sentimentFails U env text w1) /\
  (TrimSpace U text <> "" ->
   transportError env (zeroShotPost env text candidateTopics) \/
   malformedZeroShot (zeroShotPost env text candidateTopics) ->
   topicsFail U env text (snd (GetSentimentFromHF U env text w1))) /\
  PredictHandler U env r w =
    storeAndRespond U env data (beforeStore U env w req score) /\
  (exists pre rest, trace w' = (pre ++ EvStoreCustomerData data :: rest)%list) /\
  (exists evs code payload,
     trace w' = (trace w ++ evs ++ [EvRespond code payload])%list /\
     storageOrSuccess code payload /\
     forall c p, ~ In (EvRespond c p) evs) /\
  (procOK (proc w) ->
   feedbackInsertSucceeds env (db w) -> predictionInsertSucceeds env (db w) ->
   exists f stored response,
     completed U env data (beforeStore U env w req score) w' f stored response /\
     CommentSentiment f = CommentSentiment data /\
     CommentTopics f = CommentTopics data /\
     respCommentSentiment response = CommentSentiment data /\
     respCommentTopics response = CommentTopics data).
Proof.
  intros A. cbv zeta.
  destruct (accepted_run U env r w req score A)
    as [E [I [_ [_ [D [SC [posts1 [posts2 [T [S1 S2]]]]]]]]]].
  set (text := FeedbackText req) in *.
  set (w1 := snd (initialize env w)) in *.
  set (data := enriched U env w req score) in *.
  assert (DATA : data =
            {| ID := ""; NLSScore := score; Feedback := text; CreatedAt := ZeroTime;
               CommentSentiment :=
                 match snd (fst (GetSentimentFromHF U env text w1)) with
                 | Some _ => "UNKNOWN"
                 | None => fst (fst (GetSentimentFromHF U env text w1))
                 end;
               CommentTopics :=
                 fst (fst (GetTopicsFromHF U env text candidateTopics
                             (snd (GetSentimentFromHF U env text w1)))) |}).
  { unfold data, enriched. fold text w1.
    destruct (enrich U env score text w1) as [d w2] eqn:En.
    now apply enrich_spec in En. }
  split; [|split; [|split; [|split; [|split; [|split; [|split]]]]]].
  - unfold sentimentFails. intros F. rewrite DATA. cbn [CommentSentiment].
    destruct (snd (fst (GetSentimentFromHF U env text w1))); [reflexivity | contradiction].
  - unfold topicsFail. intros F. rewrite DATA. cbn [CommentTopics].
    now apply GetTopicsFromHF_error_empty.
  - intros B F. unfold sentimentFails.
    now apply GetSentimentFromHF_unknown.
  - intros B F. unfold topicsFail.
    apply GetTopicsFromHF_degrades; [exact B | discriminate | exact F].
  - exact E.
  - rewrite E.
    destruct (storeAndRespond_outcome U env data (beforeStore U env w req score))
      as [[e [_ O]] | [[f [e [_ [_ O]]]] | [f [stored [response [_ [_ O]]]]]]].
    + destruct O as [ins [T' _]]. rewrite T'. eexists _, _. reflexivity.
    + destruct O as [row [p [ins [_ [_ [_ [_ [T' _]]]]]]]]. rewrite T'.
      eexists _, _. cbn [app]. reflexivity.
    + destruct O as [row [p [prow [w2 O]]]].
      destruct O as [_ [_ [_ [_ [_ [_ [_ [_ [_ [_ [_ [_ [_ [_ T']]]]]]]]]]]]]].
      rewrite T'. eexists _, _. cbn [app]. reflexivity.
  - destruct (accepted_steps U env r w req score A) as [evs [last [T' C]]].
    assert (NoResp : forall c p, ~ In (EvRespond c p) evs).
    { intros c p Hin.
      assert (G : In StepResponse (steps evs)).
      { clear -Hin. induction evs as [|e evs IH]; [destruct Hin|].
        destruct Hin as [-> | Hin]; [now left|].
        cbn [steps]. destruct (stepOf e); [right|]; now apply IH. }
      destruct C as [[S _] | [S _]]; rewrite S in G; cbn in G;
        repeat destruct G as [G | G]; try discriminate; auto. }
    rewrite T'.
    destruct C as [[_ ->] | [_ [-> | [response ->]]]]; eexists evs, _, _;
      (split; [reflexivity|]; split; [|exact NoResp]); unfold storageOrSuccess.
    + left. now split.
    + right; left. now split.
    + right; right. split; [reflexivity | now exists response].
  - intros OK FS PS. rewrite E.
    destruct (storeAndRespond_completes U env data (beforeStore U env w req score))
      as [f [stored [response [_ O]]]]; auto.
    { now rewrite D. }
    { now rewrite D. }
    exists f, stored, response. split; [exact O|].
    destruct O as [row [p [prow [w2 O]]]].
    destruct O as [_ [_ [_ [_ [_ [_ [F3 [F4 [_ [_ [_ [_ [_ [R _]]]]]]]]]]]]]].
    rewrite R. now repeat split.
Qed.

(** C3: for every request answered 200, the prediction row written by the
    request refers to the feedback row written by the same request, by the
    identifier that the feedback store returned; the prediction insert is
    sent after the feedback insert has returned, with that identifier.  The
    handler keeps the foreign key of the prediction table, the service
    refuses a prediction without a parent, and deleting a feedback row
    deletes its predictions: no prediction is left without its parent. *)
Theorem prediction_refers_to_stored_feedback (U : Unicode) (env : Env) (r : Request)
  (w : World) :
  (forall response,
     answered200 (snd (PredictHandler U env r w)) response ->
     exists f stored data w0 w1 pre row mid prow,
       StoreCustomerData env data w0 = (Ok (ID f), w1) /\
       customer_feedback (db (snd (PredictHandler U env r w))) =
         (customer_feedback (db w) ++ [f])%list /\
       churn_predictions (db (snd (PredictHandler U env r w))) =
         (churn_predictions (db w) ++ [stored])%list /\
       CustomerID stored = ID f /\
       respCustomerID response = ID f /\
       trace (snd (PredictHandler U env r w)) =
         (trace w ++ pre ++ EvInsert "customer_feedback" (FeedbackRow row) :: mid
            ++ [EvInsert "churn_predictions" (PredictionRow prow);
                EvRespond 200 (ResultJSON response)])%list /\
       CustomerID prow = ID f) /\
  (fk_ok (db w) -> fk_ok (db (snd (PredictHandler U env r w)))) /\
  (forall uuid prediction stored d d',
     insert_churn_prediction uuid prediction d = Some (stored, d') ->
     In (CustomerID stored) (feedbackIDs d) /\ (fk_ok d -> fk_ok d')) /\
  (forall id d, fk_ok d -> fk_ok (delete_customer_feedback id d)).
Proof.
  split; [|split; [|split]].
  - intros response [last P].
    destruct (PredictHandler_rejected U env r w)
      as [[req [score A]] | [code [message [NE E]]]].
    2:{ exfalso. rewrite E in P. cbn [snd emit trace] in P.
        apply app_last_inv in P. discriminate. }
    destruct (accepted_run U env r w req score A)
      as [E [_ [_ [_ [D [_ [posts1 [posts2 [T _]]]]]]]]].
    rewrite E in *.
    destruct (storeAndRespond_outcome U env (enriched U env w req score)
                (beforeStore U env w req score))
      as [[e [_ O]] | [[f [e [_ [_ O]]]] | [f [stored [response' [_ [_ O]]]]]]].
    + exfalso. destruct O as [ins [T' _]]. rewrite T' in P.
      change (?a :: ins ++ ?l)%list with ((a :: ins) ++ l)%list in P.
      rewrite app_assoc in P. apply app_last_inv in P. discriminate.
    + exfalso. destruct O as [row [p [ins [_ [_ [_ [_ [T' _]]]]]]]]. rewrite T' in P.
      rewrite !app_assoc in P. apply app_last_inv in P. discriminate.
    + destruct O as [row [p [prow [w1 O]]]].
      destruct O as [HS [CF [CP [_ [_ [_ [_ [_ [Hp [Cr [Cs [_ [_ [R T']]]]]]]]]]]]]].
      assert (Heq : response' = response).
      { rewrite T' in P.
        change [?a; ?b; ?c; ?d; ?e; ?g] with ([a; b; c; d; e] ++ [g])%list in P.
        rewrite app_assoc in P. apply app_last_inv in P. now injection P. }
      rewrite Heq in *. clear Heq.
      exists f, stored, (enriched U env w req score), (beforeStore U env w req score), w1.
      exists ((EvGetSentimentFromHF (FeedbackText req) :: posts1
                 ++ EvGetTopicsFromHF (FeedbackText req) candidateTopics :: posts2)
                ++ [EvStoreCustomerData (enriched U env w req score)])%list,
        row,
        [EvPredictChurn (setID (enriched U env w req score) (ID f)); EvStoreChurnPrediction p],
        prow.
      rewrite CF, CP, T', T, D.
      split; [exact HS|]. split; [reflexivity|]. split; [reflexivity|].
      split; [exact Cs|]. split; [rewrite R; reflexivity|]. split; [|exact Cr].
      rewrite <- !app_assoc. reflexivity.
  - apply fk_ok_PredictHandler.
  - intros uuid prediction stored d d'. apply insert_churn_prediction_fk.
  - intros id d. apply delete_customer_feedback_fk.
Qed.



(* ------------------------------------------------------------------ *)
(** * Instances and counterexamples *)

Lemma accepted_demo (env : Env) (score : Z) (text : string) :
  Getenv env "SUPABASE_URL" = "set" -> Getenv env "SUPABASE_KEY" = "set" ->
  NewClient env = None -> 0 <= score <= 10 ->
  accepted env (post (Some score) text) world0
    {| reqNLSScore := Some score; FeedbackText := text |} score.
Proof.
  intros HU HK HN R. unfold accepted, reachesValidator, initialize, InitClients.
  unfold_m. cbn. rewrite HU, HK, HN. cbn. now repeat split.
Qed.

(** The unit test of the keyword path: rating 4, "unhappy" and "terrible"
    in the text, sentiment NEUTRAL. *)
Lemma PredictChurn_rule_table_witness :
  0 <= NLSScore keywordCase <= 10 /\
  ruleTable (rule1 asciiOnly (NLSScore keywordCase) (Feedback keywordCase)
               (CommentSentiment keywordCase))
    (NLSScore keywordCase) (PredictChurn asciiOnly keywordCase 0).
Proof.
  split; [cbn; lia|].
  apply (PredictChurn_rule_table asciiOnly keywordCase 0). cbn. lia.
Defined.

(** C1 as first stated, with the label compared by [== NEGATIVE], fails at
    rating 2, empty text, label "negative": no keyword and the label is not
    the exact NEGATIVE, so the table asks for 0.4; the code answers 0.8. *)
Lemma PredictChurn_exact_label_counterexample :
  0 <= NLSScore lowercaseNegative <= 10 /\
  ChurnProbability (PredictChurn asciiOnly lowercaseNegative 0) = float64 0.8 /\
  ~ ruleTable (rule1_exactLabel asciiOnly (NLSScore lowercaseNegative)
                 (Feedback lowercaseNegative) (CommentSentiment lowercaseNegative))
      (NLSScore lowercaseNegative) (PredictChurn asciiOnly lowercaseNegative 0).
Proof.
  split; [cbn; lia|]. split; [reflexivity|].
  intros [_ [_ [H _]]].
  assert (N : ~ rule1_exactLabel asciiOnly (NLSScore lowercaseNegative)
                  (Feedback lowercaseNegative) (CommentSentiment lowercaseNegative)).
  { intros [[_ M] | [_ E]].
    - apply hasNegativeFeedback_spec in M. discriminate M.
    - discriminate E. }
  assert (L : NLSScore lowercaseNegative < 8) by (cbn; lia).
  destruct (H N L) as [P _]. vm_compute in P. discriminate P.
Qed.

Lemma PredictChurn_sentiment_any_casing_witness :
  NLSScore lowercaseNegative < 3 /\
  ToUpper asciiOnly (CommentSentiment lowercaseNegative) = "NEGATIVE" /\
  ChurnProbability (PredictChurn asciiOnly lowercaseNegative 0) = float64 0.8 /\
  Reason (PredictChurn asciiOnly lowercaseNegative 0) = reasonHighChurn.
Proof.
  assert (L : NLSScore lowercaseNegative < 3) by (cbn; lia).
  assert (E : ToUpper asciiOnly (CommentSentiment lowercaseNegative) = "NEGATIVE")
    by reflexivity.
  split; [exact L|]. split; [exact E|].
  exact (PredictChurn_sentiment_any_casing asciiOnly lowercaseNegative 0 L E).
Defined.

(** Other casings of the label. *)
Lemma ToUpper_negative_casings :
  ToUpper asciiOnly "Negative" = "NEGATIVE" /\
  ToUpper asciiOnly "nEgAtIvE" = "NEGATIVE" /\
  ToUpper asciiOnly "NEGATIVE" = "NEGATIVE".
Proof. now repeat split. Qed.

(** Blank text; an endpoint that is down; an endpoint that answers NEGATIVE
    0.9, POSITIVE 0.1. *)
Lemma GetSentimentFromHF_spec_witness :
  (TrimSpace asciiOnly "   " = "" /\
   fst (GetSentimentFromHF asciiOnly envOK "   " world0) = ("NEUTRAL", None) /\
   trace (snd (GetSentimentFromHF asciiOnly envOK "   " world0))
     = [EvGetSentimentFromHF "   "]) /\
  (TrimSpace asciiOnly "It was alright." <> "" /\
   transportError envHFDown (sentimentPost envHFDown "It was alright.") /\
   fst (fst (GetSentimentFromHF asciiOnly envHFDown "It was alright." world0)) = "UNKNOWN") /\
  (Getenv envOK "HF_TOKEN" <> "" /\
   sentimentPost envOK "It was alright." = HTTPResponse 200 (BodySentiment [demoPairs]) /\
   (exists q, In q demoPairs /\ (0 < Score q)%Q) /\
   fst (fst (GetSentimentFromHF asciiOnly envOK "It was alright." world0)) = "NEGATIVE" /\
   strictlyHighestFirst demoPairs "NEGATIVE").
Proof.
  assert (B : TrimSpace asciiOnly "   " = "") by reflexivity.
  assert (NB : TrimSpace asciiOnly "It was alright." <> "") by discriminate.
  assert (TE : transportError envHFDown (sentimentPost envHFDown "It was alright."))
    by (right; left; reflexivity).
  assert (TK : Getenv envOK "HF_TOKEN" <> "") by discriminate.
  assert (Q : exists q, In q demoPairs /\ (0 < Score q)%Q).
  { exists {| Label := "NEGATIVE"; Score := 0.9 |}. split; [now left | reflexivity]. }
  split; [|split].
  - split; [exact B|].
    exact (proj1 (GetSentimentFromHF_spec asciiOnly envOK "   " world0) B).
  - split; [exact NB|]. split; [exact TE|].
    exact (proj1 (proj1 (proj2 (GetSentimentFromHF_spec asciiOnly envHFDown
                                  "It was alright." world0))
                    NB (or_introl TE))).
  - split; [exact TK|]. split; [reflexivity|]. split; [exact Q|].
    split; [reflexivity|].
    exact (proj2 (proj2 (proj2 (GetSentimentFromHF_spec asciiOnly envOK
                                  "It was alright." world0))
                    NB TK demoPairs [] eq_refl Q)).
Defined.

(** C6 as first stated fails when no score is positive: the classifier
    returns the single pair (NEGATIVE, 0), whose label carries the highest
    score, and the analyzer answers NEUTRAL, a label that was not returned. *)
Lemma GetSentimentFromHF_highest_counterexample :
  TrimSpace asciiOnly "ok" <> "" /\
  Getenv envZeroScore "HF_TOKEN" <> "" /\
  sentimentPost envZeroScore "ok" =
    HTTPResponse 200 (BodySentiment [[ {| Label := "NEGATIVE"; Score := 0 |} ]]) /\
  strictlyHighestFirst [ {| Label := "NEGATIVE"; Score := 0 |} ] "NEGATIVE" /\
  fst (GetSentimentFromHF asciiOnly envZeroScore "ok" world0) = ("NEUTRAL", None) /\
  ~ strictlyHighestFirst [ {| Label := "NEGATIVE"; Score := 0 |} ]
      (fst (fst (GetSentimentFromHF asciiOnly envZeroScore "ok" world0))).
Proof.
  split; [discriminate|]. split; [discriminate|]. split; [reflexivity|].
  split; [|split; [reflexivity|]].
  - exists 0%nat, {| Label := "NEGATIVE"; Score := 0 |}.
    split; [reflexivity|]. split; [reflexivity|]. split.
    + intros q [<- | []]. apply Qle_refl.
    + intros j q Hj. inversion Hj.
  - intros [i [p [Hn [Hl _]]]].
    destruct i as [|i]; [|destruct i; discriminate Hn].
    injection Hn as <-. discriminate Hl.
Qed.

Lemma GetSentimentFromHF_no_positive_score_witness :
  TrimSpace asciiOnly "ok" <> "" /\
  Getenv envZeroScore "HF_TOKEN" <> "" /\
  sentimentPost envZeroScore "ok" =
    HTTPResponse 200 (BodySentiment [[ {| Label := "NEGATIVE"; Score := 0 |} ]]) /\
  [ {| Label := "NEGATIVE"; Score := 0 |} ] <> [] /\
  (forall q, In q [ {| Label := "NEGATIVE"; Score := 0 |} ] -> (Score q <= 0)%Q) /\
  fst (GetSentimentFromHF asciiOnly envZeroScore "ok" world0) = ("NEUTRAL", None).
Proof.
  assert (NB : TrimSpace asciiOnly "ok" <> "") by discriminate.
  assert (TK : Getenv envZeroScore "HF_TOKEN" <> "") by discriminate.
  assert (NE : [ {| Label := "NEGATIVE"; Score := 0 |} ] <> []) by discriminate.
  assert (NP : forall q, In q [ {| Label := "NEGATIVE"; Score := 0 |} ] -> (Score q <= 0)%Q).
  { intros q [<- | []]. apply Qle_refl. }
  split; [exact NB|]. split; [exact TK|]. split; [reflexivity|].
  split; [exact NE|]. split; [exact NP|].
  exact (GetSentimentFromHF_no_positive_score asciiOnly envZeroScore "ok" world0
           _ [] NB TK eq_refl NE NP).
Defined.



Lemma procOK_world0 : procOK (proc world0).
Proof. intros H. discriminate H. Qed.

Lemma answered200_happy :
  answered200 (snd (PredictHandler asciiOnly envOK (post (Some 9) "Excellent product, very happy!") world0))
    happyResponse.
Proof.
  exists (removelast
            (trace (snd (PredictHandler asciiOnly envOK
                           (post (Some 9) "Excellent product, very happy!") world0)))).
  vm_compute. reflexivity.
Qed.

(** Rating 9, "Excellent product, very happy!", every call succeeding. *)
Lemma handler_step_order_witness :
  accepted envOK (post (Some 9) "Excellent product, very happy!") world0 happyRequest 9 /\
  exists evs,
    trace (snd (PredictHandler asciiOnly envOK
                  (post (Some 9) "Excellent product, very happy!") world0))
      = (trace world0 ++ evs)%list /\
    steps evs = handlerOrder.
Proof.
  assert (A : accepted envOK (post (Some 9) "Excellent product, very happy!") world0
                happyRequest 9)
    by (apply accepted_demo; (reflexivity || lia)).
  split; [exact A|].
  destruct (handler_step_order asciiOnly envOK _ world0 happyRequest 9 A)
    as [posts1 [posts2 [rest [_ [_ [T0 [T [_ [_ [_ [_ H]]]]]]]]]]].
  exists (EvGetSentimentFromHF (FeedbackText happyRequest) :: posts1
            ++ EvGetTopicsFromHF (FeedbackText happyRequest) candidateTopics :: posts2
            ++ EvStoreCustomerData (enriched asciiOnly envOK world0 happyRequest 9) :: rest)%list.
  split; [|exact (H happyResponse answered200_happy)].
  rewrite T, T0, <- !app_assoc. cbn [app]. rewrite <- app_assoc. reflexivity.
Defined.

(** C2 as first stated has the scoring engine run before the feedback
    insert.  On a request that is accepted and answered 200 the handler's
    steps are not in that order: the feedback insert comes third and the
    scoring fourth. *)
Lemma scoring_before_insert_counterexample :
  accepted envOK (post (Some 9) "Excellent product, very happy!") world0 happyRequest 9 /\
  answered200 (snd (PredictHandler asciiOnly envOK
                      (post (Some 9) "Excellent product, very happy!") world0))
    happyResponse /\
  steps (trace (snd (PredictHandler asciiOnly envOK
                       (post (Some 9) "Excellent product, very happy!") world0)))
    = [StepSentiment; StepTopics; StepInsertFeedback; StepScoring;
       StepInsertPrediction; StepResponse] /\
  steps (trace (snd (PredictHandler asciiOnly envOK
                       (post (Some 9) "Excellent product, very happy!") world0)))
    <> specifiedOrder.
Proof.
  split; [apply accepted_demo; (reflexivity || lia)|].
  split; [exact answered200_happy|].
  split; [vm_compute; reflexivity|].
  vm_compute. discriminate.
Qed.

Lemma prediction_refers_to_stored_feedback_witness :
  answered200 (snd (PredictHandler asciiOnly envOK
                      (post (Some 9) "Excellent product, very happy!") world0))
    happyResponse /\
  fk_ok (db world0) /\
  (exists f stored,
     customer_feedback (db (snd (PredictHandler asciiOnly envOK
                                   (post (Some 9) "Excellent product, very happy!") world0)))
       = [f] /\
     churn_predictions (db (snd (PredictHandler asciiOnly envOK
                                   (post (Some 9) "Excellent product, very happy!") world0)))
       = [stored] /\
     CustomerID stored = ID f /\ respCustomerID happyResponse = ID f) /\
  fk_ok (db (snd (PredictHandler asciiOnly envOK
                    (post (Some 9) "Excellent product, very happy!") world0))).
Proof.
  assert (F : fk_ok (db world0)) by (intros p []).
  split; [exact answered200_happy|]. split; [exact F|].
  pose proof (prediction_refers_to_stored_feedback asciiOnly envOK
                (post (Some 9) "Excellent product, very happy!") world0) as [H [K _]].
  split; [|exact (K F)].
  destruct (H happyResponse answered200_happy)
    as [f [stored [data [w0 [w1 [pre [row [mid [prow [_ [CF [CP [C [R _]]]]]]]]]]]]]].
  exists f, stored. repeat split; assumption.
Defined.

(** The inference endpoint is down; rating 6, "The service was okay.". *)
Lemma enrichment_failure_never_aborts_witness :
  accepted envHFDown (post (Some 6) "The service was okay.") world0 okayRequest 6 /\
  TrimSpace asciiOnly "The service was okay." <> "" /\
  transportError envHFDown (sentimentPost envHFDown "The service was okay.") /\
  transportError envHFDown
    (zeroShotPost envHFDown "The service was okay." candidateTopics) /\
  procOK (proc world0) /\
  feedbackInsertSucceeds envHFDown (db world0) /\
  predictionInsertSucceeds envHFDown (db world0) /\
  CommentSentiment (enriched asciiOnly envHFDown world0 okayRequest 6) = "UNKNOWN" /\
  CommentTopics (enriched asciiOnly envHFDown world0 okayRequest 6) = [] /\
  exists f stored response,
    completed asciiOnly envHFDown (enriched asciiOnly envHFDown world0 okayRequest 6)
      (beforeStore asciiOnly envHFDown world0 okayRequest 6)
      (snd (PredictHandler asciiOnly envHFDown (post (Some 6) "The service was okay.") world0))
      f stored response /\
    CommentSentiment f = "UNKNOWN" /\ respCommentSentiment response = "UNKNOWN".
Proof.
  assert (A : accepted envHFDown (post (Some 6) "The service was okay.") world0
                okayRequest 6)
    by (apply accepted_demo; (reflexivity || lia)).
  assert (NB : TrimSpace asciiOnly "The service was okay." <> "") by discriminate.
  assert (TS : transportError envHFDown
                 (sentimentPost envHFDown "The service was okay."))
    by (right; left; reflexivity).
  assert (TT : transportError envHFDown
                 (zeroShotPost envHFDown "The service was okay." candidateTopics))
    by (right; left; reflexivity).
  assert (FS : feedbackInsertSucceeds envHFDown (db world0)) by (split; reflexivity).
  assert (PS : predictionInsertSucceeds envHFDown (db world0))
    by (split; [discriminate | reflexivity]).
  pose proof (enrichment_failure_never_aborts asciiOnly envHFDown
                (post (Some 6) "The service was okay.") world0 okayRequest 6 A)
    as [H1 [H2 [H3 [H4 [_ [_ [_ H8]]]]]]].
  assert (S : CommentSentiment (enriched asciiOnly envHFDown world0 okayRequest 6)
              = "UNKNOWN")
    by exact (H1 (H3 NB (or_introl TS))).
  repeat (split; [assumption || exact procOK_world0|]).
  split; [exact (H2 (H4 NB (or_introl TT)))|].
  destruct (H8 procOK_world0 FS PS) as [f [stored [response [C [E1 [_ [E2 _]]]]]]].
  exists f, stored, response. split; [exact C|].
  split; [now rewrite E1 | now rewrite E2].
Defined.

(** The two rejections of the validator: no rating; rating 11. *)
Lemma validator_rejects_before_any_call_witness :
  (reachesValidator envOK (post None "Feedback only.") world0
     {| reqNLSScore := None; FeedbackText := "Feedback only." |} /\
   trace (snd (PredictHandler asciiOnly envOK (post None "Feedback only.") world0))
     = [EvRespond 400 (ErrorJSON "NLS score is required.")] /\
   db (snd (PredictHandler asciiOnly envOK (post None "Feedback only.") world0)) = emptyDB) /\
  (reachesValidator envOK (post (Some 11) "Good.") world0
     {| reqNLSScore := Some 11; FeedbackText := "Good." |} /\
   (11 < 0 \/ 10 < 11) /\
   trace (snd (PredictHandler asciiOnly envOK (post (Some 11) "Good.") world0))
     = [EvRespond 400 (ErrorJSON "NLS score must be between 0 and 10.")] /\
   db (snd (PredictHandler asciiOnly envOK (post (Some 11) "Good.") world0)) = emptyDB).
Proof.
  assert (V1 : reachesValidator envOK (post None "Feedback only.") world0
                 {| reqNLSScore := None; FeedbackText := "Feedback only." |})
    by (repeat split; reflexivity).
  assert (V2 : reachesValidator envOK (post (Some 11) "Good.") world0
                 {| reqNLSScore := Some 11; FeedbackText := "Good." |})
    by (repeat split; reflexivity).
  assert (R : 11 < 0 \/ 10 < 11) by (right; lia).
  split.
  - split; [exact V1|].
    destruct (proj1 (validator_rejects_before_any_call asciiOnly envOK _ world0 _ V1)
                eq_refl) as [T [D _]].
    split; [exact T | exact D].
  - split; [exact V2|]. split; [exact R|].
    destruct (proj2 (validator_rejects_before_any_call asciiOnly envOK _ world0 _ V2)
                11 eq_refl R) as [T [D _]].
    split; [exact T | exact D].
Defined.

(** The prediction insert is refused; rating 2, "terrible unhappy service". *)
Lemma prediction_failure_leaves_feedback_row_witness :
  accepted envPredictionFails (post (Some 2) "terrible unhappy service") world0
    unhappyRequest 2 /\
  procOK (proc world0) /\
  feedbackInsertSucceeds envPredictionFails (db world0) /\
  predictionInsertFails envPredictionFails (db world0) /\
  exists f evs,
    ID f = feedbackUUID envPredictionFails /\
    customer_feedback
      (db (snd (PredictHandler asciiOnly envPredictionFails
                  (post (Some 2) "terrible unhappy service") world0)))
      = (customer_feedback (db world0) ++ [f])%list /\
    churn_predictions
      (db (snd (PredictHandler asciiOnly envPredictionFails
                  (post (Some 2) "terrible unhappy service") world0)))
      = churn_predictions (db world0) /\
    trace (snd (PredictHandler asciiOnly envPredictionFails
                  (post (Some 2) "terrible unhappy service") world0))
      = (trace world0 ++ evs
           ++ [EvRespond 500 (ErrorJSON "Failed to store churn prediction.")])%list /\
    steps evs = [StepSentiment; StepTopics; StepInsertFeedback; StepScoring;
                 StepInsertPrediction].
Proof.
  assert (A : accepted envPredictionFails (post (Some 2) "terrible unhappy service")
                world0 unhappyRequest 2)
    by (apply accepted_demo; (reflexivity || lia)).
  assert (FS : feedbackInsertSucceeds envPredictionFails (db world0))
    by (split; reflexivity).
  assert (PF : predictionInsertFails envPredictionFails (db world0))
    by (left; reflexivity).
  split; [exact A|]. split; [exact procOK_world0|]. split; [exact FS|].
  split; [exact PF|].
  exact (prediction_failure_leaves_feedback_row asciiOnly envPredictionFails _ world0
           unhappyRequest 2 A procOK_world0 FS PF).
Defined.

(* ------------------------------------------------------------------ *)
(** * Further properties of the code *)

(** ** The scoring engine *)

Lemma float64_levels :
  (float64 0.1 < float64 0.4)%Q /\ (float64 0.4 < float64 0.8)%Q.
Proof. split; reflexivity. Qed.

Ltac ltb_cases :=
  repeat match goal with
         | |- context [Z.ltb ?a ?b] =>
             let E := fresh "E" in
             destruct (a <? b) eqn:E;
             [apply Z.ltb_lt in E | apply Z.ltb_ge in E]
         | |- context [Z.geb ?a ?b] =>
             let E := fresh "E" in
             destruct (a >=? b) eqn:E;
             [apply Z.geb_le in E
             | rewrite Z.geb_leb in E; apply Z.leb_gt in E]
         end.

(** X1: with the text and the sentiment fixed, a higher rating never gives
    a higher churn probability. *)
Theorem PredictChurn_monotone (U : Unicode) (low high : CustomerData) (n1 n2 : N) :
  Feedback low = Feedback high ->
  CommentSentiment low = CommentSentiment high ->
  NLSScore low <= NLSScore high ->
  (ChurnProbability (PredictChurn U high n2) <=
   ChurnProbability (PredictChurn U low n1))%Q.
Proof.
  intros F S L. unfold PredictChurn. rewrite F, S.
  destruct (hasNegativeFeedback U (Feedback high));
    destruct (isNegativeSentiment U (CommentSentiment high));
    ltb_cases; cbn [andb orb ChurnProbability];
    try lia; try apply Qle_refl; try (now vm_compute).
Qed.

Lemma PredictChurn_monotone_witness :
  Feedback lowercaseNegative = Feedback ratedSeven /\
  CommentSentiment lowercaseNegative = CommentSentiment ratedSeven /\
  NLSScore lowercaseNegative <= NLSScore ratedSeven /\
  (ChurnProbability (PredictChurn asciiOnly ratedSeven 0) <=
   ChurnProbability (PredictChurn asciiOnly lowercaseNegative 0))%Q.
Proof.
  assert (L : NLSScore lowercaseNegative <= NLSScore ratedSeven) by (cbn; lia).
  split; [reflexivity|]. split; [reflexivity|]. split; [exact L|].
  exact (PredictChurn_monotone asciiOnly lowercaseNegative ratedSeven 0 0
           eq_refl eq_refl L).
Defined.

(** X2: from rating 5 on neither the text nor the sentiment matters: the
    answer is 0.4 "Moderate ..." for 5, 6, 7 and 0.1 "High NLS score." from 8
    on; 0.8 is out of reach. *)
Theorem PredictChurn_rating_from_5 (U : Unicode) (data : CustomerData) (now : N) :
  5 <= NLSScore data ->
  PredictChurn U data now =
  {| PredictionID := ""; CustomerID := "";
     ChurnProbability := if NLSScore data >=? 8 then float64 0.1 else float64 0.4;
     Reason := if NLSScore data >=? 8 then reasonLowChurn else reasonModerateChurn;
     PredictedAt := Instant now |}.
Proof.
  intros H. unfold PredictChurn.
  assert (E5 : (NLSScore data <? 5) = false) by (apply Z.ltb_ge; lia).
  assert (E3 : (NLSScore data <? 3) = false) by (apply Z.ltb_ge; lia).
  rewrite E5, E3. cbn [andb orb].
  destruct (NLSScore data >=? 8); reflexivity.
Qed.

Lemma PredictChurn_rating_from_5_witness :
  5 <= 5 /\
  ChurnProbability
    (PredictChurn asciiOnly
       {| ID := "test005"; NLSScore := 5; Feedback := "I am unhappy with the product.";
          CreatedAt := ZeroTime; CommentSentiment := "NEGATIVE"; CommentTopics := [] |} 0)
  = float64 0.4.
Proof.
  split; [lia|].
  rewrite (PredictChurn_rating_from_5 asciiOnly _ 0); [reflexivity | cbn; lia].
Defined.

(** X3: the keyword test is a substring test that ignores ASCII case: below
    rating 5, an ASCII text in which some stretch of bytes spells one of the
    four keywords in any casing, also inside a longer word, is scored 0.8. *)
Theorem PredictChurn_keyword_anywhere (U : Unicode) (data : CustomerData) (now : N)
  (pre mid post keyword : string) :
  NLSScore data < 5 ->
  Feedback data = pre ++ mid ++ post ->
  isASCII (Feedback data) = true ->
  mapBytes lowerByte mid = keyword ->
  In keyword negativeKeywords ->
  ChurnProbability (PredictChurn U data now) = float64 0.8 /\
  Reason (PredictChurn U data now) = reasonHighChurn.
Proof.
  intros L F A M K.
  apply (PredictChurn_table U data now). left. split; [exact L|].
  exists keyword. split; [exact K|].
  apply (containsFold_ascii U _ _ A). now exists pre, mid, post.
Qed.

Lemma PredictChurn_keyword_anywhere_witness :
  4 < 5 /\
  "Played BADminton all day" = "Played " ++ "BAD" ++ "minton all day" /\
  isASCII "Played BADminton all day" = true /\
  mapBytes lowerByte "BAD" = "bad" /\
  In "bad" negativeKeywords /\
  ChurnProbability
    (PredictChurn asciiOnly
       {| ID := ""; NLSScore := 4; Feedback := "Played BADminton all day";
          CreatedAt := ZeroTime; CommentSentiment := "POSITIVE"; CommentTopics := [] |} 0)
  = float64 0.8.
Proof.
  split; [lia|]. split; [reflexivity|]. split; [reflexivity|].
  split; [reflexivity|]. split; [now left|].
  refine (proj1 (PredictChurn_keyword_anywhere asciiOnly
                   {| ID := ""; NLSScore := 4; Feedback := "Played BADminton all day";
                      CreatedAt := ZeroTime; CommentSentiment := "POSITIVE";
                      CommentTopics := [] |} 0
                   "Played " "BAD" "minton all day" "bad" _ _ _ _ _));
    [cbn; lia | reflexivity | reflexivity | reflexivity | now left].
Defined.

(** X4: against the first server's PredictChurn on the same rating and
    text, the later one never lowers the probability; the two differ in one
    case only, rating below 3 with a sentiment that upper-cases to NEGATIVE
    and no keyword in the text, where 0.4 became 0.8. *)
Theorem PredictChurn_against_first_version (U : Unicode) (data : CustomerData) (now : N) :
  (Main.ChurnProbability (Main.PredictChurn U (withoutInsights data) now) <=
   ChurnProbability (PredictChurn U data now))%Q /\
  (NLSScore data < 3 /\ ToUpper U (CommentSentiment data) = "NEGATIVE" /\
   ~ negativeKeywordMatch U (Feedback data) ->
   Main.ChurnProbability (Main.PredictChurn U (withoutInsights data) now) = float64 0.4 /\
   ChurnProbability (PredictChurn U data now) = float64 0.8) /\
  (~ (NLSScore data < 3 /\ ToUpper U (CommentSentiment data) = "NEGATIVE" /\
      ~ negativeKeywordMatch U (Feedback data)) ->
   Main.ChurnProbability (Main.PredictChurn U (withoutInsights data) now) =
   ChurnProbability (PredictChurn U data now)).
Proof.
  assert (HN : Main.hasNegativeFeedback U (Feedback data)
               = hasNegativeFeedback U (Feedback data)).
  { unfold Main.hasNegativeFeedback, hasNegativeFeedback.
    destruct (String.eqb_spec (Feedback data) "") as [-> | _]; reflexivity. }
  pose proof (hasNegativeFeedback_spec U (Feedback data)) as K.
  pose proof (isNegativeSentiment_spec U (CommentSentiment data)) as S.
  unfold Main.PredictChurn, PredictChurn, withoutInsights.
  cbn [Main.NLSScore Main.Feedback]. rewrite HN.
  destruct (hasNegativeFeedback U (Feedback data));
    destruct (isNegativeSentiment U (CommentSentiment data));
    ltb_cases; cbn [andb orb ChurnProbability Main.ChurnProbability];
    try lia.
  all: split; [first [apply Qle_refl | now vm_compute]|].
  all: split.
  all: try (intros [_ [_ HN']]; exfalso; apply HN'; apply (proj1 K); reflexivity).
  all: try (intros [HL _]; exfalso; lia).
  all: try (intros [_ [HE _]]; apply (proj2 S) in HE; discriminate HE).
  all: try (intros _; now split).
  all: try (intros _; reflexivity).
  all: intros HN'; exfalso; apply HN'; split; [lia|]; split;
    [apply (proj1 S); reflexivity | intros M; apply (proj2 K) in M; discriminate M].
Qed.

Lemma PredictChurn_against_first_version_witness :
  (NLSScore lowercaseNegative < 3 /\
   ToUpper asciiOnly (CommentSentiment lowercaseNegative) = "NEGATIVE" /\
   ~ negativeKeywordMatch asciiOnly (Feedback lowercaseNegative)) /\
  Main.ChurnProbability (Main.PredictChurn asciiOnly (withoutInsights lowercaseNegative) 0)
    = float64 0.4 /\
  ChurnProbability (PredictChurn asciiOnly lowercaseNegative 0) = float64 0.8.
Proof.
  assert (H : NLSScore lowercaseNegative < 3 /\
              ToUpper asciiOnly (CommentSentiment lowercaseNegative) = "NEGATIVE" /\
              ~ negativeKeywordMatch asciiOnly (Feedback lowercaseNegative)).
  { split; [cbn; lia|]. split; [reflexivity|].
    intros M. apply hasNegativeFeedback_spec in M. discriminate M. }
  split; [exact H|].
  exact (proj1 (proj2 (PredictChurn_against_first_version asciiOnly lowercaseNegative 0)) H).
Defined.

(** ** The calls to the inference endpoint *)



(** Where the loop's answer comes from: the running label, or a pair above
    the running maximum. *)
Lemma bestLabelLoop_origin (pairs : list LabelScore) (highestScore : Q) (bestLabel : string) :
  bestLabelLoop pairs highestScore bestLabel = bestLabel \/
  exists p, In p pairs /\ bestLabelLoop pairs highestScore bestLabel = Label p /\
            (highestScore < Score p)%Q.
Proof.
  destruct (scores_above_dec pairs highestScore) as [H | H].
  - left. now apply bestLabelLoop_keep.
  - right. destruct (bestLabelLoop_max pairs highestScore bestLabel H)
      as [i [p [Hn [Hb [Hlt _]]]]].
    exists p. repeat split; auto. eapply nth_error_In, Hn.
Qed.

(** X6: the analyzer never invents a label.  What it returns is NEUTRAL,
    UNKNOWN, or the label of a pair with a strictly positive score in the
    first list of the answer; later lists are never looked at.  An error
    always comes with UNKNOWN. *)
Theorem GetSentimentFromHF_label_origin (U : Unicode) (env : Env) (text : string)
  (w : World) :
  (fst (fst (GetSentimentFromHF U env text w)) = "NEUTRAL" \/
   fst (fst (GetSentimentFromHF U env text w)) = "UNKNOWN" \/
   exists pairs rest p,
     sentimentPost env text = HTTPResponse 200 (BodySentiment (pairs :: rest)) /\
     In p pairs /\ (0 < Score p)%Q /\
     fst (fst (GetSentimentFromHF U env text w)) = Label p) /\
  (snd (fst (GetSentimentFromHF U env text w)) <> None ->
   fst (fst (GetSentimentFromHF U env text w)) = "UNKNOWN").
Proof.
  destruct (String.eqb_spec (TrimSpace U text) "") as [B | B].
  - rewrite (GetSentimentFromHF_blank U env text w B). cbn [fst snd].
    split; [now left | congruence].
  - rewrite (GetSentimentFromHF_nonblank U env text w B).
    destruct (Getenv env "HF_TOKEN" =? "")%string; [split; [right; now left | reflexivity]|].
    destruct (sentimentPost env text) as [|st body] eqn:P;
      [split; [right; now left | reflexivity]|].
    destruct (Z.eqb_spec st 200) as [-> | N]; cbn [negb];
      [|split; [right; now left | reflexivity]].
    destruct body as [[|[|p first] rest]| |]; cbn [fst snd];
      try (split; [right; now left | reflexivity]).
    split; [|congruence].
    destruct (bestLabelLoop_origin (p :: first) 0%Q "NEUTRAL") as [E | [q [Hq [E L]]]].
    + now left.
    + right; right. exists (p :: first), rest, q. now repeat split.
Qed.

Lemma GetSentimentFromHF_label_origin_witness :
  snd (fst (GetSentimentFromHF asciiOnly envHFDown "It was alright." world0)) <> None /\
  fst (fst (GetSentimentFromHF asciiOnly envHFDown "It was alright." world0)) = "UNKNOWN".
Proof.
  assert (E : snd (fst (GetSentimentFromHF asciiOnly envHFDown "It was alright." world0))
              <> None) by discriminate.
  split; [exact E|].
  exact (proj2 (GetSentimentFromHF_label_origin asciiOnly envHFDown "It was alright." world0) E).
Defined.

Lemma trimLeft_blank (s : string) : trimLeft s = "" <-> allSpace s = true.
Proof.
  induction s as [|c s IH]; cbn [trimLeft allSpace]; [now split|].
  destruct (asciiSpace c); cbn [andb]; [exact IH | split; discriminate].
Qed.

Lemma trimRight_blank (s : string) : trimRight s = "" <-> s = "" \/ allSpace s = true.
Proof.
  induction s as [|c s IH]; cbn [trimRight allSpace].
  - split; [now left | reflexivity].
  - destruct (trimRight s) eqn:T.
    + destruct (asciiSpace c) eqn:C; cbn [andb].
      * split; [intros _; right | reflexivity].
        destruct (proj1 IH eq_refl) as [-> | A]; [reflexivity | exact A].
      * split; [discriminate | intros [H | H]; discriminate].
    + split; [discriminate|]. intros [H | H]; [discriminate|].
      apply andb_true_iff in H. destruct H as [_ H].
      assert (N : String a s0 = "") by (apply IH; now right). discriminate N.
Qed.

Lemma trimLeft_allSpace_inv (s : string) :
  allSpace (trimLeft s) = true -> allSpace s = true.
Proof.
  induction s as [|c s IH]; cbn [trimLeft allSpace]; [auto|].
  destruct (asciiSpace c) eqn:C; cbn [andb]; [exact IH|].
  cbn [allSpace]. rewrite C. discriminate.
Qed.

(** What "blank" means on ASCII text. *)
Lemma TrimSpace_blank (U : Unicode) (s : string) :
  isASCII s = true -> (TrimSpace U s = "" <-> allSpace s = true).
Proof.
  intros A. unfold TrimSpace. rewrite A. rewrite trimRight_blank, trimLeft_blank.
  split.
  - intros [H | H]; [exact H | now apply trimLeft_allSpace_inv].
  - intros H. now left.
Qed.



(** ** The handler: refusals and initialisation *)

Lemma In_respond_steps (evs : list Event) (c : Z) (p : ResponsePayload) :
  In (EvRespond c p) evs -> In StepResponse (steps evs).
Proof.
  induction evs as [|e evs IH]; [intros []|].
  intros [-> | Hin]; [now left|].
  cbn [steps]. destruct (stepOf e); [right|]; now apply IH.
Qed.

(** A request that does not pass the validator is answered by one of five
    errors; the second check after initialisation is not among them. *)
Lemma PredictHandler_refused (U : Unicode) (env : Env) (r : Request) (w : World) :
  (exists req score, accepted env r w req score) \/
  exists code message,
    PredictHandler U env r w =
      (tt, snd (emit (EvRespond code (ErrorJSON message)) (snd (initialize env w)))) /\
    ((code = 500 /\ exists e, fst (initialize env w) = Some e /\
                               message = "Server initialization failed: " ++ e) \/
     (code = 405 /\ message = "Only POST method is allowed.") \/
     (code = 400 /\
      In message ["Invalid JSON request body."; "NLS score is required.";
                  "NLS score must be between 0 and 10."])).
Proof.
  pose proof (initialize_ok env w) as OK.
  unfold PredictHandler, accepted, reachesValidator. unfold bind at 1.
  destruct (initialize env w) as [e w1]. cbn [fst snd] in *.
  destruct e as [e|].
  { right. exists 500, ("Server initialization failed: " ++ e).
    split; [reflexivity|]. left. split; [reflexivity|]. now exists e. }
  destruct (OK eq_refl) as [IE _].
  unfold bind at 1. unfold getProc at 1. rewrite IE, andb_false_r.
  destruct (String.eqb_spec (Method r) "POST") as [Hm | Hm]; cbn [negb].
  2:{ right. eexists 405, _. split; [reflexivity|]. right; left. now split. }
  destruct (JSONBody r) as [req|].
  2:{ right. eexists 400, _. split; [reflexivity|]. right; right.
      split; [reflexivity | now left]. }
  destruct (reqNLSScore req) as [score|] eqn:Hs.
  2:{ right. eexists 400, _. split; [reflexivity|]. right; right.
      split; [reflexivity | right; now left]. }
  destruct ((score <? 0) || (score >? 10)) eqn:R.
  { right. eexists 400, _. split; [reflexivity|]. right; right.
    split; [reflexivity | right; right; now left]. }
  left. exists req, score. repeat split; auto.
  - apply orb_false_iff in R. destruct R as [R _]. apply Z.ltb_ge in R. lia.
  - apply orb_false_iff in R. destruct R as [_ R].
    rewrite Z.gtb_ltb in R. apply Z.ltb_ge in R. lia.
Qed.

(** X8: every request is answered exactly once, and the answer is the last
    thing the handler does.  The status is one of 200, 400, 405 and 500; it
    is 200 exactly when the body is a result, every other answer is an
    error object. *)
Theorem PredictHandler_responds_once (U : Unicode) (env : Env) (r : Request) (w : World) :
  exists evs code payload,
    trace (snd (PredictHandler U env r w)) =
      (trace w ++ evs ++ [EvRespond code payload])%list /\
    (forall c p, ~ In (EvRespond c p) evs) /\
    In code [200; 400; 405; 500] /\
    (code = 200 <-> exists response, payload = ResultJSON response).
Proof.
  destruct (PredictHandler_refused U env r w)
    as [[req [score A]] | [code [message [E C]]]].
  - destruct (accepted_steps U env r w req score A) as [evs [last [T C]]].
    assert (NoResp : forall c p, ~ In (EvRespond c p) evs).
    { intros c p Hin. apply In_respond_steps in Hin.
      destruct C as [[S _] | [S _]]; rewrite S in Hin; cbn in Hin;
        repeat destruct Hin as [Hin | Hin]; try discriminate; auto. }
    rewrite T.
    destruct C as [[_ ->] | [_ [-> | [response ->]]]]; eexists evs, _, _;
      (split; [reflexivity|]; split; [exact NoResp|]).
    + split; [cbn; auto|]. split; [discriminate | intros [x X]; discriminate].
    + split; [cbn; auto|]. split; [discriminate | intros [x X]; discriminate].
    + split; [cbn; auto|]. split; [intros _; now exists response | reflexivity].
  - exists [], code, (ErrorJSON message).
    rewrite E. cbn [snd emit trace app].
    destruct (initialize_frame env w) as [_ [-> _]].
    split; [reflexivity|]. split; [intros c p []|].
    destruct C as [[-> _] | [[-> _] | [-> _]]];
      (split; [cbn; auto|]); (split; [discriminate | intros [x X]; discriminate]).
Qed.

(** X9: what is refused before the body is looked at.  A failed
    initialisation answers 500 with the error's text; otherwise a method
    other than POST answers 405, whatever the body; otherwise a body that
    does not decode answers 400.  In each case the answer is the only thing
    that happens: no table is touched, the clock is not read. *)
Theorem PredictHandler_refusals (U : Unicode) (env : Env) (r : Request) (w : World) :
  (forall e, fst (initialize env w) = Some e ->
     trace (snd (PredictHandler U env r w)) =
       (trace w ++ [EvRespond 500 (ErrorJSON ("Server initialization failed: " ++ e))])%list /\
     db (snd (PredictHandler U env r w)) = db w /\
     reads (snd (PredictHandler U env r w)) = reads w) /\
  (fst (initialize env w) = None -> Method r <> "POST" ->
     trace (snd (PredictHandler U env r w)) =
       (trace w ++ [EvRespond 405 (ErrorJSON "Only POST method is allowed.")])%list /\
     db (snd (PredictHandler U env r w)) = db w /\
     reads (snd (PredictHandler U env r w)) = reads w) /\
  (fst (initialize env w) = None -> Method r = "POST" -> JSONBody r = None ->
     trace (snd (PredictHandler U env r w)) =
       (trace w ++ [EvRespond 400 (ErrorJSON "Invalid JSON request body.")])%list /\
     db (snd (PredictHandler U env r w)) = db w /\
     reads (snd (PredictHandler U env r w)) = reads w).
Proof.
  pose proof (initialize_frame env w) as [D [T R]].
  pose proof (initialize_ok env w) as OK.
  remember (PredictHandler U env r w) as out eqn:P.
  unfold PredictHandler in P. unfold bind at 1 in P.
  destruct (initialize env w) as [err w1]. cbn [fst snd] in *.
  split; [|split].
  - intros e ->. subst out.
    unfold RespondWithError, RespondWithJSON, emit; cbn [snd trace db reads].
    now rewrite T, D, R.
  - intros -> Hm. destruct (OK eq_refl) as [IE _].
    unfold bind at 1 in P. unfold getProc at 1 in P. rewrite IE, andb_false_r in P.
    apply String.eqb_neq in Hm. rewrite Hm in P. subst out.
    cbn [negb]. unfold RespondWithError, RespondWithJSON, emit; cbn [snd trace db reads].
    now rewrite T, D, R.
  - intros -> Hm Hb. destruct (OK eq_refl) as [IE _].
    unfold bind at 1 in P. unfold getProc at 1 in P. rewrite IE, andb_false_r in P.
    rewrite Hm, Hb in P. subst out.
    cbn [String.eqb Ascii.eqb Bool.eqb negb].
    unfold RespondWithError, RespondWithJSON, emit; cbn [snd trace db reads].
    now rewrite T, D, R.
Qed.

Lemma PredictHandler_refusals_witness :
  (fst (initialize envNoConfig world0) =
     Some "SUPABASE_URL and SUPABASE_KEY environment variables must be set" /\
   trace (snd (PredictHandler asciiOnly envNoConfig (post (Some 9) "Fine.") world0)) =
     [EvRespond 500
        (ErrorJSON ("Server initialization failed: " ++
                    "SUPABASE_URL and SUPABASE_KEY environment variables must be set"))]) /\
  (fst (initialize envOK world0) = None /\
   Method {| Method := "GET"; RemoteAddr := "192.0.2.1:4000"; JSONBody := None |} <> "POST" /\
   trace (snd (PredictHandler asciiOnly envOK
                 {| Method := "GET"; RemoteAddr := "192.0.2.1:4000"; JSONBody := None |}
                 world0)) =
     [EvRespond 405 (ErrorJSON "Only POST method is allowed.")]) /\
  (Method {| Method := "POST"; RemoteAddr := "192.0.2.1:4000"; JSONBody := None |} = "POST" /\
   JSONBody {| Method := "POST"; RemoteAddr := "192.0.2.1:4000"; JSONBody := None |} = None /\
   trace (snd (PredictHandler asciiOnly envOK
                 {| Method := "POST"; RemoteAddr := "192.0.2.1:4000"; JSONBody := None |}
                 world0)) =
     [EvRespond 400 (ErrorJSON "Invalid JSON request body.")]).
Proof.
  assert (I : fst (initialize envOK world0) = None) by reflexivity.
  assert (G : Method {| Method := "GET"; RemoteAddr := "192.0.2.1:4000"; JSONBody := None |}
              <> "POST") by discriminate.
  split; [|split].
  - split; [reflexivity|].
    exact (proj1 (proj1 (PredictHandler_refusals asciiOnly envNoConfig
                           (post (Some 9) "Fine.") world0) _ eq_refl)).
  - split; [exact I|]. split; [exact G|].
    exact (proj1 (proj1 (proj2 (PredictHandler_refusals asciiOnly envOK _ world0)) I G)).
  - split; [reflexivity|]. split; [reflexivity|].
    exact (proj1 (proj2 (proj2 (PredictHandler_refusals asciiOnly envOK
                                  {| Method := "POST"; RemoteAddr := "192.0.2.1:4000";
                                     JSONBody := None |} world0)) I eq_refl eq_refl)).
Defined.

(** X10: the second check after initialisation never fires.  When
    [initialize] has returned nil, [initErr] is nil, so no request is ever
    answered with the message of that check. *)
Theorem PredictHandler_second_check_unreachable (U : Unicode) (env : Env) (r : Request)
  (w : World) :
  exists evs,
    trace (snd (PredictHandler U env r w)) = (trace w ++ evs)%list /\
    forall code,
      ~ In (EvRespond code
              (ErrorJSON "Supabase client not available due to initialization error."))
           evs.
Proof.
  destruct (PredictHandler_refused U env r w)
    as [[req [score A]] | [code [message [E C]]]].
  - destruct (accepted_steps U env r w req score A) as [evs [last [T C]]].
    exists (evs ++ [last])%list. split; [exact T|].
    intros code Hin. apply in_app_or in Hin. destruct Hin as [Hin | [Hin | []]].
    + apply In_respond_steps in Hin.
      destruct C as [[S _] | [S _]]; rewrite S in Hin; cbn in Hin;
        repeat destruct Hin as [Hin | Hin]; try discriminate; auto.
    + destruct C as [[_ ->] | [_ [-> | [response ->]]]]; discriminate.
  - exists [EvRespond code (ErrorJSON message)].
    rewrite E. cbn [snd emit trace].
    destruct (initialize_frame env w) as [_ [-> _]].
    split; [reflexivity|].
    intros c [Hin | []]. injection Hin as _ M.
    destruct C as [[_ [e [_ ->]]] | [[_ ->] | [_ Hm]]].
    + cbn in M. discriminate.
    + discriminate.
    + cbn in Hm. repeat destruct Hm as [<- | Hm]; try discriminate; auto.
Qed.

Lemma storeAndRespond_proc (U : Unicode) (env : Env) (data : CustomerData) (w : World) :
  proc (snd (storeAndRespond U env data w)) = proc w.
Proof.
  destruct (StoreCustomerData env data w) as [[id | e] w1] eqn:HS.
  - pose proof (StoreCustomerData_frame _ _ _ _ _ HS) as [P1 _].
    destruct (StoreChurnPrediction env
                (scored U (setID data id) id (Clock env (reads w1)))
                {| db := db w1; proc := proc w1; reads := S (reads w1);
                   trace := trace w1 ++ [EvPredictChurn (setID data id)] |})
      as [err w2] eqn:P.
    rewrite (storeAndRespond_feedback_ok U env data w w1 w2 id err HS P).
    pose proof (StoreChurnPrediction_frame _ _ _ _ _ P) as [P2 _].
    cbn [snd emit proc] in *. congruence.
  - rewrite (storeAndRespond_feedback_err U env data w w1 e HS).
    pose proof (StoreCustomerData_frame _ _ _ _ _ HS) as [P1 _].
    cbn [snd emit proc]. exact P1.
Qed.

(** After initialisation the handler does not touch the package variables. *)
Lemma PredictHandler_proc (U : Unicode) (env : Env) (r : Request) (w : World) :
  proc (snd (PredictHandler U env r w)) = proc (snd (initialize env w)).
Proof.
  destruct (PredictHandler_refused U env r w)
    as [[req [score A]] | [code [message [E _]]]].
  - rewrite (PredictHandler_accepted U env r w req score A).
    rewrite storeAndRespond_proc.
    destruct (enrich U env score (FeedbackText req) (snd (initialize env w)))
      as [data w2] eqn:En.
    apply enrich_spec in En. destruct En as [_ [posts1 [posts2 [[_ [P _]] _]]]].
    exact P.
  - rewrite E. reflexivity.
Qed.

(** What [initialize] leaves in the package variables. *)
Lemma initialize_done (env : Env) (w : World) :
  initOnce (proc (snd (initialize env w))) = true /\
  initErr (proc (snd (initialize env w))) = fst (initialize env w).
Proof.
  remember (initialize env w) as out eqn:P.
  unfold initialize, bind, getProc, ret, putProc in P.
  destruct (initOnce (proc w)) eqn:O.
  - subst out. cbn [fst snd]. now split.
  - destruct (InitClients env w) as [err w1]. subst out. now split.
Qed.

(** Once [initOnce] has fired, [initialize] returns the recorded result and
    changes nothing, in whatever environment it is called. *)
Lemma initialize_again (env : Env) (w : World) :
  initOnce (proc w) = true -> initialize env w = (initErr (proc w), w).
Proof.
  intros O. unfold initialize, bind, getProc, ret. now rewrite O.
Qed.

(** A request that finds the initialisation failed is answered with its
    error and nothing else. *)
Lemma PredictHandler_init_failed (U : Unicode) (env : Env) (r : Request) (w : World)
  (e : error) :
  fst (initialize env w) = Some e ->
  PredictHandler U env r w =
    (tt, snd (emit (EvRespond 500 (ErrorJSON ("Server initialization failed: " ++ e)))
                (snd (initialize env w)))).
Proof.
  intros I. unfold PredictHandler. unfold bind at 1.
  destruct (initialize env w) as [err w1]. cbn [fst snd] in *. now subst err.
Qed.

(** X11: initialisation happens once per process.  After any request the
    once-flag is set and the recorded result is the one that request saw;
    every later call of [initialize] returns that result and changes
    nothing, also when the environment has changed in between. *)
Theorem initialize_runs_once (U : Unicode) (env : Env) (r : Request) (w : World) :
  initOnce (proc (snd (PredictHandler U env r w))) = true /\
  initErr (proc (snd (PredictHandler U env r w))) = fst (initialize env w) /\
  forall env',
    initialize env' (snd (PredictHandler U env r w)) =
      (fst (initialize env w), snd (PredictHandler U env r w)).
Proof.
  pose proof (PredictHandler_proc U env r w) as P.
  destruct (initialize_done env w) as [O E].
  rewrite <- P in O, E.
  split; [exact O|]. split; [exact E|].
  intros env'. rewrite (initialize_again env' _ O). now rewrite E.
Qed.

(** X12: a failed initialisation is never tried again.  When the first
    request finds the configuration missing or the client cannot be built,
    every later request, whatever it carries and whatever the environment
    has become, is answered 500 with the text of that first error and
    leaves tables and package variables as they are. *)
Theorem initialization_failure_is_permanent (U : Unicode) (env env' : Env)
  (r r' : Request) (w : World) (e : error) :
  fst (initialize env w) = Some e ->
  let w1 := snd (PredictHandler U env r w) in
  let w2 := snd (PredictHandler U env' r' w1) in
  trace w2 =
    (trace w1 ++ [EvRespond 500 (ErrorJSON ("Server initialization failed: " ++ e))])%list /\
  db w2 = db w /\ proc w2 = proc w1.
Proof.
  intros I. cbv zeta.
  pose proof (PredictHandler_proc U env r w) as P.
  destruct (initialize_done env w) as [O E]. rewrite <- P in O, E. rewrite I in E.
  pose proof (initialize_again env' _ O) as A. rewrite E in A.
  assert (I' : fst (initialize env' (snd (PredictHandler U env r w))) = Some e)
    by now rewrite A.
  rewrite (PredictHandler_init_failed U env' r' _ e I'), A.
  cbn [snd emit trace db proc].
  split; [reflexivity|]. split; [|reflexivity].
  rewrite (PredictHandler_init_failed U env r w e I). cbn [snd emit db].
  apply initialize_frame.
Qed.

Lemma initialization_failure_is_permanent_witness :
  fst (initialize envNoConfig world0) =
    Some "SUPABASE_URL and SUPABASE_KEY environment variables must be set" /\
  trace (snd (PredictHandler asciiOnly envOK (post (Some 9) "Excellent product, very happy!")
                (snd (PredictHandler asciiOnly envNoConfig (post (Some 9) "Fine.") world0)))) =
    [EvRespond 500
       (ErrorJSON ("Server initialization failed: " ++
                   "SUPABASE_URL and SUPABASE_KEY environment variables must be set"));
     EvRespond 500
       (ErrorJSON ("Server initialization failed: " ++
                   "SUPABASE_URL and SUPABASE_KEY environment variables must be set"))] /\
  db (snd (PredictHandler asciiOnly envOK (post (Some 9) "Excellent product, very happy!")
             (snd (PredictHandler asciiOnly envNoConfig (post (Some 9) "Fine.") world0)))) =
    emptyDB.
Proof.
  split; [reflexivity|].
  destruct (initialization_failure_is_permanent asciiOnly envNoConfig envOK
              (post (Some 9) "Fine.") (post (Some 9) "Excellent product, very happy!")
              world0 _ eq_refl) as [T [D _]].
  split; [exact T | exact D].
Defined.

(** ** What one request costs *)

Lemma tally_app (p : Event -> bool) (a b : list Event) :
  tally p (a ++ b) = (tally p a + tally p b)%nat.
Proof. unfold tally. now rewrite filter_app, length_app. Qed.

Lemma CallHuggingFaceAPI_posts (env : Env) (modelID : string) (requestBody : HFPayload)
  (w : World) :
  NewRequest env (HfApiBaseURL ++ modelID) = None ->
  trace (snd (CallHuggingFaceAPI env modelID requestBody w)) =
    (trace w ++ if (Getenv env "HF_TOKEN" =? "")%string then []
                else [EvHTTPPost (HfApiBaseURL ++ modelID) requestBody])%list.
Proof.
  intros N. rewrite (CallHuggingFaceAPI_run env modelID requestBody w N).
  destruct (Getenv env "HF_TOKEN" =? "")%string; [cbn [snd]; now rewrite app_nil_r|].
  cbv zeta.
  destruct (Post env (HfApiBaseURL ++ modelID) requestBody) as [|st body]; [reflexivity|].
  destruct (negb (st =? 200)); reflexivity.
Qed.

(** The requests the two analyzers send for a text: none when the text is
    blank or the token missing, one otherwise. *)
Lemma GetSentimentFromHF_posts (U : Unicode) (env : Env) (text : string) (w : World) :
  trace (snd (GetSentimentFromHF U env text w)) =
    (trace w ++ EvGetSentimentFromHF text ::
       if (TrimSpace U text =? "")%string || (Getenv env "HF_TOKEN" =? "")%string then []
       else [EvHTTPPost (HfApiBaseURL ++ SentimentModelID) (HFSentimentRequest text)])%list.
Proof.
  destruct (String.eqb_spec (TrimSpace U text) "") as [B | B].
  - now rewrite (GetSentimentFromHF_blank U env text w B).
  - apply String.eqb_neq in B.
    unfold GetSentimentFromHF, bind, ret. cbn [emit]. rewrite B.
    pose proof (CallHuggingFaceAPI_posts env SentimentModelID (HFSentimentRequest text)
                  {| db := db w; proc := proc w; reads := reads w;
                     trace := trace w ++ [EvGetSentimentFromHF text] |}
                  (proj1 (NewRequest_models env))) as P.
    destruct (CallHuggingFaceAPI env SentimentModelID (HFSentimentRequest text) _)
      as [res w1].
    cbn [snd trace orb] in *.
    assert (G : trace w1 =
                  (trace w ++ EvGetSentimentFromHF text ::
                     if (Getenv env "HF_TOKEN" =? "")%string then []
                     else [EvHTTPPost (HfApiBaseURL ++ SentimentModelID)
                             (HFSentimentRequest text)])%list).
    { rewrite P, <- app_assoc. reflexivity. }
    destruct res as [[[|[|p first] rest]| |]|e]; exact G.
Qed.

Lemma GetTopicsFromHF_posts (U : Unicode) (env : Env) (text : string)
  (candidates : list string) (w : World) :
  trace (snd (GetTopicsFromHF U env text candidates w)) =
    (trace w ++ EvGetTopicsFromHF text candidates ::
       if (TrimSpace U text =? "")%string || (List.length candidates =? 0)%nat
          || (Getenv env "HF_TOKEN" =? "")%string then []
       else [EvHTTPPost (HfApiBaseURL ++ ZeroShotModelID)
               (HFZeroShotRequest text candidates true)])%list.
Proof.
  unfold GetTopicsFromHF, bind, ret. cbn [emit].
  destruct ((TrimSpace U text =? "")%string || (List.length candidates =? 0)%nat);
    [reflexivity|].
  pose proof (CallHuggingFaceAPI_posts env ZeroShotModelID
                (HFZeroShotRequest text candidates true)
                {| db := db w; proc := proc w; reads := reads w;
                   trace := trace w ++ [EvGetTopicsFromHF text candidates] |}
                (proj2 (NewRequest_models env))) as P.
  destruct (CallHuggingFaceAPI env ZeroShotModelID (HFZeroShotRequest text candidates true) _)
    as [res w1].
  cbn [snd trace orb] in *.
  assert (G : trace w1 =
                (trace w ++ EvGetTopicsFromHF text candidates ::
                   if (Getenv env "HF_TOKEN" =? "")%string then []
                   else [EvHTTPPost (HfApiBaseURL ++ ZeroShotModelID)
                           (HFZeroShotRequest text candidates true)])%list).
  { rewrite P, <- app_assoc. reflexivity. }
  destruct res as [[r0|z|]|e]; try exact G.
  destruct ((0 <? List.length (Labels z))%nat
            && (List.length (Scores z) =? List.length (Labels z))%nat); exact G.
Qed.

(** The events of the enrichment block. *)
Lemma enrich_posts (U : Unicode) (env : Env) (score : Z) (text : string) (w : World) :
  trace (snd (enrich U env score text w)) =
    (trace w ++
       (EvGetSentimentFromHF text ::
          if (TrimSpace U text =? "")%string || (Getenv env "HF_TOKEN" =? "")%string then []
          else [EvHTTPPost (HfApiBaseURL ++ SentimentModelID) (HFSentimentRequest text)]) ++
       (EvGetTopicsFromHF text candidateTopics ::
          if (TrimSpace U text =? "")%string || (Getenv env "HF_TOKEN" =? "")%string then []
          else [EvHTTPPost (HfApiBaseURL ++ ZeroShotModelID)
                  (HFZeroShotRequest text candidateTopics true)]))%list.
Proof.
  unfold enrich, bind, ret.
  pose proof (GetSentimentFromHF_posts U env text w) as P1.
  destruct (GetSentimentFromHF U env text w) as [se w1].
  pose proof (GetTopicsFromHF_posts U env text candidateTopics w1) as P2.
  destruct (GetTopicsFromHF U env text candidateTopics w1) as [te w2].
  cbn [snd] in *. rewrite P2, P1. cbn [candidateTopics List.length Nat.eqb orb].
  rewrite orb_false_r, <- app_assoc. reflexivity.
Qed.

(** The inserts behind the two stores: none or one. *)
Lemma StoreCustomerData_inserts (env : Env) (data : CustomerData) (w w' : World)
  (res : result string) :
  StoreCustomerData env data w = (res, w') ->
  exists ins, trace w' = (trace w ++ EvStoreCustomerData data :: ins)%list /\
              (ins = [] \/ exists row, ins = [EvInsert "customer_feedback" (FeedbackRow row)]).
Proof.
  store_cases w env data;
    eexists; (split; [reflexivity|]); first [now left | right; now eexists].
Qed.

Lemma StoreChurnPrediction_inserts (env : Env) (p : ChurnPrediction) (w w' : World)
  (err : option error) :
  StoreChurnPrediction env p w = (err, w') ->
  exists ins, trace w' = (trace w ++ EvStoreChurnPrediction p :: ins)%list /\
              (ins = [] \/ exists row, ins = [EvInsert "churn_predictions" (PredictionRow row)]).
Proof.
  store_cases w env p;
    eexists; (split; [reflexivity|]); first [now left | right; now eexists].
Qed.

(** The calls of the storing block: no request to the inference endpoint,
    at most one insert per table, the prediction insert only after a
    feedback insert. *)
Lemma storeAndRespond_calls (U : Unicode) (env : Env) (data : CustomerData) (w : World) :
  exists evs,
    trace (snd (storeAndRespond U env data w)) = (trace w ++ evs)%list /\
    tally isHTTPPost evs = 0%nat /\
    tally (isPostTo SentimentModelID) evs = 0%nat /\
    tally (isPostTo ZeroShotModelID) evs = 0%nat /\
    (tally (isInsertInto "customer_feedback") evs <= 1)%nat /\
    (tally (isInsertInto "churn_predictions") evs
     <= tally (isInsertInto "customer_feedback") evs)%nat /\
    tally isInsert evs = (tally (isInsertInto "customer_feedback") evs
                          + tally (isInsertInto "churn_predictions") evs)%nat.
Proof.
  destruct (StoreCustomerData env data w) as [[id | e] w1] eqn:HS.
  - pose proof (StoreCustomerData_ok _ _ _ _ _ HS) as [_ [_ [_ [_ [[row T1] _]]]]].
    destruct (StoreChurnPrediction env
                (scored U (setID data id) id (Clock env (reads w1)))
                {| db := db w1; proc := proc w1; reads := S (reads w1);
                   trace := trace w1 ++ [EvPredictChurn (setID data id)] |})
      as [err w2] eqn:P.
    rewrite (storeAndRespond_feedback_ok U env data w w1 w2 id err HS P).
    destruct (StoreChurnPrediction_inserts _ _ _ _ _ P) as [ins [T2 C]].
    cbn [snd emit trace] in *.
    set (last := match err with
                 | Some _ => EvRespond 500 (ErrorJSON "Failed to store churn prediction.")
                 | None => _
                 end).
    assert (L : exists c pl, last = EvRespond c pl).
    { unfold last. destruct err; now eexists _, _. }
    destruct L as [c [pl ->]].
    exists ([EvStoreCustomerData data; EvInsert "customer_feedback" (FeedbackRow row);
             EvPredictChurn (setID data id);
             EvStoreChurnPrediction (scored U (setID data id) id (Clock env (reads w1)))]
            ++ ins ++ [EvRespond c pl])%list.
    split.
    + rewrite T2, T1, <- !app_assoc. reflexivity.
    + destruct C as [-> | [prow ->]]; vm_compute; repeat split; lia.
  - rewrite (storeAndRespond_feedback_err U env data w w1 e HS).
    destruct (StoreCustomerData_inserts _ _ _ _ _ HS) as [ins [T1 C]].
    cbn [snd emit trace].
    exists (EvStoreCustomerData data :: ins
            ++ [EvRespond 500 (ErrorJSON "Failed to store customer data.")])%list.
    split.
    + rewrite T1, <- app_assoc. reflexivity.
    + destruct C as [-> | [row ->]]; vm_compute; repeat split; lia.
Qed.

(** X13: nothing is tried twice.  One request sends at most one request to
    each of the two models and to no other address, runs at most one insert
    per table, and never inserts a prediction without having inserted a
    feedback row; a failed call is not repeated. *)
Theorem PredictHandler_no_retry (U : Unicode) (env : Env) (r : Request) (w : World) :
  exists evs,
    trace (snd (PredictHandler U env r w)) = (trace w ++ evs)%list /\
    (tally (isPostTo SentimentModelID) evs <= 1)%nat /\
    (tally (isPostTo ZeroShotModelID) evs <= 1)%nat /\
    tally isHTTPPost evs = (tally (isPostTo SentimentModelID) evs
                            + tally (isPostTo ZeroShotModelID) evs)%nat /\
    (tally (isInsertInto "customer_feedback") evs <= 1)%nat /\
    (tally (isInsertInto "churn_predictions") evs
     <= tally (isInsertInto "customer_feedback") evs)%nat /\
    tally isInsert evs = (tally (isInsertInto "customer_feedback") evs
                          + tally (isInsertInto "churn_predictions") evs)%nat.
Proof.
  destruct (PredictHandler_refused U env r w)
    as [[req [score A]] | [code [message [E _]]]].
  - rewrite (PredictHandler_accepted U env r w req score A).
    pose proof (enrich_posts U env score (FeedbackText req) (snd (initialize env w))) as P.
    destruct (enrich U env score (FeedbackText req) (snd (initialize env w)))
      as [data w2].
    cbn [fst snd] in *.
    destruct (storeAndRespond_calls U env data w2)
      as [evs [T [H0 [H1 [H2 [H3 [H4 H5]]]]]]].
    destruct (initialize_frame env w) as [_ [T0 _]].
    rewrite T0 in P.
    set (pre := ((EvGetSentimentFromHF (FeedbackText req) :: _) ++ _)%list) in P.
    exists (pre ++ evs)%list. split; [rewrite T, P, <- app_assoc; reflexivity|].
    assert (Q : (tally (isPostTo SentimentModelID) pre <= 1)%nat /\
                (tally (isPostTo ZeroShotModelID) pre <= 1)%nat /\
                tally isHTTPPost pre = (tally (isPostTo SentimentModelID) pre
                                        + tally (isPostTo ZeroShotModelID) pre)%nat /\
                tally (isInsertInto "customer_feedback") pre = 0%nat /\
                tally (isInsertInto "churn_predictions") pre = 0%nat /\
                tally isInsert pre = 0%nat).
    { unfold pre.
      destruct ((TrimSpace U (FeedbackText req) =? "")%string
                || (Getenv env "HF_TOKEN" =? "")%string);
        vm_compute; repeat split; lia. }
    destruct Q as [Q1 [Q2 [Q3 [Q4 [Q5 Q6]]]]].
    rewrite !tally_app, H0, H1, H2, H5, Q3, Q4, Q5, Q6.
    repeat split; lia.
  - exists [EvRespond code (ErrorJSON message)].
    rewrite E. cbn [snd emit trace].
    destruct (initialize_frame env w) as [_ [-> _]].
    split; [reflexivity|]. vm_compute. repeat split; lia.
Qed.

(** ** What is stored and what is answered *)

(** Probability and reason are functions of the rating, the text and the
    sentiment label. *)
Lemma PredictChurn_reads (U : Unicode) (d1 d2 : CustomerData) (n1 n2 : N) :
  NLSScore d1 = NLSScore d2 -> Feedback d1 = Feedback d2 ->
  CommentSentiment d1 = CommentSentiment d2 ->
  ChurnProbability (PredictChurn U d1 n1) = ChurnProbability (PredictChurn U d2 n2) /\
  Reason (PredictChurn U d1 n1) = Reason (PredictChurn U d2 n2).
Proof.
  intros HN HF HS. unfold PredictChurn. rewrite HN, HF, HS. cbv zeta.
  destruct (((NLSScore d2 <? 5) && hasNegativeFeedback U (Feedback d2))
            || ((NLSScore d2 <? 3) && isNegativeSentiment U (CommentSentiment d2)));
    [now split|].
  destruct (NLSScore d2 >=? 8); now split.
Qed.

(** X14: the scoring engine reads three fields only.  Two records with the
    same rating, text and sentiment label get the same prediction at the
    same time, whatever their identifiers, creation times and topics: the
    topics extracted for a comment never change its score.  Both
    identifiers of the prediction are left empty, also when the record has
    one. *)
Theorem PredictChurn_reads_three_fields (U : Unicode) (d1 d2 : CustomerData) (now : N) :
  NLSScore d1 = NLSScore d2 -> Feedback d1 = Feedback d2 ->
  CommentSentiment d1 = CommentSentiment d2 ->
  PredictChurn U d1 now = PredictChurn U d2 now /\
  PredictionID (PredictChurn U d1 now) = "" /\
  CustomerID (PredictChurn U d1 now) = "".
Proof.
  intros HN HF HS. unfold PredictChurn. rewrite HN, HF, HS. cbv zeta.
  destruct (((NLSScore d2 <? 5) && hasNegativeFeedback U (Feedback d2))
            || ((NLSScore d2 <? 3) && isNegativeSentiment U (CommentSentiment d2)));
    [now repeat split|].
  destruct (NLSScore d2 >=? 8); now repeat split.
Qed.

Lemma PredictChurn_reads_three_fields_witness :
  PredictChurn asciiOnly keywordCase 7 =
  PredictChurn asciiOnly
    {| ID := "another"; NLSScore := 4;
       Feedback := "I am very unhappy with the terrible service.";
       CreatedAt := Instant 3; CommentSentiment := "NEUTRAL";
       CommentTopics := ["service"; "pricing"] |} 7.
Proof.
  exact (proj1 (PredictChurn_reads_three_fields asciiOnly keywordCase
                  {| ID := "another"; NLSScore := 4;
                     Feedback := "I am very unhappy with the terrible service.";
                     CreatedAt := Instant 3; CommentSentiment := "NEUTRAL";
                     CommentTopics := ["service"; "pricing"] |} 7
                  eq_refl eq_refl eq_refl)).
Defined.

(** A request answered 200 passed the validator and went through the whole
    storing block. *)
Lemma answered200_completed (U : Unicode) (env : Env) (r : Request) (w : World)
  (response : ApiResponse) :
  answered200 (snd (PredictHandler U env r w)) response ->
  exists req score f stored,
    accepted env r w req score /\
    completed U env (enriched U env w req score) (beforeStore U env w req score)
      (snd (PredictHandler U env r w)) f stored response.
Proof.
  intros [last P].
  destruct (PredictHandler_rejected U env r w)
    as [[req [score A]] | [code [message [NE E]]]].
  2:{ exfalso. rewrite E in P. cbn [snd emit trace] in P.
      apply app_last_inv in P. discriminate. }
  destruct (accepted_run U env r w req score A) as [E _].
  rewrite E in *.
  destruct (storeAndRespond_outcome U env (enriched U env w req score)
              (beforeStore U env w req score))
    as [[e [_ O]] | [[f [e [_ [_ O]]]] | [f [stored [response' [_ [_ O]]]]]]].
  - exfalso. destruct O as [ins [T' _]]. rewrite T' in P.
    change (?a :: ins ++ ?l)%list with ((a :: ins) ++ l)%list in P.
    rewrite app_assoc in P. apply app_last_inv in P. discriminate.
  - exfalso. destruct O as [row [p [ins [_ [_ [_ [_ [T' _]]]]]]]]. rewrite T' in P.
    rewrite !app_assoc in P. apply app_last_inv in P. discriminate.
  - assert (Heq : response' = response).
    { destruct O as [row [p [prow [w1 O]]]].
      destruct O as [_ [_ [_ [_ [_ [_ [_ [_ [_ [_ [_ [_ [_ [_ T']]]]]]]]]]]]]].
      rewrite T' in P.
      change [?a; ?b; ?c; ?d; ?e; ?g] with ([a; b; c; d; e] ++ [g])%list in P.
      rewrite app_assoc in P. apply app_last_inv in P. now injection P. }
    rewrite Heq in O. now exists req, score, f, stored.
Qed.

(** X15: a 200 reports what was stored.  The request carried a rating and a
    text; each table has gained one row; the feedback row holds that rating
    and that text as sent, untrimmed, with the sentiment and the topics of
    the answer; probability and reason of the answer are those of the
    stored prediction, and they are what the scoring engine gives for the
    stored feedback row. *)
Theorem response_reports_stored_rows (U : Unicode) (env : Env) (r : Request) (w : World)
  (response : ApiResponse) :
  answered200 (snd (PredictHandler U env r w)) response ->
  exists req f stored,
    JSONBody r = Some req /\
    customer_feedback (db (snd (PredictHandler U env r w))) =
      (customer_feedback (db w) ++ [f])%list /\
    churn_predictions (db (snd (PredictHandler U env r w))) =
      (churn_predictions (db w) ++ [stored])%list /\
    reqNLSScore req = Some (NLSScore f) /\ FeedbackText req = Feedback f /\
    respCommentSentiment response = CommentSentiment f /\
    respCommentTopics response = CommentTopics f /\
    respChurnProbability response = ChurnProbability stored /\
    respReason response = Reason stored /\
    forall now,
      ChurnProbability stored = ChurnProbability (PredictChurn U f now) /\
      Reason stored = Reason (PredictChurn U f now).
Proof.
  intros H.
  destruct (answered200_completed U env r w response H)
    as [req [score [f [stored [A O]]]]].
  destruct (accepted_run U env r w req score A) as [_ [_ [HN [HF [D _]]]]].
  destruct O as [row [p [prow [w1 O]]]].
  destruct O as [_ [CF [CP [_ [F1 [F2 [F3 [F4 [Hp [_ [_ [Ps [Rs [R _]]]]]]]]]]]]]].
  rewrite D in CF, CP.
  destruct A as [[_ [_ Hb]] [Hs _]].
  exists req, f, stored.
  split; [exact Hb|]. split; [exact CF|]. split; [exact CP|].
  split; [now rewrite F1, HN|]. split; [now rewrite F2, HF|].
  rewrite R. cbn [respCommentSentiment respCommentTopics respChurnProbability respReason].
  split; [now rewrite F3|]. split; [now rewrite F4|].
  split; [now rewrite Ps|]. split; [now rewrite Rs|].
  intros now. rewrite Ps, Rs, Hp. unfold scored.
  cbn [ChurnProbability Reason].
  apply PredictChurn_reads; cbn [setID NLSScore Feedback CommentSentiment]; congruence.
Qed.

Lemma response_reports_stored_rows_witness :
  answered200 (snd (PredictHandler asciiOnly envOK
                      (post (Some 9) "Excellent product, very happy!") world0))
    happyResponse /\
  exists f stored,
    db (snd (PredictHandler asciiOnly envOK
               (post (Some 9) "Excellent product, very happy!") world0)) =
      {| customer_feedback := [f]; churn_predictions := [stored] |} /\
    NLSScore f = 9 /\ Feedback f = "Excellent product, very happy!" /\
    ChurnProbability stored = float64 0.1.
Proof.
  split; [exact answered200_happy|].
  destruct (response_reports_stored_rows asciiOnly envOK
              (post (Some 9) "Excellent product, very happy!") world0 happyResponse
              answered200_happy)
    as [req [f [stored [Hb [CF [CP [HN [HF [_ [_ [HP _]]]]]]]]]]].
  exists f, stored.
  injection Hb as <-. cbn [reqNLSScore FeedbackText] in HN, HF.
  injection HN as HN.
  split.
  - destruct (db (snd (PredictHandler asciiOnly envOK
                         (post (Some 9) "Excellent product, very happy!") world0))).
    cbn [customer_feedback churn_predictions] in CF, CP. now rewrite CF, CP.
  - split; [now symmetry|]. split; [now symmetry|]. now rewrite <- HP.
Defined.

(** ** A stored row behind a failed store *)

(** The insert executes and its reply cannot be used: the store reports an
    error, and the row is in the table. *)
Lemma StoreCustomerData_unreadable (env : Env) (data : CustomerData) (w : World) :
  SupabaseClient (proc w) = true -> ID data = "" ->
  feedbackReplyUnreadable env (db w) ->
  exists e w' f row,
    StoreCustomerData env data w = (Err e, w') /\
    (e = "error unmarshalling customer data" \/ e = "no data returned after insert") /\
    customer_feedback (db w') = (customer_feedback (db w) ++ [f])%list /\
    ID f = feedbackUUID env /\ NLSScore f = NLSScore data /\ Feedback f = Feedback data /\
    trace w' = (trace w ++ [EvStoreCustomerData data;
                            EvInsert "customer_feedback" (FeedbackRow row)])%list.
Proof.
  intros SC0 I [FF0 IN0].
  destruct (StoreCustomerData env data w) as [res w'] eqn:HS. revert HS.
  store_cases w env data; try congruence.
  all: try (destruct FF0; congruence).
  all: try (rewrite I in *; cbn in *; congruence).
  all: eexists _, _, _, _; (split; [reflexivity|]);
    (split; [first [now left | now right]|]);
    (split; [reflexivity|]); cbn [ID NLSScore Feedback];
    (split; [now rewrite I|]); (split; [reflexivity|]); (split; reflexivity).
Qed.

(** X16: a feedback row can stay behind a request that was told its
    feedback could not be stored.  When the feedback insert executes and
    its reply is unreadable or holds no row, the row is in the table under
    the identifier the service gave it, with the rating and the text of the
    request; the request is answered 500 "Failed to store customer data.",
    the scoring engine is never run and no prediction is written. *)
Theorem unreadable_reply_leaves_feedback_row (U : Unicode) (env : Env) (r : Request)
  (w : World) (req : ApiPredictRequest) (score : Z) :
  accepted env r w req score ->
  procOK (proc w) ->
  feedbackReplyUnreadable env (db w) ->
  exists f evs,
    ID f = feedbackUUID env /\ NLSScore f = score /\ Feedback f = FeedbackText req /\
    customer_feedback (db (snd (PredictHandler U env r w))) =
      (customer_feedback (db w) ++ [f])%list /\
    churn_predictions (db (snd (PredictHandler U env r w))) = churn_predictions (db w) /\
    trace (snd (PredictHandler U env r w)) =
      (trace w ++ evs
         ++ [EvRespond 500 (ErrorJSON "Failed to store customer data.")])%list /\
    steps evs = [StepSentiment; StepTopics; StepInsertFeedback] /\
    tally (isInsertInto "customer_feedback") evs = 1%nat.
Proof.
  intros A OK FU.
  destruct (accepted_run U env r w req score A)
    as [E [I [HN [HF [D [SC [posts1 [posts2 [T [S1 S2]]]]]]]]]].
  rewrite E.
  set (data := enriched U env w req score) in *.
  set (w0 := beforeStore U env w req score) in *.
  assert (FU' : feedbackReplyUnreadable env (db w0)) by now rewrite D.
  destruct (StoreCustomerData_unreadable env data w0 (SC OK) I FU')
    as [e [w1 [f [row [HS [_ [CF [If [F1 [F2 T1]]]]]]]]]].
  pose proof (StoreCustomerData_frame _ _ _ _ _ HS) as [_ [CP _]].
  rewrite (storeAndRespond_feedback_err U env data w0 w1 e HS).
  cbn [snd emit db trace].
  exists f,
    ((EvGetSentimentFromHF (FeedbackText req) :: posts1
        ++ EvGetTopicsFromHF (FeedbackText req) candidateTopics :: posts2)
       ++ [EvStoreCustomerData data; EvInsert "customer_feedback" (FeedbackRow row)])%list.
  split; [exact If|]. split; [congruence|]. split; [congruence|].
  split; [now rewrite CF, D|]. split; [now rewrite CP, D|].
  split; [rewrite T1, T, <- !app_assoc; reflexivity|].
  split.
  - rewrite steps_app. cbn [steps stepOf]. rewrite steps_app. cbn [steps stepOf].
    now rewrite S1, S2.
  - rewrite tally_app.
    pose proof (enrich_posts U env score (FeedbackText req) (snd (initialize env w))) as P.
    fold (beforeStore U env w req score) in P. fold w0 in P.
    destruct (initialize_frame env w) as [_ [T0 _]]. rewrite T0, T in P.
    apply app_inv_head in P. rewrite P.
    destruct ((TrimSpace U (FeedbackText req) =? "")%string
              || (Getenv env "HF_TOKEN" =? "")%string); reflexivity.
Qed.

Lemma unreadable_reply_leaves_feedback_row_witness :
  accepted envReplyGarbled (post (Some 2) "terrible unhappy service") world0
    unhappyRequest 2 /\
  procOK (proc world0) /\
  feedbackReplyUnreadable envReplyGarbled (db world0) /\
  exists f,
    ID f = "feedback-1" /\
    customer_feedback (db (snd (PredictHandler asciiOnly envReplyGarbled
                                  (post (Some 2) "terrible unhappy service") world0))) = [f] /\
    churn_predictions (db (snd (PredictHandler asciiOnly envReplyGarbled
                                  (post (Some 2) "terrible unhappy service") world0))) = [].
Proof.
  assert (A : accepted envReplyGarbled (post (Some 2) "terrible unhappy service") world0
                unhappyRequest 2)
    by (apply accepted_demo; (reflexivity || lia)).
  assert (FU : feedbackReplyUnreadable envReplyGarbled (db world0))
    by (split; [now left | reflexivity]).
  split; [exact A|]. split; [exact procOK_world0|]. split; [exact FU|].
  destruct (unreadable_reply_leaves_feedback_row asciiOnly envReplyGarbled _ world0
              unhappyRequest 2 A procOK_world0 FU)
    as [f [evs [If [_ [_ [CF [CP _]]]]]]].
  exists f. split; [exact If|]. split; [exact CF | exact CP].
Defined.

(** ** Requests that call no model *)

Lemma allSpace_app (a b : string) :
  allSpace (a ++ b) = allSpace a && allSpace b.
Proof.
  induction a as [|c a IH]; [reflexivity|].
  cbn [append allSpace]. now rewrite IH, andb_assoc.
Qed.

Lemma lowerByte_space (c : ascii) : asciiSpace c = true -> lowerByte c = c.
Proof.
  intros H. destruct c as [[|] [|] [|] [|] [|] [|] [|] [|]];
    first [discriminate H | reflexivity].
Qed.

Lemma mapBytes_lowerByte_blank (s : string) :
  allSpace s = true -> mapBytes lowerByte s = s.
Proof.
  induction s as [|c s IH]; [reflexivity|].
  cbn [allSpace mapBytes]. intros H. apply andb_true_iff in H. destruct H as [C H].
  now rewrite (lowerByte_space c C), (IH H).
Qed.

(** White space holds no keyword. *)
Lemma hasNegativeFeedback_blank (U : Unicode) (s : string) :
  isASCII s = true -> allSpace s = true -> hasNegativeFeedback U s = false.
Proof.
  intros A B. destruct (hasNegativeFeedback U s) eqn:H; [|reflexivity].
  apply hasNegativeFeedback_spec in H.
  destruct H as [keyword [K [pre [post E]]]].
  unfold ToLower in E. rewrite A, (mapBytes_lowerByte_blank s B) in E.
  rewrite E, !allSpace_app in B.
  apply andb_true_iff in B. destruct B as [_ B].
  apply andb_true_iff in B. destruct B as [B _].
  cbn in K. repeat destruct K as [<- | K]; try discriminate B. destruct K.
Qed.

(** The record the enrichment block builds when it sends nothing: the text
    is blank, or the token is missing. *)
Lemma enrich_silent (U : Unicode) (env : Env) (score : Z) (text : string) (w : World) :
  (TrimSpace U text =? "")%string || (Getenv env "HF_TOKEN" =? "")%string = true ->
  CommentSentiment (fst (enrich U env score text w)) =
    (if (TrimSpace U text =? "")%string then "NEUTRAL" else "UNKNOWN") /\
  CommentTopics (fst (enrich U env score text w)) = [].
Proof.
  intros H.
  destruct (enrich U env score text w) as [data w'] eqn:En.
  apply enrich_spec in En. destruct En as [-> _].
  cbn [fst CommentSentiment CommentTopics].
  destruct (String.eqb_spec (TrimSpace U text) "") as [B | B].
  - rewrite (GetSentimentFromHF_blank U env text w B). cbn [fst snd].
    rewrite (GetTopicsFromHF_skip U env text candidateTopics _ (or_introl B)).
    now split.
  - cbn [orb] in H.
    rewrite (GetSentimentFromHF_nonblank U env text w B), H. cbn [fst snd].
    assert (C : candidateTopics <> []) by discriminate.
    rewrite (GetTopicsFromHF_call U env text candidateTopics _ B C), H.
    now split.
Qed.

(** The events of one accepted request that sends nothing to a model. *)
Lemma accepted_silent (U : Unicode) (env : Env) (r : Request) (w : World)
  (req : ApiPredictRequest) (score : Z) :
  accepted env r w req score ->
  (TrimSpace U (FeedbackText req) =? "")%string || (Getenv env "HF_TOKEN" =? "")%string
    = true ->
  exists evs,
    trace (snd (PredictHandler U env r w)) = (trace w ++ evs)%list /\
    tally isHTTPPost evs = 0%nat.
Proof.
  intros A H.
  rewrite (PredictHandler_accepted U env r w req score A).
  pose proof (enrich_posts U env score (FeedbackText req) (snd (initialize env w))) as P.
  rewrite H in P.
  destruct (enrich U env score (FeedbackText req) (snd (initialize env w))) as [data w2].
  cbn [fst snd] in *.
  destruct (storeAndRespond_calls U env data w2) as [evs [T [H0 _]]].
  destruct (initialize_frame env w) as [_ [T0 _]]. rewrite T0 in P.
  exists (([EvGetSentimentFromHF (FeedbackText req)]
           ++ [EvGetTopicsFromHF (FeedbackText req) candidateTopics]) ++ evs)%list.
  split; [rewrite T, P, <- app_assoc; reflexivity|].
  rewrite tally_app, H0. reflexivity.
Qed.

(** A storing block that completes has answered 200. *)
Lemma completed_answered200 (U : Unicode) (env : Env) (data : CustomerData)
  (w0 w' : World) (f : CustomerData) (stored : ChurnPrediction) (response : ApiResponse) :
  completed U env data w0 w' f stored response ->
  answered200 w' response /\
  respCommentSentiment response = CommentSentiment data /\
  respCommentTopics response = CommentTopics data.
Proof.
  intros [row [p [prow [w1 O]]]].
  destruct O as [_ [_ [_ [_ [_ [_ [_ [_ [_ [_ [_ [_ [_ [R T']]]]]]]]]]]]]].
  split.
  - exists (trace w0 ++ [EvStoreCustomerData data;
                         EvInsert "customer_feedback" (FeedbackRow row);
                         EvPredictChurn (setID data (ID f));
                         EvStoreChurnPrediction p;
                         EvInsert "churn_predictions" (PredictionRow prow)])%list.
    rewrite T', <- app_assoc. reflexivity.
  - rewrite R. now split.
Qed.

(** X17: the service runs without the inference token.  With HF_TOKEN
    unset an accepted request sends nothing to the inference endpoint; its
    record carries no topic and the sentiment UNKNOWN (NEUTRAL for blank
    text); and when both inserts go through it is answered 200 with these
    values. *)
Theorem missing_token_degrades_every_request (U : Unicode) (env : Env) (r : Request)
  (w : World) (req : ApiPredictRequest) (score : Z) :
  accepted env r w req score ->
  Getenv env "HF_TOKEN" = "" ->
  CommentSentiment (enriched U env w req score) =
    (if (TrimSpace U (FeedbackText req) =? "")%string then "NEUTRAL" else "UNKNOWN") /\
  CommentTopics (enriched U env w req score) = [] /\
  (exists evs,
     trace (snd (PredictHandler U env r w)) = (trace w ++ evs)%list /\
     tally isHTTPPost evs = 0%nat) /\
  (procOK (proc w) ->
   feedbackInsertSucceeds env (db w) -> predictionInsertSucceeds env (db w) ->
   exists response,
     answered200 (snd (PredictHandler U env r w)) response /\
     respCommentSentiment response =
       (if (TrimSpace U (FeedbackText req) =? "")%string then "NEUTRAL" else "UNKNOWN") /\
     respCommentTopics response = []).
Proof.
  intros A T.
  assert (H : (TrimSpace U (FeedbackText req) =? "")%string
              || (Getenv env "HF_TOKEN" =? "")%string = true).
  { rewrite T. cbn [String.eqb]. apply orb_true_r. }
  destruct (enrich_silent U env score (FeedbackText req) (snd (initialize env w)) H)
    as [S1 S2].
  fold (enriched U env w req score) in S1, S2.
  split; [exact S1|]. split; [exact S2|].
  split; [exact (accepted_silent U env r w req score A H)|].
  intros OK FS PS.
  destruct (accepted_run U env r w req score A) as [E [I [_ [_ [D [SC _]]]]]].
  rewrite E.
  destruct (storeAndRespond_completes U env (enriched U env w req score)
              (beforeStore U env w req score)) as [f [stored [response [_ O]]]]; auto.
  { now rewrite D. }
  { now rewrite D. }
  apply completed_answered200 in O. destruct O as [O1 [O2 O3]].
  exists response. split; [exact O1|]. split; congruence.
Qed.

Lemma missing_token_degrades_every_request_witness :
  accepted envNoToken (post (Some 6) "The service was okay.") world0 okayRequest 6 /\
  Getenv envNoToken "HF_TOKEN" = "" /\
  CommentSentiment (enriched asciiOnly envNoToken world0 okayRequest 6) = "UNKNOWN" /\
  exists response,
    answered200 (snd (PredictHandler asciiOnly envNoToken
                        (post (Some 6) "The service was okay.") world0)) response /\
    respCommentTopics response = [].
Proof.
  assert (A : accepted envNoToken (post (Some 6) "The service was okay.") world0
                okayRequest 6)
    by (apply accepted_demo; (reflexivity || lia)).
  split; [exact A|]. split; [reflexivity|].
  destruct (missing_token_degrades_every_request asciiOnly envNoToken _ world0
              okayRequest 6 A eq_refl) as [S1 [_ [_ K]]].
  split; [exact S1|].
  destruct (K procOK_world0) as [response [R1 [_ R3]]].
  - split; reflexivity.
  - split; [discriminate | reflexivity].
  - exists response. split; [exact R1 | exact R3].
Defined.

(** X18: feedback without text is never rated high-risk.  For a request
    whose text is empty or ASCII white space only, no request is sent to a
    model, the record has sentiment NEUTRAL and no topic, and the
    probability is 0.1 from rating 8 on and 0.4 below, down to rating 0:
    the 0.8 of the first rule cannot be reached. *)
Theorem blank_feedback_never_high_risk (U : Unicode) (env : Env) (r : Request)
  (w : World) (req : ApiPredictRequest) (score : Z) :
  accepted env r w req score ->
  isASCII (FeedbackText req) = true ->
  allSpace (FeedbackText req) = true ->
  CommentSentiment (enriched U env w req score) = "NEUTRAL" /\
  CommentTopics (enriched U env w req score) = [] /\
  (forall now,
     ChurnProbability (PredictChurn U (enriched U env w req score) now) =
       if score >=? 8 then float64 0.1 else float64 0.4) /\
  (exists evs,
     trace (snd (PredictHandler U env r w)) = (trace w ++ evs)%list /\
     tally isHTTPPost evs = 0%nat) /\
  (forall response,
     answered200 (snd (PredictHandler U env r w)) response ->
     respChurnProbability response = if score >=? 8 then float64 0.1 else float64 0.4).
Proof.
  intros A HA HB.
  assert (B : TrimSpace U (FeedbackText req) = "") by now apply TrimSpace_blank.
  assert (H : (TrimSpace U (FeedbackText req) =? "")%string
              || (Getenv env "HF_TOKEN" =? "")%string = true) by now rewrite B.
  destruct (enrich_silent U env score (FeedbackText req) (snd (initialize env w)) H)
    as [S1 S2].
  fold (enriched U env w req score) in S1, S2. rewrite B in S1. cbn [String.eqb] in S1.
  destruct (accepted_run U env r w req score A) as [_ [_ [HN [HF _]]]].
  assert (P : forall d now,
             NLSScore d = score -> Feedback d = FeedbackText req ->
             CommentSentiment d = "NEUTRAL" ->
             ChurnProbability (PredictChurn U d now) =
               if score >=? 8 then float64 0.1 else float64 0.4).
  { intros d now H1 H2 H3. unfold PredictChurn. rewrite H1, H2, H3.
    rewrite (hasNegativeFeedback_blank U _ HA HB), andb_false_r. cbv zeta.
    replace (isNegativeSentiment U "NEUTRAL") with false by reflexivity.
    rewrite andb_false_r. cbn [orb].
    destruct (score >=? 8); reflexivity. }
  split; [exact S1|]. split; [exact S2|].
  split; [intros now; now apply P|].
  split; [exact (accepted_silent U env r w req score A H)|].
  intros response R.
  destruct (answered200_completed U env r w response R)
    as [req' [score' [f [stored [A' O]]]]].
  assert (req' = req) as ->.
  { destruct A as [[_ [_ J]] _], A' as [[_ [_ J']] _]. congruence. }
  assert (score' = score) as ->.
  { destruct A as [_ [J _]], A' as [_ [J' _]]. congruence. }
  destruct O as [row [p [prow [w1 O]]]].
  destruct O as [_ [_ [_ [_ [_ [_ [_ [_ [Hp [_ [_ [_ [_ [RR _]]]]]]]]]]]]]].
  rewrite RR, Hp. cbn [respChurnProbability]. unfold scored. cbn [ChurnProbability].
  apply P; cbn [setID NLSScore Feedback CommentSentiment]; assumption.
Qed.

Lemma blank_feedback_never_high_risk_witness :
  accepted envOK (post (Some 0) "   ") world0
    {| reqNLSScore := Some 0; FeedbackText := "   " |} 0 /\
  isASCII "   " = true /\ allSpace "   " = true /\
  forall response,
    answered200 (snd (PredictHandler asciiOnly envOK (post (Some 0) "   ") world0)) response ->
    respChurnProbability response = float64 0.4.
Proof.
  assert (A : accepted envOK (post (Some 0) "   ") world0
                {| reqNLSScore := Some 0; FeedbackText := "   " |} 0)
    by (apply accepted_demo; (reflexivity || lia)).
  split; [exact A|]. split; [reflexivity|]. split; [reflexivity|].
  exact (proj2 (proj2 (proj2 (proj2
           (blank_feedback_never_high_risk asciiOnly envOK _ world0 _ 0 A
              eq_refl eq_refl))))).
Defined.

(** ** The clock *)

(** A record that comes without a creation time gets the next reading of
    the clock. *)
Lemma StoreCustomerData_clock (env : Env) (data : CustomerData) (w w' : World)
  (id : string) :
  CreatedAt data = ZeroTime ->
  StoreCustomerData env data w = (Ok id, w') ->
  reads w' = S (reads w) /\
  exists f,
    customer_feedback (db w') = (customer_feedback (db w) ++ [f])%list /\
    CreatedAt f = Instant (Clock env (reads w)).
Proof.
  intros Z. unfold StoreCustomerData, ExecuteInsertFeedback, insert_customer_feedback, reply.
  unfold_m. rewrite Z. cbn [IsZero proc db trace reads ID CreatedAt].
  destruct (SupabaseClient (proc w)); cbn [negb]; [|discriminate].
  destruct (feedbackFault env);
    try discriminate;
    destruct (inb _ _); try discriminate;
    cbn [proc db trace reads];
    intros E; injection E as _ <-; cbn [reads db customer_feedback];
    (split; [reflexivity|]); eexists; split; reflexivity.
Qed.

(** A prediction that carries its time is stored with it; the clock is not
    read. *)
Lemma StoreChurnPrediction_clock (env : Env) (p : ChurnPrediction) (w w' : World)
  (t : N) :
  PredictedAt p = Instant t ->
  StoreChurnPrediction env p w = (None, w') ->
  reads w' = reads w /\
  exists stored,
    churn_predictions (db w') = (churn_predictions (db w) ++ [stored])%list /\
    PredictedAt stored = Instant t.
Proof.
  intros Z. unfold StoreChurnPrediction, ExecuteInsertPrediction, insert_churn_prediction,
    reply.
  unfold_m. rewrite Z. cbn [IsZero proc db trace reads PredictionID CustomerID PredictedAt].
  destruct (SupabaseClient (proc w)); cbn [negb]; [|discriminate].
  destruct (predictionFault env);
    try discriminate;
    cbn [proc db trace reads];
    repeat match goal with
           | |- context [inb ?i ?l] => destruct (inb i l); cbn [negb]
           end;
    try discriminate;
    intros E; injection E as <-; cbn [reads db churn_predictions];
    (split; [reflexivity|]); eexists; (split; [reflexivity|]); cbn [PredictedAt];
    first [exact Z | reflexivity].
Qed.

Lemma PredictedAt_scored (U : Unicode) (data : CustomerData) (id : string) (now : N) :
  PredictedAt (scored U data id now) = Instant now.
Proof.
  unfold scored, PredictChurn. cbn [PredictedAt].
  destruct (((NLSScore data <? 5) && hasNegativeFeedback U (Feedback data))
            || ((NLSScore data <? 3) && isNegativeSentiment U (CommentSentiment data)));
    [reflexivity|].
  destruct (NLSScore data >=? 8); reflexivity.
Qed.

Lemma storeAndRespond_clock (U : Unicode) (env : Env) (data : CustomerData) (w0 : World)
  (response : ApiResponse) :
  CreatedAt data = ZeroTime ->
  answered200 (snd (storeAndRespond U env data w0)) response ->
  reads (snd (storeAndRespond U env data w0)) = S (S (reads w0)) /\
  exists f stored,
    customer_feedback (db (snd (storeAndRespond U env data w0))) =
      (customer_feedback (db w0) ++ [f])%list /\
    churn_predictions (db (snd (storeAndRespond U env data w0))) =
      (churn_predictions (db w0) ++ [stored])%list /\
    CreatedAt f = Instant (Clock env (reads w0)) /\
    PredictedAt stored = Instant (Clock env (S (reads w0))).
Proof.
  intros Z.
  destruct (StoreCustomerData env data w0) as [[id | e] w1] eqn:HS.
  - destruct (StoreChurnPrediction env
                (scored U (setID data id) id (Clock env (reads w1)))
                {| db := db w1; proc := proc w1; reads := S (reads w1);
                   trace := trace w1 ++ [EvPredictChurn (setID data id)] |})
      as [err w2] eqn:P.
    rewrite (storeAndRespond_feedback_ok U env data w0 w1 w2 id err HS P).
    cbn [snd emit trace db reads].
    destruct err as [e|].
    { intros [pre R]. apply app_last_inv in R. discriminate. }
    intros _.
    destruct (StoreCustomerData_clock env data w0 w1 id Z HS) as [R1 [f [CF C1]]].
    pose proof (StoreCustomerData_frame _ _ _ _ _ HS) as [_ [CP1 _]].
    destruct (StoreChurnPrediction_clock env _ _ w2 _ (PredictedAt_scored U _ _ _) P)
      as [R2 [stored [CP C2]]].
    pose proof (StoreChurnPrediction_frame _ _ _ _ _ P) as [_ [CF2 _]].
    cbn [reads db] in *.
    split; [now rewrite R2, R1|].
    exists f, stored. rewrite CF2, CF, CP, CP1, C2, R1. now repeat split.
  - rewrite (storeAndRespond_feedback_err U env data w0 w1 e HS).
    cbn [snd emit trace]. intros [pre R]. apply app_last_inv in R. discriminate.
Qed.

(** X19: on a 200 the clock is read exactly twice.  The first reading
    becomes the creation time of the feedback row, the second is taken by
    the scoring engine and becomes the prediction time; the prediction
    store finds the time set and does not read the clock again. *)
Theorem answered_request_reads_clock_twice (U : Unicode) (env : Env) (r : Request)
  (w : World) (response : ApiResponse) :
  answered200 (snd (PredictHandler U env r w)) response ->
  reads (snd (PredictHandler U env r w)) = S (S (reads w)) /\
  exists f stored,
    customer_feedback (db (snd (PredictHandler U env r w))) =
      (customer_feedback (db w) ++ [f])%list /\
    churn_predictions (db (snd (PredictHandler U env r w))) =
      (churn_predictions (db w) ++ [stored])%list /\
    CreatedAt f = Instant (Clock env (reads w)) /\
    PredictedAt stored = Instant (Clock env (S (reads w))).
Proof.
  intros H.
  destruct (PredictHandler_rejected U env r w)
    as [[req [score A]] | [code [message [NE E]]]].
  2:{ exfalso. destruct H as [pre P]. rewrite E in P. cbn [snd emit trace] in P.
      apply app_last_inv in P. discriminate. }
  rewrite (PredictHandler_accepted U env r w req score A) in *.
  destruct (enrich U env score (FeedbackText req) (snd (initialize env w)))
    as [data w2] eqn:En.
  apply enrich_spec in En. destruct En as [Hd [posts1 [posts2 [[D [_ [R _]]] _]]]].
  destruct (initialize_frame env w) as [D0 [_ R0]].
  cbn [fst snd] in *.
  assert (Z : CreatedAt data = ZeroTime) by now rewrite Hd.
  destruct (storeAndRespond_clock U env data w2 response Z H)
    as [R2 [f [stored [CF [CP [C1 C2]]]]]].
  rewrite R, R0 in R2, C1, C2. rewrite D, D0 in CF, CP.
  split; [exact R2|]. now exists f, stored.
Qed.

Lemma answered_request_reads_clock_twice_witness :
  answered200 (snd (PredictHandler asciiOnly envOK
                      (post (Some 9) "Excellent product, very happy!") world0))
    happyResponse /\
  reads (snd (PredictHandler asciiOnly envOK
                (post (Some 9) "Excellent product, very happy!") world0)) = 2%nat /\
  exists f stored,
    db (snd (PredictHandler asciiOnly envOK
               (post (Some 9) "Excellent product, very happy!") world0)) =
      {| customer_feedback := [f]; churn_predictions := [stored] |} /\
    CreatedAt f = Instant 1000 /\ PredictedAt stored = Instant 1001.
Proof.
  split; [exact answered200_happy|].
  destruct (answered_request_reads_clock_twice asciiOnly envOK
              (post (Some 9) "Excellent product, very happy!") world0 happyResponse
              answered200_happy)
    as [R [f [stored [CF [CP [C1 C2]]]]]].
  split; [exact R|].
  exists f, stored. split.
  - destruct (db (snd (PredictHandler asciiOnly envOK
                         (post (Some 9) "Excellent product, very happy!") world0))).
    cbn [customer_feedback churn_predictions] in CF, CP. now rewrite CF, CP.
  - split; [exact C1 | exact C2].
Defined.

(** ** A fresh process *)

(** X20: what the first request of a process needs.  On a process that has
    not initialised yet, initialisation succeeds exactly when SUPABASE_URL
    and SUPABASE_KEY are both set and the client can be built; HF_TOKEN
    plays no part.  When it succeeds the client is in place, so that the
    stores of this and of every later request find it; it touches neither
    the tables nor the clock and writes no response. *)
Theorem initialize_fresh_process (env : Env) (w : World) :
  initOnce (proc w) = false ->
  (fst (initialize env w) = None <->
   Getenv env "SUPABASE_URL" <> "" /\ Getenv env "SUPABASE_KEY" <> "" /\
   NewClient env = None) /\
  (fst (initialize env w) = None ->
   SupabaseClient (proc (snd (initialize env w))) = true) /\
  (Getenv env "SUPABASE_URL" = "" \/ Getenv env "SUPABASE_KEY" = "" ->
   fst (initialize env w) =
     Some "SUPABASE_URL and SUPABASE_KEY environment variables must be set" /\
   SupabaseClient (proc (snd (initialize env w))) = SupabaseClient (proc w)) /\
  db (snd (initialize env w)) = db w /\
  trace (snd (initialize env w)) = trace w /\
  reads (snd (initialize env w)) = reads w.
Proof.
  intros O.
  remember (initialize env w) as out eqn:P.
  unfold initialize, InitClients, bind, getProc, ret, putProc in P. rewrite O in P.
  destruct (String.eqb_spec (Getenv env "SUPABASE_URL") "") as [HU | HU];
    [|destruct (String.eqb_spec (Getenv env "SUPABASE_KEY") "") as [HK | HK]];
    cbn [orb] in P.
  - subst out. cbn [fst snd proc db trace reads SupabaseClient].
    split; [split; [discriminate | intros [N _]; contradiction]|].
    split; [discriminate|]. now repeat split.
  - subst out. cbn [fst snd proc db trace reads SupabaseClient].
    split; [split; [discriminate | intros [_ [N _]]; contradiction]|].
    split; [discriminate|]. now repeat split.
  - destruct (NewClient env) as [err|]; subst out;
      cbn [fst snd proc db trace reads SupabaseClient].
    + split; [split; [discriminate | intros [_ [_ N]]; discriminate]|].
      split; [discriminate|].
      split; [intros [N | N]; contradiction|]. now repeat split.
    + split; [split; [intros _; now repeat split | reflexivity]|].
      split; [reflexivity|].
      split; [intros [N | N]; contradiction|]. now repeat split.
Qed.

Lemma initialize_fresh_process_witness :
  initOnce (proc world0) = false /\
  fst (initialize envNoToken world0) = None /\
  SupabaseClient (proc (snd (initialize envNoToken world0))) = true /\
  fst (initialize envNoConfig world0) =
    Some "SUPABASE_URL and SUPABASE_KEY environment variables must be set".
Proof.
  assert (C : Getenv envNoToken "SUPABASE_URL" <> "" /\
              Getenv envNoToken "SUPABASE_KEY" <> "" /\ NewClient envNoToken = None)
    by (repeat split; discriminate).
  pose proof (initialize_fresh_process envNoToken world0 eq_refl) as [I [S _]].
  pose proof (initialize_fresh_process envNoConfig world0 eq_refl) as [_ [_ [F _]]].
  split; [reflexivity|].
  split; [exact (proj2 I C)|].
  split; [exact (S (proj2 I C))|].
  exact (proj1 (F (or_introl eq_refl))).
Defined.
